(** * Diet tracker: a shallow embedding of [app.py] and its verification

    The program is a Streamlit script that logs meals, monthly goals and
    daily notes to three worksheets of a Google spreadsheet and renders
    a daily summary.  The script is embedded as functions of a small
    state-and-exception monad over a [World] that holds the worksheets,
    the remote calls issued, the clock and the messages rendered.

    Python floats are IEEE 754 binary64 values; they are modelled with
    [spec_float] at precision 53 and maximal exponent 1024.  A text of
    Python is held as the bytes of its UTF-8 encoding. *)

From Stdlib Require Import ZArith List Bool Lia.
From Stdlib Require Import SpecFloat.
From stdpp Require Import base strings gmap list pretty.

Local Open Scope string_scope.
Local Open Scope list_scope.

(** ** Python floats *)

Module Float64.

Definition float64 : Type := spec_float.

Definition prec : Z := 53.
Definition emax : Z := 1024.

Definition zero : float64 := S754_zero false.
Definition nan : float64 := S754_nan.

Definition add : float64 -> float64 -> float64 := SFadd prec emax.
Definition div : float64 -> float64 -> float64 := SFdiv prec emax.

(** [x <= y] and [x < y] on floats: both are [False] as soon as one side
    is a NaN. *)
Definition leb : float64 -> float64 -> bool := SFleb.
Definition ltb : float64 -> float64 -> bool := SFltb.
Definition eqb : float64 -> float64 -> bool := SFeqb.

Definition is_nan (x : float64) : bool :=
  match x with S754_nan => true | _ => false end.

Definition is_inf (x : float64) : bool :=
  match x with S754_infinity _ => true | _ => false end.

(** The binary64 value nearest to the integer [z] (ties to even). *)
Definition of_Z (z : Z) : float64 := binary_normalize prec emax z 0 false.

(** The binary64 value nearest to [n / 10^k]: the float that the decimal
    literal with digits [n] and [k] fractional digits denotes. *)
Definition decimal (n : Z) (k : nat) : float64 :=
  match n with
  | Z0 => zero
  | Zpos p => div (S754_finite false p 0) (S754_finite false (Z.to_pos (10 ^ Z.of_nat k)) 0)
  | Zneg p => div (S754_finite true p 0) (S754_finite false (Z.to_pos (10 ^ Z.of_nat k)) 0)
  end.

(** Nearest integer to [n / d] for [0 < d], ties to the even integer. *)
Definition round_half_even (n d : Z) : Z :=
  let q := (n / d)%Z in
  match (2 * (n mod d) ?= d)%Z with
  | Lt => q
  | Gt => (q + 1)%Z
  | Eq => if Z.even q then q else (q + 1)%Z
  end.

(** The number of tenths nearest to the magnitude [m * 2^e]. *)
Definition tenths (m : positive) (e : Z) : Z :=
  match e with
  | Zneg p => round_half_even (10 * Zpos m) (Z.pow 2 (Zpos p))
  | _ => (10 * Zpos m * Z.pow 2 e)%Z
  end.

(** The builtin [round(x, 1)] on a float: the exact value of [x] is rounded
    to one decimal place, ties to even, and the decimal obtained is
    converted back to the nearest float.  Zeros, infinities and NaN are
    returned as they are. *)
Definition round1 (x : float64) : float64 :=
  match x with
  | S754_finite s m e =>
      match tenths m e with
      | Zpos t => div (S754_finite s t 0) (S754_finite false 10 0)
      | _ => S754_zero s
      end
  | _ => x
  end.

End Float64.

Export Float64(float64).

(** ** Dates and times of day

    The widgets return [datetime.date] and [datetime.time] values; the script
    only formats them with [strftime].  Years are taken with four digits. *)

Definition zfill (width : nat) (s : string) : string :=
  String.concat "" (replicate (width - String.length s) "0") +:+ s.

Record date := { year : nat; month : nat; day : nat }.

Record time_of_day := { hour : nat; minute : nat; second : nat }.

(** [d.strftime("%Y-%m")] *)
Definition strftime_Ym (d : date) : string :=
  zfill 4 (pretty (year d)) +:+ "-" +:+ zfill 2 (pretty (month d)).

(** [d.strftime("%Y-%m-%d")] *)
Definition strftime_Ymd (d : date) : string :=
  strftime_Ym d +:+ "-" +:+ zfill 2 (pretty (day d)).

(** [t.strftime("%H:%M:%S")] *)
Definition strftime_HMS (t : time_of_day) : string :=
  zfill 2 (pretty (hour t)) +:+ ":" +:+ zfill 2 (pretty (minute t)) +:+ ":"
    +:+ zfill 2 (pretty (second t)).

(** ** Cells, rows and records

    A cell holds the value that [get_all_records] hands back for it: gspread
    turns every cell whose text is a numeric literal into an [int] or a
    [float], so a [CStr] cell is text that is not a number; the blank cell
    is the empty text. *)

Inductive cell :=
| CStr (s : string)
| CInt (z : Z)
| CFloat (f : float64).

Definition blank : cell := CStr "".

Abbreviation row := (list cell).

(** A worksheet is a grid of rows; the first row is its header. *)
Abbreviation grid := (list (list cell)).

(** A record is the [dict] built from the header and one row. *)
Abbreviation record := (gmap string cell).

(** [v == s] for a value [v] returned by [dict.get] and a string [s]. *)
Definition eq_str (v : option cell) (s : string) : bool :=
  match v with
  | Some (CStr t) => String.eqb t s
  | _ => false
  end.

(** The text that a header cell contributes as a key.  The tables of this
    program have text headers; a numeric cell is rendered from its digits. *)
Definition cell_text (c : cell) : string :=
  match c with
  | CStr s => s
  | CInt z => pretty z
  | CFloat (S754_finite s m e) =>
      (if s then "-" else "") +:+ pretty (Npos m) +:+ "p" +:+ pretty e
  | CFloat (S754_zero s) => if s then "-0" else "0"
  | CFloat (S754_infinity s) => if s then "-inf" else "inf"
  | CFloat S754_nan => "nan"
  end.

(** ** Exceptions *)

Inductive exn :=
| WorksheetNotFound (name : string)
| APIError
| KeyError (key : string)
| ValueError
| TypeError
| OverflowError.

(** ** Remote calls and rendered messages *)

(** A cell address in A1 notation: column letter (A is 0) and row number
    (the header is row 1). *)
Record a1 := A1 { a1_col : nat; a1_row : nat }.

Definition col_B (i : nat) : a1 := A1 1 i.
Definition col_C (i : nat) : a1 := A1 2 i.
Definition col_D (i : nat) : a1 := A1 3 i.

Inductive call :=
| Call_worksheet (name : string)
| Call_add_worksheet (name : string)
| Call_append_row (ws : string) (r : row)
| Call_get_all_records (ws : string)
| Call_update (ws : string) (at_ : a1) (v : cell).

Inductive flag := Flag_ok | Flag_exceeded | Flag_low.

(** One constructor per [st.*] call of the script, with the values that the
    rendered text is formatted from. *)
Inductive notice :=
| Info_worksheet_created (name : string)
| Success_goal (result month : string) (cal prot : Z)
| Warning_food_name
| Success_saved (food : string) (row2 row1 : cell)
| Error_save_failed (e : exn)
| Error_fetch_meals (e : exn)
| Info_no_entries_yet
| Info_no_entries_for_date
| Write_date (day_str : string)
| Metric_calories (v : float64)
| Metric_protein (v : float64)
| Metric_carbs (v : float64)
| Write_fat_fiber (fat fiber : float64)
| Write_goal (month : string) (cal_goal prot_goal : float64)
| Write_flags (cal_ok prot_ok : flag)
| Info_no_goal
| Dataframe (rows : list record)
| Warning_note_empty
| Success_note_saved
| Error_note_failed (e : exn).

(** ** The world *)

Record World := mkWorld {
  sheets : gmap string grid;   (* the worksheets of the spreadsheet, by title *)
  trace : list call;           (* remote calls issued so far, oldest first *)
  outage : nat -> bool;        (* [outage k]: the k-th remote call raises *)
  ticks : nat;                 (* readings of the clock so far *)
  clock : nat -> string;       (* k-th value of [datetime.now().isoformat()] *)
  ui : list notice             (* messages rendered so far, oldest first *)
}.

Definition with_sheets (s : gmap string grid) (w : World) : World :=
  mkWorld s (trace w) (outage w) (ticks w) (clock w) (ui w).

Definition with_trace (t : list call) (w : World) : World :=
  mkWorld (sheets w) t (outage w) (ticks w) (clock w) (ui w).

Definition with_ticks (n : nat) (w : World) : World :=
  mkWorld (sheets w) (trace w) (outage w) n (clock w) (ui w).

Definition with_ui (u : list notice) (w : World) : World :=
  mkWorld (sheets w) (trace w) (outage w) (ticks w) (clock w) u.

(** The remote store answers every call. *)
Definition reliable (w : World) : Prop := forall k, outage w k = false.

(** The next remote call is answered. *)
Definition answers (w : World) : Prop := outage w (length (trace w)) = false.

(** ** The monad of the script: state and exceptions *)

Definition M (A : Type) : Type := World -> (exn + A) * World.

Definition ret {A} (a : A) : M A := fun w => (inr a, w).

Definition raise {A} (e : exn) : M A := fun w => (inl e, w).

Definition bind {A B} (m : M A) (k : A -> M B) : M B :=
  fun w => match m w with
           | (inr a, w') => k a w'
           | (inl e, w') => (inl e, w')
           end.

(** [try: m  except Exception as e: h e] *)
Definition try_except {A} (m : M A) (h : exn -> M A) : M A :=
  fun w => match m w with
           | (inr a, w') => (inr a, w')
           | (inl e, w') => h e w'
           end.

Definition lift {A} (r : exn + A) : M A := fun w => (r, w).

Notation "'let*' x ':=' m 'in' k" := (bind m (fun x => k))
  (at level 10, x name, m at level 100, k at level 200).
Notation "'run' m 'in' k" := (bind m (fun _ => k))
  (at level 10, m at level 100, k at level 200).

Definition gets {A} (f : World -> A) : M A := fun w => (inr (f w), w).
Definition modify (f : World -> World) : M unit := fun w => (inr tt, f w).

(** Rendering a message. *)
Definition st (n : notice) : M unit := modify (fun w => with_ui (ui w ++ [n]) w).

(** [datetime.datetime.now().isoformat()] *)
Definition now : M string :=
  fun w => (inr (clock w (ticks w)), with_ticks (S (ticks w)) w).

(** Every remote call is recorded; it raises when the store is out. *)
Definition called (c : call) (w : World) : World := with_trace (trace w ++ [c]) w.

Definition remote (c : call) : M unit :=
  fun w => if outage w (length (trace w))
           then (inl APIError, called c w)
           else (inr tt, called c w).

(** ** The worksheet operations of gspread *)

Definition set_sheet (name : string) (g : grid) : M unit :=
  modify (fun w => with_sheets (<[name := g]> (sheets w)) w).

(** [spreadsheet.worksheet(name)]: the handle of a worksheet is its title. *)
Definition worksheet (name : string) : M string :=
  run remote (Call_worksheet name) in
  let* ss := gets sheets in
  match ss !! name with
  | Some _ => ret name
  | None => raise (WorksheetNotFound name)
  end.

(** [spreadsheet.add_worksheet(title=name, rows="1000", cols="20")]: a new
    worksheet has no content; a title can be used once. *)
Definition add_worksheet (name : string) : M string :=
  run remote (Call_add_worksheet name) in
  let* ss := gets sheets in
  match ss !! name with
  | Some _ => raise APIError
  | None => run set_sheet name [] in ret name
  end.

(** [ws.append_row(r)] *)
Definition append_row (ws : string) (r : row) : M unit :=
  run remote (Call_append_row ws r) in
  let* ss := gets sheets in
  match ss !! ws with
  | Some g => set_sheet ws (g ++ [r])
  | None => raise APIError
  end.

(** Rows are read back with the width of the widest row, short rows filled
    with blanks. *)
Definition width (g : grid) : nat := foldr (fun r n => Nat.max (length r) n) 0 g.

Definition pad (n : nat) (r : row) : row := r ++ replicate (n - length r) blank.

Definition fill_gaps (g : grid) : grid := pad (width g) <$> g.

(** Adding bindings to a [dict] one after the other: a later binding of a
    key replaces an earlier one. *)
Definition bindings (l : list (string * cell)) (m : record) : record :=
  foldl (fun m kv => <[kv.1 := kv.2]> m) m l.

(** [dict(zip(keys, r))] *)
Definition to_record (keys : list string) (r : row) : record :=
  bindings (zip keys r) ∅.

(** The records of a grid: its rows below the first, each keyed by the texts
    of the first row.  The headers that the program declares name each
    column once; where a first row holds the same text twice the later
    column wins here, while releases of gspread that check the first row for
    repeated names raise instead. *)
Definition records_of (g : grid) : list record :=
  match fill_gaps g with
  | [] => []
  | hd :: body => to_record (cell_text <$> hd) <$> body
  end.

(** [ws.get_all_records()] *)
Definition get_all_records (ws : string) : M (list record) :=
  run remote (Call_get_all_records ws) in
  let* ss := gets sheets in
  match ss !! ws with
  | Some g => ret (records_of g)
  | None => raise APIError
  end.

(** The header row of a table with the given column names. *)
Definition header_row (header : list string) : row := CStr <$> header.

(** Writing the cell in column [c] of a row; a short row is first filled
    with blanks up to that column. *)
Definition write (c : nat) (v : cell) (line : row) : row :=
  <[c := v]> (pad (S c) line).

(** Writing one cell of the grid; the grid is extended with empty rows up to
    the row of the cell when it lies below the rows stored. *)
Definition set_cell (g : grid) (r c : nat) (v : cell) : grid :=
  alter (write c v) r (g ++ replicate (S r - length g) []).

(** [ws.update(f"{col}{row}", v)] *)
Definition update (ws : string) (at_ : a1) (v : cell) : M unit :=
  run remote (Call_update ws at_ v) in
  let* ss := gets sheets in
  match ss !! ws, a1_row at_ with
  | Some g, S r => set_sheet ws (set_cell g r (a1_col at_) v)
  | _, _ => raise APIError
  end.

(** ** Configuration *)

Definition MEALS_SHEET : string := "Meals".
Definition GOALS_SHEET : string := "Goals".
Definition NOTES_SHEET : string := "Daily_Notes".

Definition MEALS_HEADER : list string :=
  ["date"; "time"; "food_name"; "grams"; "protein_g"; "carbs_g"; "fat_g"; "calories";
   "daily_calorie_goal"; "daily_protein_goal"; "notes"].
Definition GOALS_HEADER : list string :=
  ["month_year"; "calorie_goal"; "protein_goal"; "created_at"].
Definition NOTES_HEADER : list string := ["date"; "note"; "created_at"].

(** ** Helper *)

(** Ensure a worksheet exists; create if missing. *)
Definition ensure_worksheet (name : string) (header : list string) : M string :=
  run try_except (worksheet name)
        (fun e => match e with
                  | WorksheetNotFound _ =>
                      let* ws := add_worksheet name in
                      run append_row ws (header_row header) in
                      run st (Info_worksheet_created name) in
                      ret ws
                  | _ => raise e
                  end) in
  worksheet name.

(** ** Goals logic *)

(** [r.get("month_year") == month_label] *)
Definition matches (label : string) (r : record) : bool :=
  eq_str (r !! "month_year") label.

(** The row appended for a new goal. *)
Definition new_goal_row (label : string) (cal prot : Z) (t : string) : row :=
  [CStr label; CInt cal; CInt prot; CStr t].

Fixpoint upsert_scan (ws month_label : string) (cal_goal prot_goal : Z)
    (i : nat) (records : list record) : M string :=
  match records with
  | [] =>
      let* t := now in
      run append_row ws (new_goal_row month_label cal_goal prot_goal t) in
      ret "created"
  | r :: rest =>
      if matches month_label r then
        run update ws (col_B i) (CInt cal_goal) in
        run update ws (col_C i) (CInt prot_goal) in
        let* t := now in
        run update ws (col_D i) (CStr t) in
        ret "updated"
      else upsert_scan ws month_label cal_goal prot_goal (S i) rest
  end.

Definition upsert_goal (ws month_label : string) (cal_goal prot_goal : Z) : M string :=
  let* records := get_all_records ws in
  upsert_scan ws month_label cal_goal prot_goal 2 records.

(** ** Widget values of one run of the script *)

Record Inputs := {
  entry_date : date;
  entry_time : time_of_day;
  food_item : string;
  qty : float64;
  calories : float64;
  protein : float64;
  carbs : float64;
  fat : float64;
  entry_notes : string;
  add_btn : bool;
  month_year_label : string;
  calorie_goal_input : Z;
  protein_goal_input : Z;
  set_goal_btn : bool;
  summary_date : date;
  note_date : date;
  daily_note_text : string;
  save_note_btn : bool
}.

Definition set_goal_handler (goals_ws : string) (inp : Inputs) : M unit :=
  if set_goal_btn inp then
    let* result := upsert_goal goals_ws (month_year_label inp)
                     (calorie_goal_input inp) (protein_goal_input inp) in
    st (Success_goal result (month_year_label inp)
          (calorie_goal_input inp) (protein_goal_input inp))
  else ret tt.

(** ** Auto-save food entry *)

Definition append_meal_row (ws : string) (r : row) : M unit := append_row ws r.

(** The row built from the form. *)
Definition meal_row (inp : Inputs) : row :=
  [ CStr (strftime_Ymd (entry_date inp));        (* date *)
    CStr (strftime_HMS (entry_time inp));        (* time *)
    CStr (food_item inp);                        (* food_name *)
    CFloat (Float64.round1 (qty inp));           (* grams *)
    CFloat (Float64.round1 (protein inp));       (* protein_g *)
    CFloat (Float64.round1 (carbs inp));         (* carbs_g *)
    CFloat (Float64.round1 (fat inp));           (* fat_g *)
    CFloat (Float64.round1 (calories inp));      (* calories *)
    CInt (calorie_goal_input inp);               (* daily_calorie_goal *)
    CInt (protein_goal_input inp);               (* daily_protein_goal *)
    CStr (entry_notes inp) ].                    (* notes *)

(** Truth value of a string: the empty string is false. *)
Definition truthy (s : string) : bool :=
  match s with EmptyString => false | String _ _ => true end.

Definition add_food_handler (meals_ws : string) (inp : Inputs) : M unit :=
  if add_btn inp then
    if negb (truthy (food_item inp)) then st Warning_food_name
    else
      let r := meal_row inp in
      try_except
        (run append_meal_row meals_ws r in
         st (Success_saved (food_item inp) (nth 2 r blank) (nth 1 r blank)))
        (fun e => st (Error_save_failed e))
  else ret tt.

(** ** Daily summary and checks *)

(** A [pandas.DataFrame] built from a list of records: its columns are the
    keys of the records, its rows the records. *)
Record DataFrame := mkDF { columns : gset string; rows : list record }.

Definition DataFrame_of (recs : list record) : DataFrame :=
  mkDF (⋃ (dom <$> recs)) recs.

(** [df.empty]: no row or no column. *)
Definition df_empty (df : DataFrame) : bool :=
  bool_decide (columns df = ∅) || match rows df with [] => true | _ => false end.

(** [df[k]]: a missing column is a [KeyError]; a value missing in one row
    reads as NaN. *)
Definition getitem (df : DataFrame) (k : string) : exn + list cell :=
  if bool_decide (k ∈ columns df)
  then inr ((fun r => default (CFloat Float64.nan) (r !! k)) <$> rows df)
  else inl (KeyError k).

(** [df[mask]] *)
Definition select (df : DataFrame) (mask : list bool) : DataFrame :=
  mkDF (columns df) (filter (fun rb => rb.2 = true) (zip (rows df) mask)).*1.

(** [float(v)] for the value [v] of a cell. *)
Definition float_of_cell (c : cell) : exn + float64 :=
  match c with
  | CFloat f => inr f
  | CInt z => let f := Float64.of_Z z in
              if Float64.is_inf f then inl OverflowError else inr f
  | CStr _ => inl ValueError
  end.

(** [float(d.get(k))]: [float(None)] is a [TypeError]. *)
Definition float_of_get (v : option cell) : exn + float64 :=
  match v with
  | Some c => float_of_cell c
  | None => inl TypeError
  end.

(** [col.astype(float)] *)
Fixpoint astype_float (col : list cell) : exn + list float64 :=
  match col with
  | [] => inr []
  | c :: rest =>
      match float_of_cell c with
      | inl e => inl e
      | inr f => match astype_float rest with
                 | inl e => inl e
                 | inr fs => inr (f :: fs)
                 end
      end
  end.

(** The sum of a float array in numpy, [pairwise_sum] of its add loop.
    Fewer than 8 values are added in order, starting from -0.0.  Up to 128
    values are added in eight running sums, one for each position in a block
    of 8; the eight sums are then added in pairs, and the values left over
    after the last full block are added in order.  More values are split in
    two, the first part a multiple of 8 long, and the sums of the two parts
    are added. *)
Definition add_in_order (acc : float64) (a : list float64) : float64 :=
  fold_left Float64.add a acc.

Fixpoint add_blocks (k : nat) (r a : list float64) : list float64 * list float64 :=
  match k with
  | 0 => (r, a)
  | S k' => add_blocks k' (zip_with Float64.add r (take 8 a)) (drop 8 a)
  end.

Definition sum_unrolled (a : list float64) : float64 :=
  let '(r, rest) := add_blocks (length a / 8 - 1) (take 8 a) (drop 8 a) in
  let r_ (j : nat) := nth j r Float64.zero in
  add_in_order
    (Float64.add
       (Float64.add (Float64.add (r_ 0) (r_ 1)) (Float64.add (r_ 2) (r_ 3)))
       (Float64.add (Float64.add (r_ 4) (r_ 5)) (Float64.add (r_ 6) (r_ 7))))
    rest.

Definition sum_block (a : list float64) : float64 :=
  if Nat.ltb (length a) 8 then add_in_order (S754_zero true) a else sum_unrolled a.

(** The recursion halves the array, so a depth of its length is never used
    up: see [pairwise_sum_unfold]. *)
Fixpoint pairwise_sum_upto (depth : nat) (a : list float64) : float64 :=
  match depth with
  | S d =>
      if Nat.ltb 128 (length a) then
        let n2 := length a / 2 - (length a / 2) mod 8 in
        Float64.add (pairwise_sum_upto d (take n2 a)) (pairwise_sum_upto d (drop n2 a))
      else sum_block a
  | 0 => sum_block a
  end.

Definition pairwise_sum (a : list float64) : float64 := pairwise_sum_upto (length a) a.

(** [numpy.add.reduce] on a float array starts from the identity 0.0. *)
Definition np_sum (a : list float64) : float64 := Float64.add Float64.zero (pairwise_sum a).

(** [col.sum()], the sum of pandas that skips NaN: the NaN entries are
    replaced by 0.0 and the array is summed by numpy. *)
Definition nansum (xs : list float64) : float64 :=
  np_sum ((fun x => if Float64.is_nan x then Float64.zero else x) <$> xs).

(** [df[k].astype(float).sum()] *)
Definition column_sum (df : DataFrame) (k : string) : M float64 :=
  let* col := lift (getitem df k) in
  let* xs := lift (astype_float col) in
  ret (nansum xs).

Definition cal_ok (sum_cal cal_goal : float64) : flag :=
  if Float64.leb sum_cal cal_goal then Flag_ok else Flag_exceeded.

Definition prot_ok (sum_prot prot_goal : float64) : flag :=
  if Float64.leb prot_goal sum_prot then Flag_ok else Flag_low.

(** [next((g for g in goals if g.get("month_year") == label), None)] *)
Definition goal_for (goals : list record) (label : string) : option record :=
  List.find (matches label) goals.

(** The comparison of the day's sums with the goal of the month. *)
Definition goal_check (goal_row : option record) (month_label_for_day : string)
    (sum_cal sum_prot : float64) : M unit :=
  match goal_row with
  | Some g =>
      if bool_decide (g = ∅) then st Info_no_goal
      else
        let* cal_goal := lift (float_of_get (g !! "calorie_goal")) in
        let* prot_goal := lift (float_of_get (g !! "protein_goal")) in
        run st (Write_goal month_label_for_day cal_goal prot_goal) in
        st (Write_flags (cal_ok sum_cal cal_goal) (prot_ok sum_prot prot_goal))
  | None => st Info_no_goal
  end.

Definition daily_summary (meals_ws goals_ws : string) (summary_date : date) : M unit :=
  let* meals_df :=
    try_except
      (let* all_meals := get_all_records meals_ws in
       ret (DataFrame_of all_meals))
      (fun e => run st (Error_fetch_meals e) in ret (DataFrame_of [])) in
  if df_empty meals_df then st Info_no_entries_yet
  else
    let day_str := strftime_Ymd summary_date in
    let* date_col := lift (getitem meals_df "date") in
    let df_day := select meals_df ((fun v => eq_str (Some v) day_str) <$> date_col) in
    if df_empty df_day then st Info_no_entries_for_date
    else
      let* sum_cal := column_sum df_day "calories_kcal" in
      let* sum_prot := column_sum df_day "protein_g" in
      let* sum_carbs := column_sum df_day "carbs_g" in
      let* sum_fat := column_sum df_day "fat_g" in
      let* sum_fiber := column_sum df_day "fiber_g" in
      run st (Write_date day_str) in
      run st (Metric_calories sum_cal) in
      run st (Metric_protein sum_prot) in
      run st (Metric_carbs sum_carbs) in
      run st (Write_fat_fiber sum_fat sum_fiber) in
      let month_label_for_day := strftime_Ym summary_date in
      let* goals := get_all_records goals_ws in
      let goal_row := goal_for goals month_label_for_day in
      run goal_check goal_row month_label_for_day sum_cal sum_prot in
      st (Dataframe (rows df_day)).

(** ** Daily notes *)

(** [str.isspace] on a character, given by its code point.  It holds of
    U+0009 to U+000D, U+001C to U+0020, U+0085, U+00A0, U+1680, U+2000 to
    U+200A, U+2028, U+2029, U+202F, U+205F and U+3000. *)
Definition isspace (c : N) : bool :=
  ((9 <=? c) && (c <=? 13) || (28 <=? c) && (c <=? 32) || (c =? 133) || (c =? 160)
   || (c =? 5760) || (8192 <=? c) && (c <=? 8202) || (c =? 8232) || (c =? 8233)
   || (c =? 8239) || (c =? 8287) || (c =? 12288))%N.

(** The bytes that follow the first byte of an encoded character. *)
Definition continuation (b : N) : bool := ((128 <=? b) && (b <? 192))%N.

(** The character that one, two or three bytes encode, if they encode one.
    A character of four bytes lies above U+FFFF and is no white space. *)
Definition char1 (a : Ascii.ascii) : option N :=
  let a := Ascii.N_of_ascii a in
  if (a <? 128)%N then Some a else None.

Definition char2 (a b : Ascii.ascii) : option N :=
  let a := Ascii.N_of_ascii a in
  let b := Ascii.N_of_ascii b in
  if ((194 <=? a) && (a <? 224))%N && continuation b
  then Some ((a - 192) * 64 + (b - 128))%N else None.

Definition char3 (a b c : Ascii.ascii) : option N :=
  let a := Ascii.N_of_ascii a in
  let b := Ascii.N_of_ascii b in
  let c := Ascii.N_of_ascii c in
  let cp := ((a - 224) * 4096 + (b - 128) * 64 + (c - 128))%N in
  if ((224 <=? a) && (a <? 240))%N && continuation b && continuation c && (2048 <=? cp)%N
  then Some cp else None.

Definition space (c : option N) : bool := from_option isspace false c.

(** [s.lstrip()]: the text without the white space it starts with. *)
Fixpoint lstrip (s : string) : string :=
  match s with
  | EmptyString => EmptyString
  | String a s1 =>
      if space (char1 a) then lstrip s1
      else match s1 with
           | EmptyString => s
           | String b s2 =>
               if space (char2 a b) then lstrip s2
               else match s2 with
                    | EmptyString => s
                    | String c s3 => if space (char3 a b c) then lstrip s3 else s
                    end
           end
  end.

(** Every character of the text is white space. *)
Fixpoint all_space (s : string) : bool :=
  match s with
  | EmptyString => true
  | String a s1 =>
      if space (char1 a) then all_space s1
      else match s1 with
           | EmptyString => false
           | String b s2 =>
               if space (char2 a b) then all_space s2
               else match s2 with
                    | EmptyString => false
                    | String c s3 => space (char3 a b c) && all_space s3
                    end
           end
  end.

(** [s.rstrip()]: the text without the white space it ends with, which is
    its longest end that is white space only. *)
Fixpoint rstrip (s : string) : string :=
  match s with
  | EmptyString => EmptyString
  | String a s1 => if all_space s then EmptyString else String a (rstrip s1)
  end.

(** [s.strip()] *)
Definition strip (s : string) : string := rstrip (lstrip s).

(** The UTF-8 encoding of a character, and the text with given characters. *)
Definition utf8 (c : N) : string :=
  let byte (n : N) := String (Ascii.ascii_of_N n) EmptyString in
  if (c <? 128)%N then byte c
  else if (c <? 2048)%N then byte (192 + c / 64)%N +:+ byte (128 + c mod 64)%N
  else if (c <? 65536)%N then
    byte (224 + c / 4096)%N +:+ byte (128 + (c / 64) mod 64)%N +:+ byte (128 + c mod 64)%N
  else byte (240 + c / 262144)%N +:+ byte (128 + (c / 4096) mod 64)%N
         +:+ byte (128 + (c / 64) mod 64)%N +:+ byte (128 + c mod 64)%N.

Definition encode (cps : list N) : string := foldr (fun c s => utf8 c +:+ s) "" cps.

(** [str.strip] on the characters of a text: the white space it starts with
    and the white space it ends with are removed. *)
Fixpoint lstrip_chars (cps : list N) : list N :=
  match cps with
  | c :: rest => if isspace c then lstrip_chars rest else cps
  | [] => []
  end.

Definition rstrip_chars (cps : list N) : list N := rev (lstrip_chars (rev cps)).

Definition strip_chars (cps : list N) : list N := rstrip_chars (lstrip_chars cps).

(** The row built from the note form and the time of saving. *)
Definition note_row (inp : Inputs) (t : string) : row :=
  [CStr (strftime_Ymd (note_date inp)); CStr (daily_note_text inp); CStr t].

Definition save_note_handler (notes_ws : string) (inp : Inputs) : M unit :=
  if save_note_btn inp then
    if negb (truthy (strip (daily_note_text inp))) then st Warning_note_empty
    else
      try_except
        (let* t := now in
         run append_row notes_ws (note_row inp t) in
         st Success_note_saved)
        (fun e => st (Error_note_failed e))
  else ret tt.

(** ** One run of the script *)

Definition script (inp : Inputs) : M unit :=
  let* meals_ws := ensure_worksheet MEALS_SHEET MEALS_HEADER in
  let* goals_ws := ensure_worksheet GOALS_SHEET GOALS_HEADER in
  let* notes_ws := ensure_worksheet NOTES_SHEET NOTES_HEADER in
  run set_goal_handler goals_ws inp in
  run add_food_handler meals_ws inp in
  run daily_summary meals_ws goals_ws (summary_date inp) in
  save_note_handler notes_ws inp.

(** ** Notions used in the statements *)

(** A key that stands in column [c] of the header and in no other. *)
Definition sole (keys : list string) (c : nat) (k : string) : Prop :=
  forall i, keys !! i = Some k <-> i = c.

(** The record read from a row of a table whose header row holds the column
    names [header], in a grid of width [n]. *)
Definition record_at (header : list string) (n : nat) (r : row) : record :=
  to_record (header ++ replicate (n - length header) "") (pad n r).

(** The grid after the cells B, C and D of grid row [i] have been written. *)
Definition goal_cells (g : grid) (i : nat) (cal prot : Z) (t : string) : grid :=
  set_cell (set_cell (set_cell g i 1 (CInt cal)) i 2 (CInt prot)) i 3 (CStr t).

(** [t] is the integer nearest to ten times [m * 2^e], the even one of the
    two when ten times [m * 2^e] lies half-way between two integers. *)
Definition nearest_tenth (m : positive) (e t : Z) : Prop :=
  match e with
  | Zneg p =>
      let d := (2 ^ Zpos p)%Z in
      let gap := Z.abs (2 * (10 * Zpos m) - 2 * t * d) in
      (gap <= d)%Z /\ (gap = d -> Z.even t = true)
  | _ => t = (10 * Zpos m * 2 ^ e)%Z
  end.

(** [y] is [x] rounded to one decimal place: for a finite [x] it is the
    float nearest to [t / 10], with the sign of [x], where [t] is the
    number of tenths nearest to the magnitude of [x]; zeros, infinities and
    NaN are left as they are. *)
Definition rounded_to_tenths (x y : float64) : Prop :=
  match x with
  | S754_finite s m e =>
      exists t, nearest_tenth m e t /\
        y = match t with
            | Zpos p => Float64.decimal (if s then Zneg p else Zpos p) 1
            | _ => S754_zero s
            end
  | _ => y = x
  end.


(** A goal record with its goal fields and time stamp overwritten. *)
Definition overwrite_goal (cal prot : Z) (t : string) (r : record) : record :=
  <["created_at" := CStr t]> (<["protein_goal" := CInt prot]> (<["calorie_goal" := CInt cal]> r)).

(** The field that keys the goal records. *)
Definition month_of (r : record) : option cell := r !! "month_year".

(** The cell of a grid row in column [c]; blank when the row is shorter. *)
Definition cell_at (c : nat) (line : row) : cell := default blank (line !! c).

(** The grid row carries the text [day] in column [c]. *)
Definition dated (c : nat) (day : string) (line : row) : bool :=
  eq_str (Some (cell_at c line)) day.

(** The rows of the day among the rows of a table. *)
Definition rows_of_day (c : nat) (day : string) (body : grid) : grid :=
  List.filter (dated c day) body.

(** The frame that the summary builds from a table whose header row holds
    the column names [header], in a grid of width [n]. *)
Definition meals_frame (header : list string) (n : nat) (body : grid) : DataFrame :=
  DataFrame_of (record_at header n <$> body).

(** The frame of the day: the selection that the summary makes from that
    frame with the mask on its "date" column. *)
Definition day_frame (header : list string) (n : nat) (body : grid) (day : string)
    : DataFrame :=
  select (meals_frame header n body)
    ((fun v => eq_str (Some v) day) <$>
       ((fun r : record => default (CFloat Float64.nan) (r !! "date"))
          <$> rows (meals_frame header n body))).

(** The summary of a day that has rows: the sums, their rendering, the
    comparison with the goal of the month and the table of the rows. *)
Definition day_summary (df_day : DataFrame) (day_str month_label_for_day goals_ws : string)
    : M unit :=
  let* sum_cal := column_sum df_day "calories_kcal" in
  let* sum_prot := column_sum df_day "protein_g" in
  let* sum_carbs := column_sum df_day "carbs_g" in
  let* sum_fat := column_sum df_day "fat_g" in
  let* sum_fiber := column_sum df_day "fiber_g" in
  run st (Write_date day_str) in
  run st (Metric_calories sum_cal) in
  run st (Metric_protein sum_prot) in
  run st (Metric_carbs sum_carbs) in
  run st (Write_fat_fiber sum_fat sum_fiber) in
  let* goals := get_all_records goals_ws in
  let goal_row := goal_for goals month_label_for_day in
  run goal_check goal_row month_label_for_day sum_cal sum_prot in
  st (Dataframe (rows df_day)).

(** ** Relations between the world before and the world after *)

(** A call that changes the spreadsheet. *)
Definition is_write (c : call) : bool :=
  match c with
  | Call_add_worksheet _ | Call_append_row _ _ | Call_update _ _ _ => true
  | Call_worksheet _ | Call_get_all_records _ => false
  end.

(** [m] relates every world to the world it leaves, whatever it returns or
    raises. *)
Definition keeps {A} (R : World -> World -> Prop) (m : M A) : Prop :=
  forall w, R w (m w).2.

(** No worksheet has changed. *)
Definition same_sheets (w w' : World) : Prop := sheets w' = sheets w.

(** No worksheet other than [ws] has changed. *)
Definition same_but (ws : string) (w w' : World) : Prop :=
  forall name, name <> ws -> sheets w' !! name = sheets w !! name.

(** The worksheet [ws] has not changed. *)
Definition same_at (ws : string) (w w' : World) : Prop :=
  sheets w' !! ws = sheets w !! ws.

(** The store behaves in the same way. *)
Definition same_store (w w' : World) : Prop := outage w' = outage w.

(** The remote calls issued in between all satisfy [P]. *)
Definition issues (P : call -> Prop) (w w' : World) : Prop :=
  exists l, trace w' = trace w ++ l /\ Forall P l.

(** Nothing was written: the worksheets are the same and only reads were
    issued. *)
Definition read_only (w w' : World) : Prop :=
  same_sheets w w' /\ issues (fun c => is_write c = false) w w'.

(** At most one row, a row that satisfies [P], was appended to the worksheet
    [ws]; the rows it had are in place. *)
Definition appended (ws : string) (P : row -> Prop) (w w' : World) : Prop :=
  forall g, sheets w !! ws = Some g ->
    sheets w' !! ws = Some g \/ exists r, P r /\ sheets w' !! ws = Some (g ++ [r]).

(** The same world on a store that answers every call. *)
Definition healed (w : World) : World :=
  mkWorld (sheets w) (trace w) (fun _ => false) (ticks w) (clock w) (ui w).

(** ** Sample worlds and inputs *)

Definition sample_clock (k : nat) : string := "2024-03-07T12:00:0" +:+ pretty k.

(** A spreadsheet without worksheets, on a store that answers. *)
Definition fresh : World := mkWorld ∅ [] (fun _ => false) 0 sample_clock [].

(** The spreadsheet after initialization: three tables with their headers. *)
Definition started : World :=
  mkWorld (<[MEALS_SHEET := [header_row MEALS_HEADER]]>
             (<[GOALS_SHEET := [header_row GOALS_HEADER]]>
                (<[NOTES_SHEET := [header_row NOTES_HEADER]]> ∅)))
          [] (fun _ => false) 0 sample_clock [].

(** A goal table with two months, and the started world holding it. *)
Definition two_goals : grid :=
  [header_row GOALS_HEADER;
   new_goal_row "2024-02" 1800 90 "2024-02-01T09:00:00";
   new_goal_row "2024-03" 1600 70 "2024-03-01T09:00:00"].


Definition with_goals (g : grid) (w : World) : World :=
  with_sheets (<[GOALS_SHEET := g]> (sheets w)) w.

Definition with_meals (g : grid) (w : World) : World :=
  with_sheets (<[MEALS_SHEET := g]> (sheets w)) w.

(** Two meals of the sample day, with calories 100.4 and 50.0 and protein
    10.25 and 5.0, under the header of the program. *)
Definition two_meals : grid :=
  [header_row MEALS_HEADER;
   [CStr "2024-03-07"; CStr "08:05:00"; CStr "oats"; CFloat (Float64.of_Z 100);
    CFloat (Float64.decimal 1025 2); CFloat (Float64.of_Z 30); CFloat (Float64.of_Z 5);
    CFloat (Float64.decimal 1004 1); CInt 1700; CInt 80; CStr ""];
   [CStr "2024-03-07"; CStr "12:30:00"; CStr "egg"; CFloat (Float64.of_Z 50);
    CFloat (Float64.of_Z 5); CFloat (Float64.of_Z 1); CFloat (Float64.of_Z 4);
    CFloat (Float64.of_Z 50); CInt 1700; CInt 80; CStr ""]].

(** The same two meals under a header that has the columns the summary
    reads: "calories_kcal" and "fiber_g". *)
Definition two_meals_kcal : grid :=
  [header_row ["date"; "protein_g"; "carbs_g"; "fat_g"; "calories_kcal"; "fiber_g"];
   [CStr "2024-03-07"; CFloat (Float64.decimal 1025 2); CFloat (Float64.of_Z 30);
    CFloat (Float64.of_Z 5); CFloat (Float64.decimal 1004 1); CInt 2];
   [CStr "2024-03-07"; CFloat (Float64.of_Z 5); CFloat (Float64.of_Z 1);
    CFloat (Float64.of_Z 4); CFloat (Float64.of_Z 50); CInt 0]].

(** The same world on a store whose calls raise from the k-th on. *)
Definition failing_from (k : nat) (w : World) : World :=
  mkWorld (sheets w) (trace w) (fun n => Nat.leb k n) (ticks w) (clock w) (ui w).

Definition sample_day : date := {| year := 2024; month := 3; day := 7 |}.

Definition sample_inputs : Inputs :=
  {| entry_date := sample_day;
     entry_time := {| hour := 8; minute := 5; second := 0 |};
     food_item := "Cooked rice";
     qty := Float64.decimal 15025 2;
     calories := Float64.decimal 1004 1;
     protein := Float64.decimal 1025 2;
     carbs := Float64.of_Z 30;
     fat := Float64.of_Z 5;
     entry_notes := "";
     add_btn := true;
     month_year_label := "2024-03";
     calorie_goal_input := 1700;
     protein_goal_input := 80;
     set_goal_btn := true;
     summary_date := sample_day;
     note_date := sample_day;
     daily_note_text := "felt fine";
     save_note_btn := true |}.

(** The form with an empty food name and a note of white space only: a
    space, a no-break space, an ideographic space and a tab. *)
Definition blank_inputs : Inputs :=
  {| entry_date := sample_day;
     entry_time := {| hour := 8; minute := 5; second := 0 |};
     food_item := "";
     qty := Float64.of_Z 100;
     calories := Float64.of_Z 200;
     protein := Float64.of_Z 20;
     carbs := Float64.of_Z 30;
     fat := Float64.of_Z 5;
     entry_notes := "";
     add_btn := true;
     month_year_label := "2024-03";
     calorie_goal_input := 1700;
     protein_goal_input := 80;
     set_goal_btn := false;
     summary_date := sample_day;
     note_date := sample_day;
     daily_note_text := encode [32; 160; 12288; 9]%N;
     save_note_btn := true |}.

(** A form whose numbers round in every way: 0.26 up to 0.3, the tie 10.25
    to the even 10.2, 0.35 (below the tie as a float) down to 0.3, 2.675 to
    2.7 and 99.95 up to 100.0. *)
Definition rounding_inputs : Inputs :=
  {| entry_date := sample_day;
     entry_time := {| hour := 8; minute := 5; second := 0 |};
     food_item := "Cooked rice";
     qty := Float64.decimal 26 2;
     calories := Float64.decimal 9995 2;
     protein := Float64.decimal 1025 2;
     carbs := Float64.decimal 35 2;
     fat := Float64.decimal 2675 3;
     entry_notes := "";
     add_btn := true;
     month_year_label := "2024-03";
     calorie_goal_input := 1700;
     protein_goal_input := 80;
     set_goal_btn := false;
     summary_date := sample_day;
     note_date := sample_day;
     daily_note_text := "";
     save_note_btn := false |}.

(** A note with white space around it: a no-break space, "fine", and an
    ideographic space; and the form that submits it. *)
Definition padded_note : list N := [160; 102; 105; 110; 101; 12288]%N.

Definition padded_note_inputs : Inputs :=
  {| entry_date := sample_day;
     entry_time := {| hour := 8; minute := 5; second := 0 |};
     food_item := "";
     qty := Float64.of_Z 100;
     calories := Float64.of_Z 200;
     protein := Float64.of_Z 20;
     carbs := Float64.of_Z 30;
     fat := Float64.of_Z 5;
     entry_notes := "";
     add_btn := false;
     month_year_label := "2024-03";
     calorie_goal_input := 1700;
     protein_goal_input := 80;
     set_goal_btn := false;
     summary_date := sample_day;
     note_date := sample_day;
     daily_note_text := encode padded_note;
     save_note_btn := true |}.

(** The form with no button pressed. *)
Definition idle_inputs : Inputs :=
  {| entry_date := sample_day;
     entry_time := {| hour := 8; minute := 5; second := 0 |};
     food_item := "";
     qty := Float64.of_Z 100;
     calories := Float64.of_Z 200;
     protein := Float64.of_Z 20;
     carbs := Float64.of_Z 30;
     fat := Float64.of_Z 5;
     entry_notes := "";
     add_btn := false;
     month_year_label := "2024-03";
     calorie_goal_input := 1700;
     protein_goal_input := 80;
     set_goal_btn := false;
     summary_date := sample_day;
     note_date := sample_day;
     daily_note_text := "";
     save_note_btn := false |}.

(** The form with a meal of the sample day and a note, both submitted. *)
Definition meal_and_note_inputs : Inputs :=
  {| entry_date := sample_day;
     entry_time := {| hour := 8; minute := 5; second := 0 |};
     food_item := "Cooked rice";
     qty := Float64.decimal 15025 2;
     calories := Float64.decimal 1004 1;
     protein := Float64.decimal 1025 2;
     carbs := Float64.of_Z 30;
     fat := Float64.of_Z 5;
     entry_notes := "";
     add_btn := true;
     month_year_label := "2024-03";
     calorie_goal_input := 1700;
     protein_goal_input := 80;
     set_goal_btn := false;
     summary_date := sample_day;
     note_date := sample_day;
     daily_note_text := "felt fine";
     save_note_btn := true |}.

(** * Verification *)

(** ** Running the worksheet operations *)

Section Run.

Context {A B : Type}.

Lemma bind_inr (m : M A) (k : A -> M B) w a w' :
  m w = (inr a, w') -> bind m k w = k a w'.
Proof. intros E. unfold bind. now rewrite E. Qed.

Lemma bind_inl (m : M A) (k : A -> M B) w e w' :
  m w = (inl e, w') -> bind m k w = (inl e, w').
Proof. intros E. unfold bind. now rewrite E. Qed.

Lemma try_except_inr (m : M A) (h : exn -> M A) w a w' :
  m w = (inr a, w') -> try_except m h w = (inr a, w').
Proof. intros E. unfold try_except. now rewrite E. Qed.

Lemma try_except_inl (m : M A) (h : exn -> M A) w e w' :
  m w = (inl e, w') -> try_except m h w = h e w'.
Proof. intros E. unfold try_except. now rewrite E. Qed.

End Run.

Lemma remote_ok c w : answers w -> remote c w = (inr tt, called c w).
Proof. intros R. unfold remote. now rewrite R. Qed.

Lemma remote_out c w :
  outage w (length (trace w)) = true -> remote c w = (inl APIError, called c w).
Proof. intros O. unfold remote. now rewrite O. Qed.

Ltac remote_step R :=
  rewrite (bind_inr _ _ _ _ _ (remote_ok _ _ R)); unfold bind, gets; simpl.

Lemma worksheet_found name g w :
  answers w -> sheets w !! name = Some g ->
  worksheet name w = (inr name, called (Call_worksheet name) w).
Proof. intros R S. unfold worksheet. remote_step R. now rewrite S. Qed.

Lemma worksheet_missing name w :
  answers w -> sheets w !! name = None ->
  worksheet name w = (inl (WorksheetNotFound name), called (Call_worksheet name) w).
Proof. intros R S. unfold worksheet. remote_step R. now rewrite S. Qed.

Lemma add_worksheet_ok name w :
  answers w -> sheets w !! name = None ->
  add_worksheet name w =
    (inr name, with_sheets (<[name := []]> (sheets w)) (called (Call_add_worksheet name) w)).
Proof. intros R S. unfold add_worksheet. remote_step R. now rewrite S. Qed.

Lemma append_row_ok ws r g w :
  answers w -> sheets w !! ws = Some g ->
  append_row ws r w =
    (inr tt, with_sheets (<[ws := g ++ [r]]> (sheets w)) (called (Call_append_row ws r) w)).
Proof. intros R S. unfold append_row. remote_step R. now rewrite S. Qed.

Lemma get_all_records_ok ws g w :
  answers w -> sheets w !! ws = Some g ->
  get_all_records ws w = (inr (records_of g), called (Call_get_all_records ws) w).
Proof. intros R S. unfold get_all_records. remote_step R. now rewrite S. Qed.

Lemma update_ok ws c i v g w :
  answers w -> sheets w !! ws = Some g ->
  update ws (A1 c (S i)) v w =
    (inr tt, with_sheets (<[ws := set_cell g i c v]> (sheets w))
               (called (Call_update ws (A1 c (S i)) v) w)).
Proof. intros R S. unfold update. remote_step R. now rewrite S. Qed.

(** A call that raises leaves the worksheets as they are. *)
Lemma append_row_out ws r w :
  outage w (length (trace w)) = true ->
  append_row ws r w = (inl APIError, called (Call_append_row ws r) w).
Proof. intros O. unfold append_row. now rewrite (bind_inl _ _ _ _ _ (remote_out _ _ O)). Qed.

Lemma update_out ws at_ v w :
  outage w (length (trace w)) = true ->
  update ws at_ v w = (inl APIError, called (Call_update ws at_ v) w).
Proof. intros O. unfold update. now rewrite (bind_inl _ _ _ _ _ (remote_out _ _ O)). Qed.

(** Whatever the store does, appending issues one call, and either the row
    is added or [APIError] is raised with the worksheets unchanged. *)
Lemma append_row_cases ws r w :
  append_row ws r w = (inl APIError, called (Call_append_row ws r) w) \/
  exists g, sheets w !! ws = Some g /\
    append_row ws r w =
      (inr tt, with_sheets (<[ws := g ++ [r]]> (sheets w)) (called (Call_append_row ws r) w)).
Proof.
  destruct (outage w (length (trace w))) eqn:O.
  - left. now apply append_row_out.
  - destruct (sheets w !! ws) as [g|] eqn:S.
    + right. exists g. split; [reflexivity |]. now apply append_row_ok.
    + left. unfold append_row. remote_step O. now rewrite S.
Qed.

(** Reading the records changes no worksheet and renders nothing. *)
Lemma get_all_records_frame ws w :
  let r := get_all_records ws w in
  r.2 = called (Call_get_all_records ws) w /\
  (forall e, r.1 = inl e -> e = APIError).
Proof.
  unfold get_all_records, bind, remote, gets.
  destruct (outage w (length (trace w))); simpl.
  - split; [reflexivity |]. intros e [= <-]. reflexivity.
  - destruct (sheets w !! ws); simpl; split; try reflexivity.
    + intros e [=].
    + intros e [= <-]. reflexivity.
Qed.

(** ** Table initialization *)

Lemma ensure_worksheet_existing name header g w :
  reliable w -> sheets w !! name = Some g ->
  ensure_worksheet name header w =
    (inr name, called (Call_worksheet name) (called (Call_worksheet name) w)).
Proof.
  intros R S. unfold ensure_worksheet.
  erewrite bind_inr; [| erewrite try_except_inr; [reflexivity | apply worksheet_found with g; [apply R | exact S]]].
  apply worksheet_found with g; [apply R | exact S].
Qed.

Lemma ensure_worksheet_missing name header w :
  reliable w -> sheets w !! name = None ->
  ensure_worksheet name header w =
    (inr name,
     called (Call_worksheet name)
       (with_ui (ui w ++ [Info_worksheet_created name])
          (with_sheets (<[name := [header_row header]]> (sheets w))
             (called (Call_append_row name (header_row header))
                (called (Call_add_worksheet name) (called (Call_worksheet name) w)))))).
Proof.
  intros R S. unfold ensure_worksheet.
  erewrite bind_inr.
  2:{ erewrite try_except_inl; [| apply worksheet_missing; [apply R | exact S]].
      cbv beta iota.
      erewrite bind_inr; [| apply add_worksheet_ok; [apply R | exact S]].
      erewrite bind_inr.
      2:{ apply append_row_ok with (g := []); [apply R |]. simpl. apply lookup_insert_eq. }
      unfold bind, st, modify, ret; simpl. reflexivity. }
  erewrite worksheet_found; [| apply R | simpl; apply lookup_insert_eq].
  simpl. now rewrite insert_insert_eq.
Qed.

(** C7. Table initialization is idempotent.  On a store that answers:
    when the table exists, [ensure_worksheet] returns its handle after two
    look-ups and writes nothing (worksheets and messages are unchanged);
    a second call with the same name and header never writes; and when the
    table was missing, after two calls the table consists of exactly one
    row, the header, every other worksheet being as before. *)
Theorem ensure_worksheet_idempotent name header w :
  reliable w ->
  let once := ensure_worksheet name header w in
  let twice := ensure_worksheet name header once.2 in
  (forall g, sheets w !! name = Some g ->
     once.1 = inr name /\ sheets once.2 = sheets w /\ ui once.2 = ui w /\
     trace once.2 = trace w ++ [Call_worksheet name; Call_worksheet name]) /\
  (once.1 = inr name /\ twice.1 = inr name /\
   sheets twice.2 = sheets once.2 /\ ui twice.2 = ui once.2 /\
   trace twice.2 = trace once.2 ++ [Call_worksheet name; Call_worksheet name]) /\
  (sheets w !! name = None ->
     sheets twice.2 = <[name := [header_row header]]> (sheets w) /\
     ui twice.2 = ui w ++ [Info_worksheet_created name]).
Proof.
  intros R once twice.
  assert (Hex : forall g w1, reliable w1 -> sheets w1 !! name = Some g ->
            let r := ensure_worksheet name header w1 in
            r.1 = inr name /\ sheets r.2 = sheets w1 /\ ui r.2 = ui w1 /\
            trace r.2 = trace w1 ++ [Call_worksheet name; Call_worksheet name]).
  { intros g w1 R1 S1. rewrite (ensure_worksheet_existing _ _ _ _ R1 S1). simpl.
    repeat split. now rewrite <- app_assoc. }
  split; [intros g S; exact (Hex g w R S) |].
  destruct (sheets w !! name) as [g|] eqn:S.
  - destruct (Hex g w R S) as (H1 & H2 & H3 & H4). fold once in H1, H2, H3, H4.
    assert (R1 : reliable once.2).
    { subst once. rewrite (ensure_worksheet_existing _ _ _ _ R S). exact R. }
    assert (S1 : sheets once.2 !! name = Some g) by (now rewrite H2).
    destruct (Hex g once.2 R1 S1) as (K1 & K2 & K3 & K4). fold twice in K1, K2, K3, K4.
    repeat split; try assumption; discriminate.
  - assert (E : once = ensure_worksheet name header w) by reflexivity.
    rewrite (ensure_worksheet_missing _ _ _ R S) in E.
    assert (R1 : reliable once.2) by (rewrite E; exact R).
    assert (S1 : sheets once.2 !! name = Some [header_row header]).
    { rewrite E. simpl. apply lookup_insert_eq. }
    destruct (Hex _ once.2 R1 S1) as (K1 & K2 & K3 & K4). fold twice in K1, K2, K3, K4.
    repeat split; try assumption.
    + now rewrite E.
    + rewrite K2, E. reflexivity.
    + rewrite K3, E. reflexivity.
Qed.

Lemma ensure_worksheet_idempotent_witness :
  let once := ensure_worksheet MEALS_SHEET MEALS_HEADER fresh in
  let twice := ensure_worksheet MEALS_SHEET MEALS_HEADER once.2 in
  sheets twice.2 = <[MEALS_SHEET := [header_row MEALS_HEADER]]> (sheets fresh) /\
  ui twice.2 = ui fresh ++ [Info_worksheet_created MEALS_SHEET].
Proof.
  destruct (ensure_worksheet_idempotent MEALS_SHEET MEALS_HEADER fresh) as (_ & _ & H);
    [intros k; reflexivity |].
  apply H. reflexivity.
Defined.

(** ** Validation and append-only writes *)

Lemma truthy_true s : truthy s = true <-> s <> "".
Proof. destruct s; simpl; split; intros H; congruence. Qed.

Lemma add_food_rejected ws inp w :
  add_btn inp = true -> food_item inp = "" ->
  add_food_handler ws inp w = (inr tt, with_ui (ui w ++ [Warning_food_name]) w).
Proof. intros B F. unfold add_food_handler. rewrite B, F. reflexivity. Qed.

Lemma add_food_saved ws inp g w :
  answers w -> sheets w !! ws = Some g ->
  add_btn inp = true -> food_item inp <> "" ->
  add_food_handler ws inp w =
    (inr tt,
     with_ui (ui w ++ [Success_saved (food_item inp) (CStr (food_item inp))
                         (CStr (strftime_HMS (entry_time inp)))])
       (with_sheets (<[ws := g ++ [meal_row inp]]> (sheets w))
          (called (Call_append_row ws (meal_row inp)) w))).
Proof.
  intros R S B F. unfold add_food_handler. rewrite B.
  apply truthy_true in F. rewrite F. cbn [negb]. cbv beta iota zeta.
  erewrite try_except_inr; [reflexivity |].
  unfold append_meal_row. erewrite bind_inr; [| apply append_row_ok with (g := g); [exact R | exact S]].
  reflexivity.
Qed.

Lemma add_food_failed ws inp w :
  outage w (length (trace w)) = true ->
  add_btn inp = true -> food_item inp <> "" ->
  add_food_handler ws inp w =
    (inr tt, with_ui (ui w ++ [Error_save_failed APIError])
               (called (Call_append_row ws (meal_row inp)) w)).
Proof.
  intros O B F. unfold add_food_handler. rewrite B.
  apply truthy_true in F. rewrite F. cbn [negb]. cbv beta iota zeta.
  erewrite try_except_inl.
  2:{ unfold append_meal_row. apply bind_inl. now apply append_row_out. }
  reflexivity.
Qed.

Lemma save_note_rejected ws inp w :
  save_note_btn inp = true -> strip (daily_note_text inp) = "" ->
  save_note_handler ws inp w = (inr tt, with_ui (ui w ++ [Warning_note_empty]) w).
Proof. intros B F. unfold save_note_handler. rewrite B, F. reflexivity. Qed.

Lemma save_note_saved ws inp g w :
  answers w -> sheets w !! ws = Some g ->
  save_note_btn inp = true -> strip (daily_note_text inp) <> "" ->
  save_note_handler ws inp w =
    (inr tt,
     with_ui (ui w ++ [Success_note_saved])
       (with_sheets (<[ws := g ++ [note_row inp (clock w (ticks w))]]> (sheets w))
          (called (Call_append_row ws (note_row inp (clock w (ticks w)))) (with_ticks (S (ticks w)) w)))).
Proof.
  intros R S B F. unfold save_note_handler. rewrite B.
  apply truthy_true in F. rewrite F. cbn [negb]. cbv beta iota zeta.
  erewrite try_except_inr; [reflexivity |].
  unfold bind at 1. unfold now at 1.
  erewrite bind_inr; [| apply append_row_ok with (g := g); [exact R | exact S]].
  reflexivity.
Qed.

(** C6. A meal submission with an empty food name and a note submission
    whose text is empty after [strip] are answered with a warning only: the
    world is otherwise unchanged, so no remote call is issued and no row is
    written.  A submission that passes the check issues exactly one remote
    call, an [append_row] to its table, and on a store that answers it the
    table grows by exactly that one row, all other tables unchanged. *)
Theorem validation_gates_append ws inp w :
  (add_btn inp = true -> food_item inp = "" ->
     add_food_handler ws inp w = (inr tt, with_ui (ui w ++ [Warning_food_name]) w)) /\
  (save_note_btn inp = true -> strip (daily_note_text inp) = "" ->
     save_note_handler ws inp w = (inr tt, with_ui (ui w ++ [Warning_note_empty]) w)) /\
  (forall g, answers w -> sheets w !! ws = Some g ->
     add_btn inp = true -> food_item inp <> "" ->
     let w' := (add_food_handler ws inp w).2 in
     sheets w' = <[ws := g ++ [meal_row inp]]> (sheets w) /\
     trace w' = trace w ++ [Call_append_row ws (meal_row inp)]) /\
  (forall g, answers w -> sheets w !! ws = Some g ->
     save_note_btn inp = true -> strip (daily_note_text inp) <> "" ->
     let w' := (save_note_handler ws inp w).2 in
     sheets w' = <[ws := g ++ [note_row inp (clock w (ticks w))]]> (sheets w) /\
     trace w' = trace w ++ [Call_append_row ws (note_row inp (clock w (ticks w)))]).
Proof.
  split; [apply add_food_rejected |].
  split; [apply save_note_rejected |].
  split; intros g R S B F.
  - rewrite (add_food_saved _ _ _ _ R S B F). split; reflexivity.
  - rewrite (save_note_saved _ _ _ _ R S B F). split; reflexivity.
Qed.

Lemma validation_gates_append_witness :
  add_food_handler MEALS_SHEET blank_inputs started
    = (inr tt, with_ui [Warning_food_name] started) /\
  save_note_handler NOTES_SHEET blank_inputs started
    = (inr tt, with_ui [Warning_note_empty] started) /\
  sheets (add_food_handler MEALS_SHEET sample_inputs started).2
    = <[MEALS_SHEET := [header_row MEALS_HEADER; meal_row sample_inputs]]> (sheets started).
Proof.
  destruct (validation_gates_append MEALS_SHEET blank_inputs started) as (H1 & _).
  destruct (validation_gates_append NOTES_SHEET blank_inputs started) as (_ & H2 & _).
  destruct (validation_gates_append MEALS_SHEET sample_inputs started) as (_ & _ & H3 & _).
  split; [apply H1; reflexivity |].
  split; [apply H2; reflexivity |].
  apply (H3 [header_row MEALS_HEADER]); [reflexivity | reflexivity | reflexivity | discriminate].
Defined.

(** ** Goal upsert *)

Lemma world_eq s t o n c u s' t' n' u' :
  s = s' -> t = t' -> n = n' -> u = u' ->
  mkWorld s t o n c u = mkWorld s' t' o n' c u'.
Proof. now intros -> -> -> ->. Qed.

Lemma upsert_scan_updated ws label cal prot g pre r post : forall i w,
  reliable w -> sheets w !! ws = Some g ->
  Forall (fun p => matches label p = false) pre -> matches label r = true ->
  upsert_scan ws label cal prot (S i) (pre ++ r :: post) w =
    (inr "updated",
     mkWorld (<[ws := goal_cells g (i + length pre) cal prot (clock w (ticks w))]> (sheets w))
       (trace w ++ [Call_update ws (col_B (S (i + length pre))) (CInt cal);
                    Call_update ws (col_C (S (i + length pre))) (CInt prot);
                    Call_update ws (col_D (S (i + length pre))) (CStr (clock w (ticks w)))])
       (outage w) (S (ticks w)) (clock w) (ui w)).
Proof.
  induction pre as [| p pre IH]; intros i w R Hs Hpre Hr.
  - simpl. rewrite Hr. rewrite Nat.add_0_r.
    unfold col_B, col_C, col_D.
    erewrite bind_inr; [| apply update_ok with (g := g); [apply R | exact Hs]].
    erewrite bind_inr; [| eapply update_ok; [apply R | simpl; apply lookup_insert_eq]].
    unfold bind at 1, now at 1.
    erewrite bind_inr; [| eapply update_ok; [apply R | simpl; apply lookup_insert_eq]].
    unfold ret. f_equal. destruct w; unfold called, with_sheets, with_trace, with_ticks; simpl.
    apply world_eq; try reflexivity.
    + now rewrite !insert_insert_eq.
    + now rewrite <- !app_assoc.
  - inversion Hpre as [| ? ? Hp Hpre']; subst. simpl.
    rewrite Hp.
    rewrite (IH (S i) w R Hs Hpre' Hr).
    replace (S i + length pre) with (i + S (length pre)) by lia. reflexivity.
Qed.

Lemma upsert_scan_created ws label cal prot g recs : forall i w,
  reliable w -> sheets w !! ws = Some g ->
  Forall (fun p => matches label p = false) recs ->
  upsert_scan ws label cal prot i recs w =
    (inr "created",
     mkWorld (<[ws := g ++ [new_goal_row label cal prot (clock w (ticks w))]]> (sheets w))
       (trace w ++ [Call_append_row ws (new_goal_row label cal prot (clock w (ticks w)))])
       (outage w) (S (ticks w)) (clock w) (ui w)).
Proof.
  induction recs as [| p recs IH]; intros i w R Hs Hall.
  - simpl. unfold bind at 1, now at 1.
    erewrite bind_inr; [| apply append_row_ok with (g := g); [apply R | exact Hs]].
    unfold ret. f_equal.
  - inversion Hall as [| ? ? Hp Hall']; subst. simpl.
    rewrite Hp. now apply IH.
Qed.

(** Every list of records either has a first record that matches or none. *)
Lemma first_match label (recs : list record) :
  Forall (fun p => matches label p = false) recs \/
  exists pre r post, recs = pre ++ r :: post /\
    Forall (fun p => matches label p = false) pre /\ matches label r = true.
Proof.
  induction recs as [| p recs IH].
  - left. constructor.
  - destruct (matches label p) eqn:E.
    + right. exists [], p, recs. repeat split; [constructor | exact E].
    + destruct IH as [IH | (pre & r & post & -> & Hpre & Hr)].
      * left. now constructor.
      * right. exists (p :: pre), r, post. repeat split; [now constructor | exact Hr].
Qed.

(** When the first write of the upsert raises, nothing is caught. *)
Lemma upsert_scan_write_raises ws label cal prot recs : forall i w,
  outage w (length (trace w)) = true ->
  let r := upsert_scan ws label cal prot i recs w in
  r.1 = inl APIError /\ ui r.2 = ui w /\ sheets r.2 = sheets w.
Proof.
  induction recs as [| p recs IH]; intros i w O; cbv zeta.
  - simpl. unfold bind at 1 3 5, now at 1 2 3.
    erewrite bind_inl; [| apply append_row_out; exact O]. now simpl.
  - simpl. destruct (matches label p).
    + erewrite bind_inl; [| apply update_out; exact O]. now simpl.
    + now apply IH.
Qed.

(** ** Failures on the write path *)

(** The meal handler never lets an exception out. *)
Lemma add_food_handler_catches ws inp w : (add_food_handler ws inp w).1 = inr tt.
Proof.
  unfold add_food_handler. destruct (add_btn inp); [| reflexivity].
  destruct (truthy (food_item inp)); [| reflexivity]. cbn [negb]. cbv beta iota zeta.
  unfold try_except, append_meal_row, bind at 1.
  destruct (append_row_cases ws (meal_row inp) w) as [E | (g & _ & E)]; rewrite E; reflexivity.
Qed.

(** The note handler never lets an exception out. *)
Lemma save_note_handler_catches ws inp w : (save_note_handler ws inp w).1 = inr tt.
Proof.
  unfold save_note_handler. destruct (save_note_btn inp); [| reflexivity].
  destruct (truthy (strip (daily_note_text inp))); [| reflexivity].
  cbn [negb]. cbv beta iota zeta.
  unfold try_except, bind at 1, now at 1. unfold bind at 1.
  match goal with |- context [append_row ?a ?b ?c] =>
    destruct (append_row_cases a b c) as [E | (g & _ & E)]; rewrite E; reflexivity
  end.
Qed.

(** When the append raises, the meal handler renders the error. *)
Lemma add_food_handler_reports ws inp w :
  outage w (length (trace w)) = true ->
  add_btn inp = true -> food_item inp <> "" ->
  ui (add_food_handler ws inp w).2 = ui w ++ [Error_save_failed APIError] /\
  sheets (add_food_handler ws inp w).2 = sheets w.
Proof. intros O B F. rewrite (add_food_failed _ _ _ O B F). split; reflexivity. Qed.

(** C2 (goal path). The goal handler has no [try]: when the store answers
    the read of the goal table and the first write that follows raises, be it
    the update of a matching row or the append of a new one, the exception
    leaves the handler, and no message is rendered. *)
Theorem set_goal_handler_lets_exception_out ws inp g w :
  set_goal_btn inp = true ->
  sheets w !! ws = Some g ->
  answers w ->
  outage w (S (length (trace w))) = true ->
  let r := set_goal_handler ws inp w in
  r.1 = inl APIError /\ ui r.2 = ui w /\ sheets r.2 = sheets w.
Proof.
  intros B Hs R O. cbv zeta. unfold set_goal_handler. rewrite B.
  unfold upsert_goal.
  set (c := Call_get_all_records ws).
  assert (O1 : outage (called c w) (length (trace (called c w))) = true).
  { simpl. rewrite length_app. simpl. now rewrite Nat.add_1_r. }
  destruct (upsert_scan_write_raises ws (month_year_label inp) (calorie_goal_input inp)
              (protein_goal_input inp) (records_of g) 2 (called c w) O1) as (H1 & H2 & H3).
  destruct (upsert_scan _ _ _ _ _ _ _) as [res w'] eqn:E. simpl in H1, H2, H3. subst res.
  erewrite bind_inl.
  2:{ erewrite bind_inr; [exact E |]. now apply get_all_records_ok. }
  repeat split; assumption.
Qed.

Lemma set_goal_handler_lets_exception_out_witness :
  let r := set_goal_handler GOALS_SHEET sample_inputs (failing_from 1 started) in
  r.1 = inl APIError /\ ui r.2 = [] /\ sheets r.2 = sheets started.
Proof.
  apply (set_goal_handler_lets_exception_out GOALS_SHEET sample_inputs
           [header_row GOALS_HEADER] (failing_from 1 started)); reflexivity.
Defined.

(** ** Failures on the read path *)

Lemma df_empty_no_records : df_empty (DataFrame_of []) = true.
Proof. unfold df_empty. apply orb_true_r. Qed.

(** C9. If fetching the meal table fails during the daily summary, the
    summary does not raise: it renders the error and then the "no food
    entries" message of the empty dataset, changes no worksheet, and returns
    normally, so whatever follows it in the script runs. *)
Theorem daily_summary_soft_fails ms gs d w e w1 :
  get_all_records ms w = (inl e, w1) ->
  let w' := with_ui (ui w1 ++ [Error_fetch_meals e; Info_no_entries_yet]) w1 in
  daily_summary ms gs d w = (inr tt, w') /\
  sheets w' = sheets w /\
  ui w' = ui w ++ [Error_fetch_meals e; Info_no_entries_yet] /\
  forall k : M unit, (run daily_summary ms gs d in k) w = k w'.
Proof.
  intros E w'.
  assert (D : daily_summary ms gs d w = (inr tt, w')).
  { unfold daily_summary.
    erewrite bind_inr.
    2:{ erewrite try_except_inl; [| apply bind_inl; exact E].
        unfold bind, st, modify, ret. simpl. reflexivity. }
    rewrite df_empty_no_records. unfold st, modify. simpl.
    subst w'. unfold with_ui. simpl. now rewrite <- app_assoc. }
  destruct (get_all_records_frame ms w) as [F _]. rewrite E in F. simpl in F.
  split; [exact D |]. split; [| split].
  - subst w' w1. reflexivity.
  - subst w' w1. reflexivity.
  - intros k. unfold bind. now rewrite D.
Qed.

Lemma daily_summary_soft_fails_witness :
  daily_summary MEALS_SHEET GOALS_SHEET sample_day (failing_from 0 started) =
    (inr tt,
     with_ui [Error_fetch_meals APIError; Info_no_entries_yet]
       (called (Call_get_all_records MEALS_SHEET) (failing_from 0 started))).
Proof.
  apply (daily_summary_soft_fails MEALS_SHEET GOALS_SHEET sample_day
           (failing_from 0 started) APIError
           (called (Call_get_all_records MEALS_SHEET) (failing_from 0 started))).
  reflexivity.
Defined.

(** ** Goal snapshot of a meal row *)

Lemma add_food_handler_trace ws inp w :
  trace (add_food_handler ws inp w).2 =
    trace w ++ (if add_btn inp && truthy (food_item inp)
                then [Call_append_row ws (meal_row inp)] else []).
Proof.
  unfold add_food_handler. destruct (add_btn inp); [| simpl; now rewrite app_nil_r].
  destruct (truthy (food_item inp)); [| simpl; now rewrite app_nil_r].
  cbn [negb andb]. cbv beta iota zeta.
  unfold try_except, append_meal_row, bind at 1.
  destruct (append_row_cases ws (meal_row inp) w) as [E | (g & _ & E)]; rewrite E; reflexivity.
Qed.

(** ** Records of a grid *)

Section Records.

Implicit Types (m : record) (l : list (string * cell)) (keys : list string)
  (cells : row) (k : string) (v : cell).

Lemma bindings_lookup_notin l : forall m k,
  k ∉ l.*1 -> bindings l m !! k = m !! k.
Proof.
  induction l as [| [k1 v1] l IH]; intros m k Hk; [reflexivity |].
  simpl in *. apply not_elem_of_cons in Hk as [Hne Hk].
  rewrite (IH _ _ Hk). now apply lookup_insert_ne.
Qed.

Lemma bindings_insert_notin l : forall m k v,
  k ∉ l.*1 -> bindings l (<[k := v]> m) = <[k := v]> (bindings l m).
Proof.
  induction l as [| [k1 v1] l IH]; intros m k v Hk; [reflexivity |].
  simpl in *. apply not_elem_of_cons in Hk as [Hne Hk].
  rewrite <- (IH _ _ _ Hk). f_equal. now apply insert_insert_ne.
Qed.

Lemma sole_tail k1 keys c k : sole (k1 :: keys) (S c) k -> k1 <> k /\ sole keys c k.
Proof.
  intros H. split.
  - intros ->. specialize (H 0). simpl in H. destruct H as [H _]. now specialize (H eq_refl).
  - intros i. specialize (H (S i)). simpl in H. rewrite H. lia.
Qed.

Lemma sole_head k keys : sole (k :: keys) 0 k -> k ∉ keys.
Proof.
  intros H Hin. apply list_elem_of_lookup in Hin as [i Hi].
  specialize (H (S i)). simpl in H. apply H in Hi. discriminate.
Qed.

Lemma zip_fst_subseteq keys cells k : k ∈ (zip keys cells).*1 -> k ∈ keys.
Proof.
  revert cells. induction keys as [| k1 keys IH]; intros [| c cells] H; simpl in *;
    try (now apply elem_of_nil in H).
  apply elem_of_cons in H as [-> | H]; [left | right; eauto].
Qed.

(** The value bound to a key that stands in column [c] only is the cell of
    that column. *)
Lemma to_record_lookup keys : forall cells c k v m,
  sole keys c k -> cells !! c = Some v ->
  bindings (zip keys cells) m !! k = Some v.
Proof.
  induction keys as [| k1 keys IH]; intros cells c k v m Hs Hc.
  - destruct (Hs c) as [_ H]. specialize (H eq_refl). discriminate.
  - destruct cells as [| c1 cells]; [discriminate |].
    destruct c as [| c]; simpl in *.
    + injection Hc as ->. assert (k1 = k) as ->.
      { destruct (Hs 0) as [_ H]. specialize (H eq_refl). now injection H. }
      rewrite bindings_lookup_notin; [apply lookup_insert_eq |].
      intros H. apply zip_fst_subseteq in H. now apply sole_head in Hs.
    + apply sole_tail in Hs as [_ Hs]. now apply (IH cells c).
Qed.

(** Writing the cell of such a column rebinds the key. *)
Lemma to_record_insert keys : forall cells c k v m,
  sole keys c k -> c < length cells ->
  bindings (zip keys (<[c := v]> cells)) m = <[k := v]> (bindings (zip keys cells) m).
Proof.
  induction keys as [| k1 keys IH]; intros cells c k v m Hs Hc.
  - destruct (Hs c) as [_ H]. specialize (H eq_refl). discriminate.
  - destruct cells as [| c1 cells]; [simpl in Hc; lia |].
    destruct c as [| c]; simpl in *.
    + assert (k1 = k) as ->.
      { destruct (Hs 0) as [_ H]. specialize (H eq_refl). now injection H. }
      assert (Hk : k ∉ (zip keys cells).*1).
      { intros H. apply zip_fst_subseteq in H. now apply sole_head in Hs. }
      rewrite !bindings_insert_notin by exact Hk. now rewrite insert_insert_eq.
    + apply sole_tail in Hs as [_ Hs]. apply IH; [exact Hs | lia].
Qed.

End Records.

(** ** Width, padding and cell updates *)

Lemma width_cons r (g : grid) : width (r :: g) = Nat.max (length r) (width g).
Proof. reflexivity. Qed.

Lemma width_app (g1 g2 : grid) : width (g1 ++ g2) = Nat.max (width g1) (width g2).
Proof.
  induction g1 as [| r g1 IH]; [reflexivity |].
  rewrite <- app_comm_cons, !width_cons, IH. lia.
Qed.

Lemma width_alter n (f : row -> row) (g : grid) : forall j,
  (forall r, g !! j = Some r ->
     length r <= length (f r) /\ length (f r) <= Nat.max (length r) n) ->
  Nat.max n (width (alter f j g)) = Nat.max n (width g).
Proof.
  induction g as [| r g IH]; intros [| j] H; try reflexivity.
  - destruct (H r eq_refl). change (alter f 0 (r :: g)) with (f r :: g).
    rewrite !width_cons. lia.
  - specialize (IH j H). change (alter f (S j) (r :: g)) with (r :: alter f j g).
    rewrite !width_cons. lia.
Qed.

Lemma length_pad n r : length (pad n r) = Nat.max n (length r).
Proof. unfold pad. rewrite length_app, length_replicate. lia. Qed.

Lemma pad_lookup n (r : row) i :
  i < n -> pad n r !! i = Some (default blank (r !! i)).
Proof.
  intros Hi. unfold pad. destruct (r !! i) as [c|] eqn:E.
  - now rewrite (lookup_app_l_Some _ _ _ _ E).
  - apply lookup_ge_None in E. rewrite lookup_app_r by exact E.
    apply lookup_replicate_2. lia.
Qed.

Lemma pad_pad n k (r : row) : k <= n -> pad n (pad k r) = pad n r.
Proof.
  intros Hk. unfold pad. rewrite <- app_assoc, <- replicate_add. f_equal. f_equal.
  rewrite length_app, length_replicate. lia.
Qed.

(** Writing a cell commutes with padding to a larger width. *)
Lemma pad_insert n c v (r : row) :
  c < n -> pad n (<[c := v]> (pad (S c) r)) = <[c := v]> (pad n r).
Proof.
  intros Hc. rewrite <- (pad_pad n (S c) r) by lia.
  unfold pad at 1 3. rewrite length_insert. symmetry. apply insert_app_l.
  rewrite length_pad. lia.
Qed.

Lemma cell_text_header header : cell_text <$> header_row header = header.
Proof.
  unfold header_row. rewrite <- list_fmap_compose.
  induction header as [| a h IH]; [reflexivity | rewrite fmap_cons, IH; reflexivity].
Qed.

(** The keys read from a header row of text, padded to width [n]. *)
Lemma keys_pad n header :
  cell_text <$> pad n (header_row header) =
    header ++ replicate (n - length header) "".
Proof.
  unfold pad. rewrite fmap_app, cell_text_header, fmap_replicate.
  unfold header_row. now rewrite length_fmap.
Qed.

Lemma sole_pad keys c k n : k <> "" -> sole keys c k -> sole (keys ++ replicate n "") c k.
Proof.
  intros Hk Hs i. rewrite <- (Hs i). split; intros H.
  - apply lookup_app_Some in H as [H | [_ H]]; [exact H |].
    apply lookup_replicate in H as [H _]. congruence.
  - now apply lookup_app_l_Some.
Qed.

(** ** Records of a table with a text header *)

Lemma sole_lt keys c k : sole keys c k -> c < length keys.
Proof. intros H. destruct (H c) as [_ Hc]. eapply lookup_lt_Some. now apply Hc. Qed.

Lemma set_cell_body hdr (body : grid) j c v :
  j < length body ->
  set_cell (hdr :: body) (S j) c v = hdr :: alter (write c v) j body.
Proof.
  intros Hj. unfold set_cell.
  replace (S (S j) - length (hdr :: body)) with 0 by (simpl; lia).
  simpl replicate. now rewrite app_nil_r.
Qed.

Lemma length_write c v r : length (write c v r) = Nat.max (S c) (length r).
Proof. unfold write. now rewrite length_insert, length_pad. Qed.

Lemma width_write hdr (body : grid) j c v :
  c < length hdr ->
  width (hdr :: alter (write c v) j body) = width (hdr :: body).
Proof.
  intros Hc. rewrite !width_cons. apply width_alter.
  intros r _. rewrite length_write. lia.
Qed.

Lemma width_header header (body : grid) :
  length header <= width (header_row header :: body).
Proof. rewrite width_cons. unfold header_row. rewrite length_fmap. lia. Qed.

Lemma records_of_header header (body : grid) :
  records_of (header_row header :: body) =
    record_at header (width (header_row header :: body)) <$> body.
Proof.
  unfold records_of, fill_gaps. rewrite fmap_cons, keys_pad.
  rewrite <- list_fmap_compose. reflexivity.
Qed.

Lemma record_at_lookup header n c k r :
  sole header c k -> k <> "" -> length header <= n ->
  record_at header n r !! k = Some (default blank (r !! c)).
Proof.
  intros Hs Hk Hn. unfold record_at, to_record.
  apply to_record_lookup with (c := c); [now apply sole_pad |].
  apply pad_lookup. apply sole_lt in Hs. lia.
Qed.

Lemma record_at_write header n c k v r :
  sole header c k -> k <> "" -> length header <= n ->
  record_at header n (write c v r) = <[k := v]> (record_at header n r).
Proof.
  intros Hs Hk Hn. pose proof (sole_lt _ _ _ Hs) as Hc.
  unfold record_at, to_record, write. rewrite pad_insert by lia.
  apply to_record_insert; [now apply sole_pad |]. rewrite length_pad. lia.
Qed.

(** Writing a cell below a text header rebinds one key of one record. *)
Lemma records_set_cell header (body : grid) j c k v :
  j < length body -> sole header c k -> k <> "" ->
  records_of (set_cell (header_row header :: body) (S j) c v) =
    alter (<[k := v]>) j (records_of (header_row header :: body)).
Proof.
  intros Hj Hs Hk. rewrite set_cell_body by exact Hj.
  rewrite !records_of_header. rewrite width_write.
  2:{ unfold header_row. rewrite length_fmap. now apply sole_lt in Hs. }
  apply list_fmap_alter. apply Forall_forall. intros r _.
  apply record_at_write; [exact Hs | exact Hk | apply width_header].
Qed.

(** Appending a row that is not wider than the table adds one record. *)
Lemma records_append header (body : grid) r :
  length r <= length header ->
  records_of ((header_row header :: body) ++ [r]) =
    records_of (header_row header :: body) ++
      [record_at header (width (header_row header :: body)) r].
Proof.
  intros Hr. rewrite <- app_comm_cons, !records_of_header, fmap_app.
  assert (W : width (header_row header :: body ++ [r]) = width (header_row header :: body)).
  { pose proof (width_header header body) as H. rewrite !width_cons in *.
    rewrite width_app. simpl. unfold header_row in *. rewrite length_fmap in *. lia. }
  now rewrite W.
Qed.

(** ** The goal table *)

Ltac solve_sole :=
  let i := fresh "i" in
  intros i; split;
  [ do 12 (destruct i as [| i]; [simpl; first [reflexivity | discriminate] |]);
    simpl; discriminate
  | intros ->; reflexivity ].

Lemma sole_month_year : sole GOALS_HEADER 0 "month_year".
Proof. solve_sole. Qed.
Lemma sole_calorie_goal : sole GOALS_HEADER 1 "calorie_goal".
Proof. solve_sole. Qed.
Lemma sole_protein_goal : sole GOALS_HEADER 2 "protein_goal".
Proof. solve_sole. Qed.
Lemma sole_created_at : sole GOALS_HEADER 3 "created_at".
Proof. solve_sole. Qed.

Lemma length_records_of header (body : grid) :
  length (records_of (header_row header :: body)) = length body.
Proof. rewrite records_of_header. apply length_fmap. Qed.

Lemma length_goal_cells hdr (body : grid) j cal prot t :
  j < length body ->
  length (goal_cells (hdr :: body) (S j) cal prot t) = length (hdr :: body).
Proof.
  intros Hj. unfold goal_cells.
  rewrite set_cell_body by exact Hj.
  rewrite set_cell_body by (rewrite length_alter; exact Hj).
  rewrite set_cell_body by (rewrite !length_alter; exact Hj).
  simpl. now rewrite !length_alter.
Qed.

(** Rows other than the one written are as before. *)
Lemma goal_cells_other hdr (body : grid) j cal prot t i :
  j < length body -> i <> S j ->
  goal_cells (hdr :: body) (S j) cal prot t !! i = (hdr :: body) !! i.
Proof.
  intros Hj Hi. unfold goal_cells.
  rewrite set_cell_body by exact Hj.
  rewrite set_cell_body by (rewrite length_alter; exact Hj).
  rewrite set_cell_body by (rewrite !length_alter; exact Hj).
  destruct i as [| i]; [reflexivity |]. simpl.
  rewrite !list_lookup_alter_ne by lia. reflexivity.
Qed.

(** The three cells written are the three goal fields of the record. *)
Lemma records_goal_cells (body : grid) j cal prot t :
  j < length body ->
  records_of (goal_cells (header_row GOALS_HEADER :: body) (S j) cal prot t) =
    alter (overwrite_goal cal prot t) j (records_of (header_row GOALS_HEADER :: body)).
Proof.
  intros Hj. unfold goal_cells.
  rewrite set_cell_body by exact Hj.
  rewrite set_cell_body by (rewrite length_alter; exact Hj).
  rewrite (records_set_cell _ _ _ _ "created_at");
    [| rewrite !length_alter; exact Hj | exact sole_created_at | discriminate].
  rewrite <- set_cell_body by (rewrite length_alter; exact Hj).
  rewrite (records_set_cell _ _ _ _ "protein_goal");
    [| rewrite !length_alter; exact Hj | exact sole_protein_goal | discriminate].
  rewrite <- set_cell_body by exact Hj.
  rewrite (records_set_cell _ _ _ _ "calorie_goal");
    [| exact Hj | exact sole_calorie_goal | discriminate].
  rewrite !list_alter_alter_eq. reflexivity.
Qed.

Lemma new_goal_row_record n label cal prot t :
  4 <= n ->
  let r := record_at GOALS_HEADER n (new_goal_row label cal prot t) in
  r !! "month_year" = Some (CStr label) /\
  r !! "calorie_goal" = Some (CInt cal) /\
  r !! "protein_goal" = Some (CInt prot) /\
  r !! "created_at" = Some (CStr t).
Proof.
  intros Hn r. subst r. repeat split.
  - now rewrite (record_at_lookup _ _ 0) by (first [exact sole_month_year | discriminate | exact Hn]).
  - now rewrite (record_at_lookup _ _ 1) by (first [exact sole_calorie_goal | discriminate | exact Hn]).
  - now rewrite (record_at_lookup _ _ 2) by (first [exact sole_protein_goal | discriminate | exact Hn]).
  - now rewrite (record_at_lookup _ _ 3) by (first [exact sole_created_at | discriminate | exact Hn]).
Qed.

Lemma upsert_goal_run ws label cal prot g w :
  reliable w -> sheets w !! ws = Some g ->
  upsert_goal ws label cal prot w =
    upsert_scan ws label cal prot 2 (records_of g) (called (Call_get_all_records ws) w).
Proof.
  intros R Hs. unfold upsert_goal. apply bind_inr.
  apply get_all_records_ok; [apply R | exact Hs].
Qed.

(** A first matching record is updated in place. *)
Lemma upsert_goal_updates ws label cal prot (body : grid) w pre r post :
  reliable w ->
  sheets w !! ws = Some (header_row GOALS_HEADER :: body) ->
  let g := header_row GOALS_HEADER :: body in
  let t := clock w (ticks w) in
  let res := upsert_goal ws label cal prot w in
  records_of g = pre ++ r :: post ->
  Forall (fun p => matches label p = false) pre ->
  matches label r = true ->
  res.1 = inr "updated" /\
  sheets res.2 = <[ws := goal_cells g (S (length pre)) cal prot t]> (sheets w) /\
  records_of (goal_cells g (S (length pre)) cal prot t) =
    pre ++ overwrite_goal cal prot t r :: post.
Proof.
  intros R Hs g t res Hrecs Hpre Hr.
  assert (E : res = upsert_scan ws label cal prot 2 (records_of g)
                      (called (Call_get_all_records ws) w))
    by (apply upsert_goal_run; assumption).
  assert (Hj : length pre < length body).
  { rewrite <- (length_records_of GOALS_HEADER body). fold g.
    rewrite Hrecs, length_app. simpl. lia. }
  rewrite E, Hrecs.
  rewrite (upsert_scan_updated ws label cal prot g pre r post 1
             (called (Call_get_all_records ws) w) R Hs Hpre Hr).
  split; [reflexivity |]. split; [reflexivity |].
  unfold g. rewrite records_goal_cells by exact Hj. fold g.
  rewrite Hrecs. rewrite <- (Nat.add_0_r (length pre)). now rewrite alter_app_r.
Qed.

(** Without a matching record a row is appended. *)
Lemma upsert_goal_creates ws label cal prot (body : grid) w :
  reliable w ->
  sheets w !! ws = Some (header_row GOALS_HEADER :: body) ->
  let g := header_row GOALS_HEADER :: body in
  let t := clock w (ticks w) in
  let res := upsert_goal ws label cal prot w in
  Forall (fun p => matches label p = false) (records_of g) ->
  res.1 = inr "created" /\
  sheets res.2 = <[ws := g ++ [new_goal_row label cal prot t]]> (sheets w) /\
  exists r, records_of (g ++ [new_goal_row label cal prot t]) = records_of g ++ [r] /\
    r !! "month_year" = Some (CStr label) /\
    r !! "calorie_goal" = Some (CInt cal) /\
    r !! "protein_goal" = Some (CInt prot) /\
    r !! "created_at" = Some (CStr t).
Proof.
  intros R Hs g t res Hnone.
  assert (E : res = upsert_scan ws label cal prot 2 (records_of g)
                      (called (Call_get_all_records ws) w))
    by (apply upsert_goal_run; assumption).
  rewrite E.
  rewrite (upsert_scan_created ws label cal prot g (records_of g) 2
             (called (Call_get_all_records ws) w) R Hs Hnone).
  split; [reflexivity |]. split; [reflexivity |].
  eexists. split; [apply records_append; reflexivity |].
  apply new_goal_row_record. pose proof (width_header GOALS_HEADER body) as H. exact H.
Qed.

(** C3. The upsert scans the goal records in table order.  When [r] is the
    first record whose [month_year] equals the label (no record before it
    matches, whatever comes after it), the result is "updated" and the cells
    B, C and D of the row of [r] are written: the records of the table are as
    before except that [r] has [calorie_goal], [protein_goal] and
    [created_at] overwritten with the new goals and the current time.  When
    no record matches, the result is "created" and one row with the label,
    the goals and the current time is appended. *)
Theorem upsert_goal_first_match ws label cal prot (body : grid) w :
  reliable w ->
  sheets w !! ws = Some (header_row GOALS_HEADER :: body) ->
  let g := header_row GOALS_HEADER :: body in
  let recs := records_of g in
  let t := clock w (ticks w) in
  let res := upsert_goal ws label cal prot w in
  (forall pre r post,
     recs = pre ++ r :: post ->
     Forall (fun p => matches label p = false) pre ->
     matches label r = true ->
     res.1 = inr "updated" /\
     sheets res.2 = <[ws := goal_cells g (S (length pre)) cal prot t]> (sheets w) /\
     records_of (goal_cells g (S (length pre)) cal prot t) =
       pre ++ overwrite_goal cal prot t r :: post) /\
  (Forall (fun p => matches label p = false) recs ->
     res.1 = inr "created" /\
     sheets res.2 = <[ws := g ++ [new_goal_row label cal prot t]]> (sheets w) /\
     exists r, records_of (g ++ [new_goal_row label cal prot t]) = recs ++ [r] /\
       r !! "month_year" = Some (CStr label) /\
       r !! "calorie_goal" = Some (CInt cal) /\
       r !! "protein_goal" = Some (CInt prot) /\
       r !! "created_at" = Some (CStr t)).
Proof.
  intros R Hs g recs t res. split.
  - intros pre r post Hrecs Hpre Hr.
    now apply (upsert_goal_updates ws label cal prot body w pre r post).
  - intros Hnone. now apply (upsert_goal_creates ws label cal prot body w).
Qed.

Lemma upsert_goal_first_match_witness :
  let res := upsert_goal GOALS_SHEET "2024-03" 1700 80 (with_goals two_goals started) in
  res.1 = inr "updated" /\
  sheets res.2 !! GOALS_SHEET =
    Some [header_row GOALS_HEADER;
          new_goal_row "2024-02" 1800 90 "2024-02-01T09:00:00";
          new_goal_row "2024-03" 1700 80 (sample_clock 0)].
Proof.
  pose proof (upsert_goal_first_match GOALS_SHEET "2024-03" 1700 80
                (tail two_goals) (with_goals two_goals started)) as H.
  destruct H as [H _]; [intros k; reflexivity | reflexivity |].
  destruct (H [record_at GOALS_HEADER 4 (new_goal_row "2024-02" 1800 90 "2024-02-01T09:00:00")]
              (record_at GOALS_HEADER 4 (new_goal_row "2024-03" 1600 70 "2024-03-01T09:00:00"))
              []) as (H1 & H2 & _).
  - reflexivity.
  - repeat constructor.
  - reflexivity.
  - split; [exact H1 |]. rewrite H2. reflexivity.
Defined.

Lemma matches_month_year label (r : record) :
  matches label r = true <-> r !! "month_year" = Some (CStr label).
Proof.
  unfold matches, eq_str. destruct (r !! "month_year") as [[s | z | f] |]; split; intros H;
    try discriminate.
  - apply String.eqb_eq in H. now subst.
  - injection H as ->. apply String.eqb_refl.
Qed.

Lemma overwrite_goal_other cal prot t (r : record) k :
  k <> "calorie_goal" -> k <> "protein_goal" -> k <> "created_at" ->
  overwrite_goal cal prot t r !! k = r !! k.
Proof.
  intros H1 H2 H3. unfold overwrite_goal.
  rewrite !lookup_insert_ne by congruence. reflexivity.
Qed.

(** C4. Frame of the upsert on a goal table whose records have distinct
    month labels.  For a label that exists, exactly one record carries it;
    the table keeps its number of rows, every row of the grid other than the
    row of that record is as before, and in that record only [calorie_goal],
    [protein_goal] and [created_at] are rebound: [month_year] and every other
    key keep their values.  For a new label the table has one row more and
    the rows and records that existed are as before.  Other worksheets are
    never touched. *)
Theorem upsert_goal_frame ws label cal prot (body : grid) w :
  reliable w ->
  sheets w !! ws = Some (header_row GOALS_HEADER :: body) ->
  NoDup ((fun r : record => r !! "month_year") <$> records_of (header_row GOALS_HEADER :: body)) ->
  let g := header_row GOALS_HEADER :: body in
  let recs := records_of g in
  let t := clock w (ticks w) in
  let res := upsert_goal ws label cal prot w in
  ((exists r, r ∈ recs /\ matches label r = true) ->
     exists j r g',
       recs !! j = Some r /\ matches label r = true /\
       (forall i r', recs !! i = Some r' -> matches label r' = true -> i = j) /\
       sheets res.2 = <[ws := g']> (sheets w) /\
       length g' = length g /\
       (forall i, i <> S j -> g' !! i = g !! i) /\
       records_of g' = <[j := overwrite_goal cal prot t r]> recs /\
       overwrite_goal cal prot t r !! "month_year" = r !! "month_year" /\
       (forall k, k <> "calorie_goal" -> k <> "protein_goal" -> k <> "created_at" ->
          overwrite_goal cal prot t r !! k = r !! k)) /\
  (Forall (fun p => matches label p = false) recs ->
     exists g',
       sheets res.2 = <[ws := g']> (sheets w) /\
       length g' = S (length g) /\
       (forall i, i < length g -> g' !! i = g !! i) /\
       exists r, records_of g' = recs ++ [r]).
Proof.
  intros R Hs Hdup g recs t res.
  split.
  - intros (r0 & Hin & Hr0).
    destruct (first_match label recs) as [Hnone | (pre & r & post & Hrecs & Hpre & Hr)].
    { rewrite Forall_forall in Hnone. rewrite (Hnone r0 Hin) in Hr0. discriminate. }
    destruct (upsert_goal_updates ws label cal prot body w pre r post R Hs Hrecs Hpre Hr)
      as (_ & H2 & H3). fold g in H2, H3. fold t in H2, H3. fold res in H2.
    assert (Hj : recs !! length pre = Some r).
    { rewrite Hrecs. rewrite lookup_app_r by lia. now rewrite Nat.sub_diag. }
    assert (Hlt : length pre < length body).
    { rewrite <- (length_records_of GOALS_HEADER body). fold g. fold recs.
      now apply lookup_lt_Some in Hj. }
    exists (length pre), r, (goal_cells g (S (length pre)) cal prot t).
    split; [exact Hj |]. split; [exact Hr |]. split; [| split; [exact H2 |]].
    { intros i r' Hi Hr'. apply matches_month_year in Hr, Hr'.
      apply (NoDup_lookup _ _ _ (Some (CStr label)) Hdup).
      - fold g. fold recs. rewrite list_lookup_fmap, Hi. simpl. now rewrite Hr'.
      - fold g. fold recs. rewrite list_lookup_fmap, Hj. simpl. now rewrite Hr. }
    split; [now apply length_goal_cells |].
    split; [intros i Hi; now apply goal_cells_other |].
    split.
    { rewrite H3, Hrecs. rewrite list_insert_alter.
      rewrite <- (Nat.add_0_r (length pre)) at 1. now rewrite alter_app_r. }
    split; [apply overwrite_goal_other; discriminate |].
    intros k. apply overwrite_goal_other.
  - intros Hnone.
    destruct (upsert_goal_creates ws label cal prot body w R Hs Hnone) as (_ & H2 & r & H3 & _).
    fold g in H2, H3. fold t in H2, H3. fold res in H2. fold recs in H3.
    exists (g ++ [new_goal_row label cal prot t]).
    split; [exact H2 |]. split; [rewrite length_app; simpl; lia |].
    split; [intros i Hi; now apply lookup_app_l |].
    now exists r.
Qed.

Lemma upsert_goal_frame_witness :
  let w := with_goals two_goals started in
  let res := upsert_goal GOALS_SHEET "2024-04" 1700 80 w in
  exists g', sheets res.2 = <[GOALS_SHEET := g']> (sheets w) /\ length g' = 4 /\
    (forall i, i < 3 -> g' !! i = two_goals !! i) /\
    exists r, records_of g' = records_of two_goals ++ [r].
Proof.
  intros w res.
  destruct (upsert_goal_frame GOALS_SHEET "2024-04" 1700 80 (tail two_goals) w) as [_ H].
  - intros k. reflexivity.
  - reflexivity.
  - vm_compute. repeat constructor; intros H; repeat (apply elem_of_cons in H as [H | H]);
      first [discriminate | now apply elem_of_nil in H].
  - apply H. repeat constructor.
Defined.

(** ** Comparison with the goal *)










(** The comparisons of the specification's examples. *)
Example flags_at_the_goal :
  cal_ok (Float64.of_Z 1700) (Float64.of_Z 1700) = Flag_ok /\
  cal_ok (Float64.decimal 17001 1) (Float64.of_Z 1700) = Flag_exceeded /\
  prot_ok (Float64.of_Z 80) (Float64.of_Z 80) = Flag_ok /\
  prot_ok (Float64.decimal 799 1) (Float64.of_Z 80) = Flag_low.
Proof. repeat split; reflexivity. Qed.

(** A NaN on either side fails both comparisons. *)
Example flags_on_nan :
  cal_ok (Float64.of_Z 0) Float64.nan = Flag_exceeded /\
  Float64.ltb Float64.nan (Float64.of_Z 0) = false.
Proof. split; reflexivity. Qed.

(** ** Rounding and the meal row *)

Lemma round_half_even_nearest n d :
  (0 < d)%Z -> (Z.abs (2 * n - 2 * Float64.round_half_even n d * d) <= d)%Z.
Proof.
  intros Hd. unfold Float64.round_half_even.
  pose proof (Z.div_mod n d ltac:(lia)) as E.
  pose proof (Z.mod_pos_bound n d Hd) as B.
  destruct (Z.compare_spec (2 * (n mod d)) d) as [H | H | H]; [destruct (Z.even (n / d)) | |]; nia.
Qed.

(** On a tie [round_half_even] gives the even integer. *)
Lemma round_half_even_tie n d :
  (0 < d)%Z ->
  Z.abs (2 * n - 2 * Float64.round_half_even n d * d) = d ->
  Z.even (Float64.round_half_even n d) = true.
Proof.
  intros Hd. unfold Float64.round_half_even.
  pose proof (Z.div_mod n d ltac:(lia)) as E.
  pose proof (Z.mod_pos_bound n d Hd) as B.
  destruct (Z.compare_spec (2 * (n mod d)) d) as [H | H | H]; [| nia | nia].
  intros _. destruct (Z.even (n / d)) eqn:Ev; [exact Ev |].
  rewrite Z.even_add, Ev. reflexivity.
Qed.

(** [tenths m e] is the integer nearest to ten times [m * 2^e], ties to
    even. *)
Lemma tenths_nearest m e : nearest_tenth m e (Float64.tenths m e).
Proof.
  destruct e as [| p | p]; simpl; try reflexivity.
  assert (Hd : (0 < 2 ^ Zpos p)%Z) by (apply Z.pow_pos_nonneg; lia).
  split.
  - now apply round_half_even_nearest.
  - now apply round_half_even_tie.
Qed.

(** [round(x, 1)] rounds to one decimal place. *)
Lemma round1_rounds x : rounded_to_tenths x (Float64.round1 x).
Proof.
  destruct x as [s | s | | s m e]; try reflexivity.
  exists (Float64.tenths m e). split; [apply tenths_nearest |].
  unfold Float64.round1. destruct (Float64.tenths m e); try reflexivity.
  now destruct s.
Qed.

(** Sample values of [round(x, 1)]: 100.44 gives 100.4, the ties 0.25 and
    10.25 go to the even tenth, 0.35 (which lies below the tie as a float)
    gives 0.3, and -0.04 gives -0.0. *)
Example round1_samples :
  Float64.round1 (Float64.decimal 10044 2) = Float64.decimal 1004 1 /\
  Float64.round1 (Float64.decimal 25 2) = Float64.decimal 2 1 /\
  Float64.round1 (Float64.decimal 1025 2) = Float64.decimal 102 1 /\
  Float64.round1 (Float64.decimal 35 2) = Float64.decimal 3 1 /\
  Float64.round1 (Float64.decimal (-4) 2) = S754_zero true /\
  Float64.round1 (Float64.of_Z 200) = Float64.of_Z 200.
Proof. repeat split; vm_compute; reflexivity. Qed.

Lemma sole_date : sole MEALS_HEADER 0 "date".
Proof. solve_sole. Qed.
Lemma sole_grams : sole MEALS_HEADER 3 "grams".
Proof. solve_sole. Qed.
Lemma sole_protein_g : sole MEALS_HEADER 4 "protein_g".
Proof. solve_sole. Qed.
Lemma sole_carbs_g : sole MEALS_HEADER 5 "carbs_g".
Proof. solve_sole. Qed.
Lemma sole_fat_g : sole MEALS_HEADER 6 "fat_g".
Proof. solve_sole. Qed.
Lemma sole_calories : sole MEALS_HEADER 7 "calories".
Proof. solve_sole. Qed.
Lemma sole_daily_calorie_goal : sole MEALS_HEADER 8 "daily_calorie_goal".
Proof. solve_sole. Qed.
Lemma sole_daily_protein_goal : sole MEALS_HEADER 9 "daily_protein_goal".
Proof. solve_sole. Qed.

(** The record read back from the row of a meal. *)
Lemma meal_row_record n inp :
  11 <= n ->
  let r := record_at MEALS_HEADER n (meal_row inp) in
  r !! "grams" = Some (CFloat (Float64.round1 (qty inp))) /\
  r !! "protein_g" = Some (CFloat (Float64.round1 (protein inp))) /\
  r !! "carbs_g" = Some (CFloat (Float64.round1 (carbs inp))) /\
  r !! "fat_g" = Some (CFloat (Float64.round1 (fat inp))) /\
  r !! "calories" = Some (CFloat (Float64.round1 (calories inp))) /\
  r !! "daily_calorie_goal" = Some (CInt (calorie_goal_input inp)) /\
  r !! "daily_protein_goal" = Some (CInt (protein_goal_input inp)).
Proof.
  intros Hn r. subst r. repeat split.
  - now rewrite (record_at_lookup _ _ 3) by (first [exact sole_grams | discriminate | exact Hn]).
  - now rewrite (record_at_lookup _ _ 4) by (first [exact sole_protein_g | discriminate | exact Hn]).
  - now rewrite (record_at_lookup _ _ 5) by (first [exact sole_carbs_g | discriminate | exact Hn]).
  - now rewrite (record_at_lookup _ _ 6) by (first [exact sole_fat_g | discriminate | exact Hn]).
  - now rewrite (record_at_lookup _ _ 7) by (first [exact sole_calories | discriminate | exact Hn]).
  - now rewrite (record_at_lookup _ _ 8)
      by (first [exact sole_daily_calorie_goal | discriminate | exact Hn]).
  - now rewrite (record_at_lookup _ _ 9)
      by (first [exact sole_daily_protein_goal | discriminate | exact Hn]).
Qed.

(** C8. For every meal submission that is written, the row appended to the
    meal table reads back as a record whose [grams], [protein_g], [carbs_g],
    [fat_g] and [calories] are the quantity, protein, carbs, fat and
    calories of the form rounded to one decimal place: each is the float
    nearest to [t / 10], where [t] is the integer nearest to ten times the
    value of the form, the even one on a tie. *)
Theorem meal_row_rounds_to_one_decimal ws inp (body : grid) w :
  answers w ->
  sheets w !! ws = Some (header_row MEALS_HEADER :: body) ->
  add_btn inp = true -> food_item inp <> "" ->
  let g := header_row MEALS_HEADER :: body in
  let res := add_food_handler ws inp w in
  sheets res.2 = <[ws := g ++ [meal_row inp]]> (sheets w) /\
  exists r, records_of (g ++ [meal_row inp]) = records_of g ++ [r] /\
    (exists y, r !! "grams" = Some (CFloat y) /\ rounded_to_tenths (qty inp) y) /\
    (exists y, r !! "protein_g" = Some (CFloat y) /\ rounded_to_tenths (protein inp) y) /\
    (exists y, r !! "carbs_g" = Some (CFloat y) /\ rounded_to_tenths (carbs inp) y) /\
    (exists y, r !! "fat_g" = Some (CFloat y) /\ rounded_to_tenths (fat inp) y) /\
    (exists y, r !! "calories" = Some (CFloat y) /\ rounded_to_tenths (calories inp) y).
Proof.
  intros R Hs B F g res. subst res.
  rewrite (add_food_saved _ _ _ _ R Hs B F). split; [reflexivity |].
  eexists. split; [apply records_append; reflexivity |].
  pose proof (meal_row_record (width g) inp (width_header MEALS_HEADER body))
    as (H1 & H2 & H3 & H4 & H5 & _).
  repeat split; eexists; (split; [eassumption | apply round1_rounds]).
Qed.

Lemma meal_row_rounds_to_one_decimal_witness :
  sheets (add_food_handler MEALS_SHEET rounding_inputs started).2 !! MEALS_SHEET =
    Some [header_row MEALS_HEADER;
          [CStr "2024-03-07"; CStr "08:05:00"; CStr "Cooked rice";
           CFloat (Float64.decimal 3 1); CFloat (Float64.decimal 102 1);
           CFloat (Float64.decimal 3 1); CFloat (Float64.decimal 27 1);
           CFloat (Float64.of_Z 100); CInt 1700; CInt 80; CStr ""]].
Proof.
  destruct (meal_row_rounds_to_one_decimal MEALS_SHEET rounding_inputs [] started) as [H _];
    [reflexivity | reflexivity | reflexivity | discriminate |].
  rewrite H. vm_compute. reflexivity.
Defined.

(** C10. The add-food action never reads the goal table.  Whatever the
    store does, the only remote call it can issue is the [append_row] of the
    meal row to the meal table.  On a store that answers, whatever grid [gg]
    the goal table holds, the submission leaves that table as it is and the
    record appended to the meal table carries in [daily_calorie_goal] and
    [daily_protein_goal] the values of the two goal widgets.  So the
    snapshot may differ from the stored goal: a goal table holding for the
    month of the entry a goal other than the widget values changes nothing
    in what is written. *)
Theorem add_food_snapshots_the_widgets inp w :
  trace (add_food_handler MEALS_SHEET inp w).2 =
    trace w ++ (if add_btn inp && truthy (food_item inp)
                then [Call_append_row MEALS_SHEET (meal_row inp)] else []) /\
  (forall (body gg : grid),
     answers w ->
     sheets w !! MEALS_SHEET = Some (header_row MEALS_HEADER :: body) ->
     add_btn inp = true -> food_item inp <> "" ->
     let g := header_row MEALS_HEADER :: body in
     let res := add_food_handler MEALS_SHEET inp (with_goals gg w) in
     sheets res.2 !! GOALS_SHEET = Some gg /\
     sheets res.2 !! MEALS_SHEET = Some (g ++ [meal_row inp]) /\
     exists r, records_of (g ++ [meal_row inp]) = records_of g ++ [r] /\
       r !! "daily_calorie_goal" = Some (CInt (calorie_goal_input inp)) /\
       r !! "daily_protein_goal" = Some (CInt (protein_goal_input inp))) /\
  (let month := strftime_Ym (entry_date inp) in
   let gg := [header_row GOALS_HEADER;
              new_goal_row month (calorie_goal_input inp + 50) (protein_goal_input inp + 5) ""] in
   exists stored,
     goal_for (records_of gg) month = Some stored /\
     stored !! "calorie_goal" = Some (CInt (calorie_goal_input inp + 50)) /\
     stored !! "calorie_goal" <> Some (CInt (calorie_goal_input inp)) /\
     stored !! "protein_goal" <> Some (CInt (protein_goal_input inp))).
Proof.
  split; [apply add_food_handler_trace |]. split.
  - intros body gg R Hs B F g res. subst res.
    assert (Hs' : sheets (with_goals gg w) !! MEALS_SHEET = Some g).
    { unfold with_goals. simpl. now rewrite lookup_insert_ne by discriminate. }
    rewrite (add_food_saved MEALS_SHEET inp g (with_goals gg w) R Hs' B F).
    cbn [snd sheets with_ui with_sheets called with_trace with_goals].
    split; [rewrite lookup_insert_ne by discriminate; apply lookup_insert_eq |].
    split; [apply lookup_insert_eq |].
    eexists. split; [apply records_append; reflexivity |].
    pose proof (meal_row_record (width g) inp (width_header MEALS_HEADER body))
      as (_ & _ & _ & _ & _ & H6 & H7).
    split; assumption.
  - intros month gg.
    pose proof (new_goal_row_record 4 month (calorie_goal_input inp + 50)
                  (protein_goal_input inp + 5) "" ltac:(lia)) as (H1 & H2 & H3 & _).
    eexists. split; [| split; [exact H2 | split]].
    + unfold gg. rewrite records_of_header.
      match goal with |- context [width ?x] => change (width x) with 4 end.
      rewrite list_fmap_singleton. unfold goal_for. cbn [List.find].
      apply matches_month_year in H1. now rewrite H1.
    + rewrite H2. intros [= H]. lia.
    + rewrite H3. intros [= H]. lia.
Qed.

Lemma add_food_snapshots_the_widgets_witness :
  sheets (add_food_handler MEALS_SHEET sample_inputs (with_goals two_goals started)).2
    !! GOALS_SHEET = Some two_goals /\
  sheets (add_food_handler MEALS_SHEET sample_inputs (with_goals two_goals started)).2
    !! MEALS_SHEET = Some [header_row MEALS_HEADER; meal_row sample_inputs].
Proof.
  destruct (add_food_snapshots_the_widgets sample_inputs started) as (_ & H & _).
  destruct (H [] two_goals) as (H1 & H2 & _);
    [reflexivity | reflexivity | reflexivity | discriminate |].
  split; [exact H1 | exact H2].
Defined.

(** ** The daily summary on the meal table *)

Lemma record_at_missing header n k r :
  k ∉ header -> k <> "" -> record_at header n r !! k = None.
Proof.
  intros Hk Hne. unfold record_at, to_record.
  rewrite bindings_lookup_notin; [apply lookup_empty |].
  intros H. apply zip_fst_subseteq in H. apply elem_of_app in H as [H | H]; [now apply Hk |].
  apply elem_of_replicate_inv in H. congruence.
Qed.

Lemma column_present (recs : list record) (r : record) k v :
  r ∈ recs -> r !! k = Some v -> k ∈ columns (DataFrame_of recs).
Proof.
  intros Hin Hk. unfold DataFrame_of. simpl. apply elem_of_union_list.
  exists (dom r). split; [now apply list_elem_of_fmap_2 |].
  apply elem_of_dom. now exists v.
Qed.

Lemma column_absent (recs : list record) k :
  (forall r, r ∈ recs -> r !! k = None) -> k ∉ columns (DataFrame_of recs).
Proof.
  intros Hall H. unfold DataFrame_of in H. simpl in H.
  apply elem_of_union_list in H as (X & HX & Hk).
  apply list_elem_of_fmap in HX as (r & -> & Hr).
  apply elem_of_dom in Hk as [v Hv]. rewrite (Hall r Hr) in Hv. discriminate.
Qed.

(** Selecting with a mask computed row by row is filtering. *)
Lemma select_rows df (p : record -> bool) :
  rows (select df (p <$> rows df)) = filter (fun r => p r = true) (rows df).
Proof.
  unfold select. cbn [rows]. induction (rows df) as [| r rs IH]; [reflexivity |].
  rewrite fmap_cons.
  change (zip (r :: rs) (p r :: (p <$> rs))) with ((r, p r) :: zip rs (p <$> rs)).
  rewrite !filter_cons. cbn [snd].
  destruct (decide (p r = true)); [rewrite fmap_cons; cbn [fst] |]; now rewrite IH.
Qed.

Lemma df_empty_false df k (r : record) :
  k ∈ columns df -> r ∈ rows df -> df_empty df = false.
Proof.
  intros Hk Hr. unfold df_empty. apply orb_false_iff. split.
  - apply bool_decide_eq_false. intros E. rewrite E in Hk. now apply not_elem_of_empty in Hk.
  - destruct (rows df); [now apply elem_of_nil in Hr | reflexivity].
Qed.

Lemma getitem_missing df k : k ∉ columns df -> getitem df k = inl (KeyError k).
Proof. intros H. unfold getitem. now rewrite bool_decide_eq_false_2. Qed.

Lemma getitem_present df k :
  k ∈ columns df ->
  getitem df k = inr ((fun r : record => default (CFloat Float64.nan) (r !! k)) <$> rows df).
Proof. intros H. unfold getitem. now rewrite bool_decide_eq_true_2. Qed.

(** C1 (defect). On every meal table with the header that the program
    declares, the daily summary of a date for which the table holds at least
    one row does not compute the sums: it looks up the column
    "calories_kcal", which that header does not have, and raises [KeyError]
    before anything is summed or rendered. *)
Theorem daily_summary_key_error ms gs d (body : grid) w :
  answers w ->
  sheets w !! ms = Some (header_row MEALS_HEADER :: body) ->
  (exists r, r ∈ body /\ r !! 0 = Some (CStr (strftime_Ymd d))) ->
  daily_summary ms gs d w =
    (inl (KeyError "calories_kcal"), called (Call_get_all_records ms) w).
Proof.
  intros R Hs (r0 & Hin & Hdate).
  set (g := header_row MEALS_HEADER :: body).
  set (n := width g).
  set (recs := records_of g).
  set (day_str := strftime_Ymd d).
  assert (Hrecs : recs = record_at MEALS_HEADER n <$> body) by apply records_of_header.
  assert (Hn : length MEALS_HEADER <= n) by apply width_header.
  assert (Hdate0 : record_at MEALS_HEADER n r0 !! "date" = Some (CStr day_str)).
  { rewrite (record_at_lookup _ _ 0) by (first [exact sole_date | discriminate | exact Hn]).
    now rewrite Hdate. }
  assert (Hin0 : record_at MEALS_HEADER n r0 ∈ recs).
  { rewrite Hrecs. now apply list_elem_of_fmap_2. }
  assert (Hcol : "date" ∈ columns (DataFrame_of recs)).
  { eapply column_present; [exact Hin0 | exact Hdate0]. }
  assert (Hkcal : "calories_kcal" ∉ columns (DataFrame_of recs)).
  { apply column_absent. intros r Hr. rewrite Hrecs in Hr.
    apply list_elem_of_fmap in Hr as (line & -> & _).
    apply record_at_missing; [| discriminate].
    intros H. repeat (apply elem_of_cons in H as [H | H]; [discriminate |]).
    now apply elem_of_nil in H. }
  unfold daily_summary.
  erewrite bind_inr.
  2:{ apply try_except_inr. erewrite bind_inr; [reflexivity |].
      apply get_all_records_ok; [exact R | exact Hs]. }
  fold g. fold recs.
  rewrite (df_empty_false (DataFrame_of recs) "date" _ Hcol Hin0).
  cbv zeta. fold day_str.
  unfold lift at 1. unfold bind at 1.
  rewrite (getitem_present _ _ Hcol).
  rewrite <- list_fmap_compose.
  set (p := ((fun v => eq_str (Some v) day_str) ∘
             (fun r : record => default (CFloat Float64.nan) (r !! "date")))).
  set (df_day := select (DataFrame_of recs) (p <$> rows (DataFrame_of recs))).
  assert (Hday : df_empty df_day = false).
  { apply (df_empty_false df_day "date" (record_at MEALS_HEADER n r0)); [exact Hcol |].
    unfold df_day. rewrite select_rows. apply list_elem_of_filter. split; [| exact Hin0].
    unfold p. simpl. rewrite Hdate0. simpl. apply String.eqb_refl. }
  rewrite Hday.
  unfold column_sum at 1. unfold bind at 1. unfold bind at 1. unfold lift at 1.
  rewrite (getitem_missing df_day "calories_kcal" Hkcal). reflexivity.
Qed.

Lemma daily_summary_key_error_witness :
  daily_summary MEALS_SHEET GOALS_SHEET sample_day (with_meals two_meals started) =
    (inl (KeyError "calories_kcal"),
     called (Call_get_all_records MEALS_SHEET) (with_meals two_meals started)).
Proof.
  apply (daily_summary_key_error MEALS_SHEET GOALS_SHEET sample_day (tail two_meals)
           (with_meals two_meals started)).
  - reflexivity.
  - reflexivity.
  - eexists. split; [left | reflexivity].
Defined.

(** The sums that the summary is meant to show for the two sample meals:
    100.4 + 50.0 is 150.4 and 10.25 + 5.0 is 15.25 in binary64. *)
Example sums_of_two_meals :
  nansum [Float64.decimal 1004 1; Float64.of_Z 50] = Float64.decimal 1504 1 /\
  nansum [Float64.decimal 1025 2; Float64.of_Z 5] = Float64.decimal 1525 2.
Proof. split; vm_compute; reflexivity. Qed.

(** On a table that has the columns the summary reads, the same code sums
    the rows of the day and compares them with the goal of the month. *)
Example daily_summary_on_kcal_header :
  let r := daily_summary MEALS_SHEET GOALS_SHEET sample_day
             (with_goals two_goals (with_meals two_meals_kcal started)) in
  r.1 = inr tt /\
  firstn 7 (ui r.2) =
    [Write_date "2024-03-07";
     Metric_calories (Float64.decimal 1504 1);
     Metric_protein (Float64.decimal 1525 2);
     Metric_carbs (Float64.of_Z 31);
     Write_fat_fiber (Float64.of_Z 9) (Float64.of_Z 2);
     Write_goal "2024-03" (Float64.of_Z 1600) (Float64.of_Z 70);
     Write_flags Flag_ok Flag_low].
Proof. vm_compute. split; reflexivity. Qed.

(** ** A first run of the script *)

(** On a spreadsheet without worksheets the script creates the three tables,
    stores the goal and the meal of the form, and then stops in the daily
    summary of the day of that meal. *)
Example script_first_run :
  let r := script sample_inputs fresh in
  r.1 = inl (KeyError "calories_kcal") /\
  sheets r.2 !! GOALS_SHEET =
    Some [header_row GOALS_HEADER; new_goal_row "2024-03" 1700 80 (sample_clock 0)] /\
  sheets r.2 !! MEALS_SHEET = Some [header_row MEALS_HEADER; meal_row sample_inputs] /\
  sheets r.2 !! NOTES_SHEET = Some [header_row NOTES_HEADER] /\
  ui r.2 = [Info_worksheet_created MEALS_SHEET; Info_worksheet_created GOALS_SHEET;
            Info_worksheet_created NOTES_SHEET;
            Success_goal "created" "2024-03" 1700 80;
            Success_saved "Cooked rice" (CStr "Cooked rice") (CStr "08:05:00")].
Proof. vm_compute. repeat split; reflexivity. Qed.

(** * Further properties of the script *)

(** ** Relations kept by the monad *)

Section Keeps.

Context {A B : Type}.
Variable R : World -> World -> Prop.
Hypothesis R_refl : forall w, R w w.
Hypothesis R_trans : forall a b c, R a b -> R b c -> R a c.

Lemma keeps_ret (a : A) : keeps R (ret a).
Proof. intros w. apply R_refl. Qed.

Lemma keeps_raise (e : exn) : keeps R (@raise A e).
Proof. intros w. apply R_refl. Qed.

Lemma keeps_lift (r : exn + A) : keeps R (lift r).
Proof. intros w. apply R_refl. Qed.

Lemma keeps_gets (f : World -> A) : keeps R (gets f).
Proof. intros w. apply R_refl. Qed.

Lemma keeps_bind (m : M A) (k : A -> M B) :
  keeps R m -> (forall a, keeps R (k a)) -> keeps R (bind m k).
Proof.
  intros Hm Hk w. unfold bind. specialize (Hm w).
  destruct (m w) as [[e | a] w']; simpl in *; [exact Hm |].
  eapply R_trans; [exact Hm | apply Hk].
Qed.

Lemma keeps_try_except (m : M A) (h : exn -> M A) :
  keeps R m -> (forall e, keeps R (h e)) -> keeps R (try_except m h).
Proof.
  intros Hm Hh w. unfold try_except. specialize (Hm w).
  destruct (m w) as [[e | a] w']; simpl in *; [| exact Hm].
  eapply R_trans; [exact Hm | apply Hh].
Qed.

End Keeps.

(** One step of a run: the world after [m], then the world after [k]. *)
Lemma bind_rel {A B} (R1 R2 R3 : World -> World -> Prop) (m : M A) (k : A -> M B) w :
  (forall a b, R1 a b -> R3 a b) ->
  (forall a b c, R1 a b -> R2 b c -> R3 a c) ->
  R1 w (m w).2 ->
  (forall a, (m w).1 = inr a -> R2 (m w).2 (k a (m w).2).2) ->
  R3 w (bind m k w).2.
Proof.
  intros H13 H123 Hm Hk. unfold bind.
  destruct (m w) as [[e | a] w']; simpl in *; [now apply H13 |].
  eapply H123; [exact Hm | now apply Hk].
Qed.

(** ** The operations on any store *)

Lemma worksheet_cases name w :
  worksheet name w = (inl APIError, called (Call_worksheet name) w) \/
  (exists g, sheets w !! name = Some g /\
     worksheet name w = (inr name, called (Call_worksheet name) w)) \/
  (sheets w !! name = None /\
     worksheet name w = (inl (WorksheetNotFound name), called (Call_worksheet name) w)).
Proof.
  destruct (outage w (length (trace w))) eqn:O.
  - left. unfold worksheet. now rewrite (bind_inl _ _ _ _ _ (remote_out _ _ O)).
  - right. destruct (sheets w !! name) as [g |] eqn:Hs.
    + left. exists g. split; [reflexivity |]. now apply worksheet_found with g.
    + right. split; [reflexivity |]. now apply worksheet_missing.
Qed.

Lemma add_worksheet_cases name w :
  add_worksheet name w = (inl APIError, called (Call_add_worksheet name) w) \/
  (sheets w !! name = None /\
   add_worksheet name w =
     (inr name, with_sheets (<[name := []]> (sheets w)) (called (Call_add_worksheet name) w))).
Proof.
  destruct (outage w (length (trace w))) eqn:O.
  - left. unfold add_worksheet. now rewrite (bind_inl _ _ _ _ _ (remote_out _ _ O)).
  - destruct (sheets w !! name) as [g |] eqn:Hs.
    + left. unfold add_worksheet. remote_step O. now rewrite Hs.
    + right. split; [reflexivity |]. now apply add_worksheet_ok.
Qed.

Ltac keeps_steps refl trans base :=
  repeat first
    [ apply keeps_ret; exact refl
    | apply keeps_raise; exact refl
    | apply keeps_lift; exact refl
    | apply keeps_gets; exact refl
    | base
    | apply keeps_bind; [exact trans | | intros ?]
    | apply keeps_try_except; [exact trans | | intros ?]
    | match goal with
      | |- keeps _ (if ?b then _ else _) => destruct b
      | |- keeps _ (match ?x with _ => _ end) => destruct x
      end ].

(** ** What reading keeps *)

Section Reads.

Variable R : World -> World -> Prop.
Hypothesis R_refl : forall w, R w w.
Hypothesis R_trans : forall a b c, R a b -> R b c -> R a c.
Hypothesis R_read : forall c w, is_write c = false -> R w (called c w).
Hypothesis R_ui : forall u w, R w (with_ui u w).

Lemma reads_remote c : is_write c = false -> keeps R (remote c).
Proof.
  intros Hc w. unfold remote. destruct (outage w (length (trace w))); now apply R_read.
Qed.

Lemma reads_st n : keeps R (st n).
Proof. intros w. apply R_ui. Qed.

Lemma reads_worksheet name : keeps R (worksheet name).
Proof.
  unfold worksheet.
  keeps_steps R_refl R_trans ltac:(first [apply reads_remote; reflexivity | apply reads_st]).
Qed.

Lemma reads_get_all_records ws : keeps R (get_all_records ws).
Proof.
  unfold get_all_records.
  keeps_steps R_refl R_trans ltac:(first [apply reads_remote; reflexivity | apply reads_st]).
Qed.

Lemma reads_daily_summary ms gs d : keeps R (daily_summary ms gs d).
Proof.
  unfold daily_summary, column_sum, goal_check. cbv zeta.
  keeps_steps R_refl R_trans ltac:(first [apply reads_get_all_records | apply reads_st]).
Qed.

(** Ensuring a worksheet that exists. *)
Lemma reads_ensure_existing name header g w :
  sheets w !! name = Some g ->
  R w (ensure_worksheet name header w).2 /\
  ((ensure_worksheet name header w).1 = inr name \/
   (ensure_worksheet name header w).1 = inl APIError).
Proof.
  intros Hs. unfold ensure_worksheet.
  destruct (worksheet_cases name w) as [E | [(g' & _ & E) | (Hn & _)]];
    [| | congruence].
  - erewrite bind_inl; [| erewrite try_except_inl; [| exact E]; reflexivity].
    simpl. split; [apply R_read; reflexivity | now right].
  - erewrite bind_inr; [| erewrite try_except_inr; [reflexivity | exact E]].
    split.
    + eapply R_trans; [apply (R_read (Call_worksheet name) w); reflexivity |].
      apply reads_worksheet.
    + destruct (worksheet_cases name (called (Call_worksheet name) w))
        as [E' | [(g'' & _ & E') | (Hn & _)]]; rewrite ?E'; simpl; auto.
      simpl in Hn. congruence.
Qed.

End Reads.

Lemma keeps_bind_when {A B} (R : World -> World -> Prop) (P : A -> Prop)
    (m : M A) (k : A -> M B) :
  (forall a b c, R a b -> R b c -> R a c) ->
  keeps R m ->
  (forall w a, (m w).1 = inr a -> P a) ->
  (forall a, P a -> keeps R (k a)) ->
  keeps R (bind m k).
Proof.
  intros R_trans Hm HP Hk w. unfold bind. specialize (Hm w). specialize (HP w).
  destruct (m w) as [[e | a] w']; simpl in *; [exact Hm |].
  eapply R_trans; [exact Hm | apply Hk; now apply HP].
Qed.

(** The handle returned for a worksheet is its title. *)
Lemma add_worksheet_result name w a : (add_worksheet name w).1 = inr a -> a = name.
Proof.
  destruct (add_worksheet_cases name w) as [E | [_ E]]; rewrite E; simpl; congruence.
Qed.

Lemma worksheet_result name w a : (worksheet name w).1 = inr a -> a = name.
Proof.
  destruct (worksheet_cases name w) as [E | [(g & _ & E) | [_ E]]]; rewrite E; simpl; congruence.
Qed.

Lemma ensure_worksheet_result name header w a :
  (ensure_worksheet name header w).1 = inr a -> a = name.
Proof.
  unfold ensure_worksheet, bind.
  destruct (try_except _ _ w) as [[e | x] w']; simpl; [discriminate |].
  apply worksheet_result.
Qed.

(** ** What writing to one worksheet keeps *)

Section Writes.

Variable R : World -> World -> Prop.
Variable ws : string.
Hypothesis R_refl : forall w, R w w.
Hypothesis R_trans : forall a b c, R a b -> R b c -> R a c.
Hypothesis R_called : forall c w, R w (called c w).
Hypothesis R_ui : forall u w, R w (with_ui u w).
Hypothesis R_ticks : forall n w, R w (with_ticks n w).
Hypothesis R_set : forall g w, R w (with_sheets (<[ws := g]> (sheets w)) w).

Lemma writes_remote c : keeps R (remote c).
Proof.
  intros w. unfold remote. destruct (outage w (length (trace w))); apply R_called.
Qed.

Lemma writes_st n : keeps R (st n).
Proof. intros w. apply R_ui. Qed.

Lemma writes_now : keeps R now.
Proof. intros w. apply R_ticks. Qed.

Lemma writes_set_sheet g : keeps R (set_sheet ws g).
Proof. intros w. apply R_set. Qed.

Ltac writes_base :=
  first [apply writes_remote | apply writes_st | apply writes_now | apply writes_set_sheet].

Lemma writes_worksheet name : keeps R (worksheet name).
Proof. unfold worksheet. keeps_steps R_refl R_trans writes_base. Qed.

Lemma writes_add_worksheet : keeps R (add_worksheet ws).
Proof. unfold add_worksheet. keeps_steps R_refl R_trans writes_base. Qed.

Lemma writes_append_row r : keeps R (append_row ws r).
Proof. unfold append_row. keeps_steps R_refl R_trans writes_base. Qed.

Lemma writes_update at_ v : keeps R (update ws at_ v).
Proof. unfold update. keeps_steps R_refl R_trans writes_base. Qed.

Lemma writes_get_all_records name : keeps R (get_all_records name).
Proof. unfold get_all_records. keeps_steps R_refl R_trans writes_base. Qed.

Lemma writes_ensure_worksheet header : keeps R (ensure_worksheet ws header).
Proof.
  unfold ensure_worksheet.
  apply keeps_bind; [exact R_trans | | intros _; apply writes_worksheet].
  apply keeps_try_except; [exact R_trans | apply writes_worksheet |].
  intros [name | | | | |]; try (apply keeps_raise; exact R_refl).
  apply (keeps_bind_when R (fun a => a = ws)); [exact R_trans | apply writes_add_worksheet | |].
  - intros w a. apply add_worksheet_result.
  - intros a ->. keeps_steps R_refl R_trans ltac:(first [apply writes_append_row | apply writes_st]).
Qed.

Lemma writes_upsert_scan label cal prot records : forall i,
  keeps R (upsert_scan ws label cal prot i records).
Proof.
  induction records as [| r rest IH]; intros i; simpl.
  - keeps_steps R_refl R_trans ltac:(first [apply writes_now | apply writes_append_row]).
  - destruct (matches label r); [| apply IH].
    keeps_steps R_refl R_trans ltac:(first [apply writes_now | apply writes_update]).
Qed.

Lemma writes_upsert_goal label cal prot : keeps R (upsert_goal ws label cal prot).
Proof.
  unfold upsert_goal. apply keeps_bind; [exact R_trans | apply writes_get_all_records |].
  intros records. apply writes_upsert_scan.
Qed.

Lemma writes_set_goal_handler inp : keeps R (set_goal_handler ws inp).
Proof.
  unfold set_goal_handler.
  keeps_steps R_refl R_trans ltac:(first [apply writes_upsert_goal | apply writes_st]).
Qed.

Lemma writes_add_food_handler inp : keeps R (add_food_handler ws inp).
Proof.
  unfold add_food_handler, append_meal_row. cbv zeta.
  keeps_steps R_refl R_trans ltac:(first [apply writes_append_row | apply writes_st]).
Qed.

Lemma writes_save_note_handler inp : keeps R (save_note_handler ws inp).
Proof.
  unfold save_note_handler.
  keeps_steps R_refl R_trans
    ltac:(first [apply writes_append_row | apply writes_st | apply writes_now]).
Qed.

End Writes.

(** ** The relations are kept *)

Lemma same_but_trans ws a b c : same_but ws a b -> same_but ws b c -> same_but ws a c.
Proof. intros H1 H2 name Hn. now rewrite (H2 name Hn), (H1 name Hn). Qed.

Lemma same_but_set ws g w : same_but ws w (with_sheets (<[ws := g]> (sheets w)) w).
Proof. intros name Hn. simpl. now apply lookup_insert_ne. Qed.

Lemma same_but_at ws name w w' : name <> ws -> same_but ws w w' -> same_at name w w'.
Proof. intros Hn H. now apply H. Qed.

Lemma same_at_refl ws w : same_at ws w w.
Proof. reflexivity. Qed.

Lemma same_at_trans ws a b c : same_at ws a b -> same_at ws b c -> same_at ws a c.
Proof. unfold same_at. congruence. Qed.

Lemma same_sheets_trans a b c : same_sheets a b -> same_sheets b c -> same_sheets a c.
Proof. unfold same_sheets. congruence. Qed.

Lemma issues_refl P w : issues P w w.
Proof. exists []. split; [now rewrite app_nil_r | constructor]. Qed.

Lemma issues_trans P a b c : issues P a b -> issues P b c -> issues P a c.
Proof.
  intros (l1 & E1 & F1) (l2 & E2 & F2). exists (l1 ++ l2). split.
  - now rewrite E2, E1, app_assoc.
  - now apply Forall_app.
Qed.

Lemma issues_called (P : call -> Prop) c w : P c -> issues P w (called c w).
Proof. intros Hc. exists [c]. split; [reflexivity | now repeat constructor]. Qed.

Lemma read_only_refl w : read_only w w.
Proof. split; [reflexivity | apply issues_refl]. Qed.

Lemma read_only_trans a b c : read_only a b -> read_only b c -> read_only a c.
Proof.
  intros [S1 I1] [S2 I2]. split; [eapply same_sheets_trans | eapply issues_trans]; eassumption.
Qed.

Lemma read_only_called c w : is_write c = false -> read_only w (called c w).
Proof. intros Hc. split; [reflexivity | now apply issues_called]. Qed.

Lemma read_only_ui u w : read_only w (with_ui u w).
Proof.
  split; [reflexivity |]. exists []. split; [simpl; now rewrite app_nil_r | constructor].
Qed.

(** X1. A goal edit touches the goal table only: whatever the store does
    and whichever branch the upsert takes, every worksheet other than the
    one handed to the goal handler is the same after it, so the goal
    snapshots stored in the meal rows are never rewritten. *)
Theorem goal_edit_leaves_other_tables goals_ws inp w name :
  name <> goals_ws ->
  sheets (set_goal_handler goals_ws inp w).2 !! name = sheets w !! name.
Proof.
  intros Hn.
  apply (writes_set_goal_handler (same_but goals_ws) goals_ws); try (intros; intros ? ?; reflexivity).
  - apply same_but_trans.
  - intros g w0. apply same_but_set.
  - exact Hn.
Qed.

Lemma goal_edit_leaves_other_tables_witness :
  sheets (set_goal_handler GOALS_SHEET sample_inputs (with_meals two_meals started)).2
    !! MEALS_SHEET = Some two_meals.
Proof.
  rewrite (goal_edit_leaves_other_tables GOALS_SHEET sample_inputs
             (with_meals two_meals started) MEALS_SHEET); [reflexivity | discriminate].
Defined.

(** ** Runs of the whole script *)

(** X2. A run in which no button is pressed never writes: when the three
    worksheets exist, whatever the store does, the worksheets are the same
    after the run and every remote call issued is a read ([worksheet] or
    [get_all_records]). *)
Theorem viewing_never_writes inp w gm gg gn :
  sheets w !! MEALS_SHEET = Some gm ->
  sheets w !! GOALS_SHEET = Some gg ->
  sheets w !! NOTES_SHEET = Some gn ->
  set_goal_btn inp = false -> add_btn inp = false -> save_note_btn inp = false ->
  read_only w (script inp w).2.
Proof.
  intros Hm Hg Hn Bg Ba Bs. unfold script.
  pose proof read_only_refl as RR. pose proof read_only_trans as RT.
  pose proof read_only_called as RC. pose proof read_only_ui as RU.
  assert (Hens : forall name header g w0, sheets w0 !! name = Some g ->
            read_only w0 (ensure_worksheet name header w0).2).
  { intros name header g w0 H0. eapply proj1.
    eapply (reads_ensure_existing read_only); eauto. }
  apply (bind_rel read_only read_only read_only); [auto | exact RT | now apply (Hens _ _ gm) |].
  intros meals_ws _.
  set (w1 := (ensure_worksheet MEALS_SHEET MEALS_HEADER w).2).
  assert (S1 : sheets w1 = sheets w) by (apply (Hens _ _ gm _ Hm)).
  apply (bind_rel read_only read_only read_only); [auto | exact RT | |].
  { apply (Hens _ _ gg). now rewrite S1. }
  intros goals_ws _.
  set (w2 := (ensure_worksheet GOALS_SHEET GOALS_HEADER w1).2).
  assert (S2 : sheets w2 = sheets w1).
  { apply (Hens _ _ gg). now rewrite S1. }
  apply (bind_rel read_only read_only read_only); [auto | exact RT | |].
  { apply (Hens _ _ gn). now rewrite S2, S1. }
  intros notes_ws _.
  unfold set_goal_handler, add_food_handler, save_note_handler. rewrite Bg, Ba, Bs.
  apply (bind_rel read_only read_only read_only); [auto | exact RT | apply RR |].
  intros _ _. cbn [ret snd].
  apply (bind_rel read_only read_only read_only); [auto | exact RT | apply RR |].
  intros _ _. cbn [ret snd].
  apply (bind_rel read_only read_only read_only); [auto | exact RT | | intros _ _; apply RR].
  apply (reads_daily_summary read_only); auto.
Qed.

Lemma viewing_never_writes_witness :
  read_only (failing_from 3 (with_meals two_meals started))
    (script idle_inputs (failing_from 3 (with_meals two_meals started))).2.
Proof.
  apply (viewing_never_writes idle_inputs (failing_from 3 (with_meals two_meals started))
           two_meals [header_row GOALS_HEADER] [header_row NOTES_HEADER]); reflexivity.
Defined.

Lemma appended_of_same ws P w w' : same_at ws w w' -> appended ws P w w'.
Proof. intros H g Hg. left. now rewrite H. Qed.

Lemma appended_after_same ws P a b c :
  same_at ws a b -> appended ws P b c -> appended ws P a c.
Proof. intros H1 H2 g Hg. apply H2. now rewrite H1. Qed.

Lemma appended_then_same ws P a b c :
  appended ws P a b -> same_at ws b c -> appended ws P a c.
Proof. intros H1 H2 g Hg. unfold same_at in H2. rewrite H2. now apply H1. Qed.

Lemma add_food_handler_appended ws inp w :
  appended ws (eq (meal_row inp)) w (add_food_handler ws inp w).2.
Proof.
  intros g Hg. unfold add_food_handler.
  destruct (add_btn inp); [| now left].
  destruct (truthy (food_item inp)); [| now left].
  cbn [negb]. cbv beta iota zeta. unfold append_meal_row.
  destruct (append_row_cases ws (meal_row inp) w) as [E | (g' & Hg' & E)].
  - erewrite try_except_inl; [| apply bind_inl; exact E]. now left.
  - erewrite try_except_inr; [| erewrite bind_inr; [reflexivity | exact E]].
    right. exists (meal_row inp). split; [reflexivity |]. simpl.
    rewrite lookup_insert_eq. congruence.
Qed.

Lemma save_note_handler_appended ws inp w :
  appended ws (fun r => exists t, r = note_row inp t) w (save_note_handler ws inp w).2.
Proof.
  intros g Hg. unfold save_note_handler.
  destruct (save_note_btn inp); [| now left].
  destruct (truthy (strip (daily_note_text inp))); [| now left].
  cbn [negb]. cbv beta iota zeta.
  set (w1 := with_ticks (S (ticks w)) w).
  set (r := note_row inp (clock w (ticks w))).
  destruct (append_row_cases ws r w1) as [E | (g' & Hg' & E)].
  - erewrite try_except_inl.
    2:{ unfold bind at 1, now at 1. fold w1. fold r. apply bind_inl. exact E. }
    now left.
  - erewrite try_except_inr.
    2:{ unfold bind at 1, now at 1. fold w1. fold r. erewrite bind_inr; [reflexivity | exact E]. }
    right. exists r. split; [now exists (clock w (ticks w)) |]. simpl.
    rewrite lookup_insert_eq. simpl in Hg'. congruence.
Qed.

Lemma ensure_existing_same name header g w ws :
  sheets w !! name = Some g -> same_at ws w (ensure_worksheet name header w).2.
Proof.
  intros H.
  exact (proj1 (reads_ensure_existing (same_at ws) (same_at_refl ws) (same_at_trans ws)
                  (fun c w0 _ => eq_refl) name header g w H)).
Qed.

Lemma ensure_other_same name header w ws :
  ws <> name -> same_at ws w (ensure_worksheet name header w).2.
Proof.
  intros Hn. apply (same_but_at name); [exact Hn |].
  apply (writes_ensure_worksheet (same_but name) name); try (intros; intros ? ?; reflexivity).
  - apply same_but_trans.
  - intros g w0. apply same_but_set.
Qed.

Lemma set_goal_handler_other_same goals_ws inp w ws :
  ws <> goals_ws -> same_at ws w (set_goal_handler goals_ws inp w).2.
Proof.
  intros Hn. apply (same_but_at goals_ws); [exact Hn |].
  apply (writes_set_goal_handler (same_but goals_ws) goals_ws);
    try (intros; intros ? ?; reflexivity).
  - apply same_but_trans.
  - intros g w0. apply same_but_set.
Qed.

Lemma add_food_handler_other_same meals_ws inp w ws :
  ws <> meals_ws -> same_at ws w (add_food_handler meals_ws inp w).2.
Proof.
  intros Hn. apply (same_but_at meals_ws); [exact Hn |].
  apply (writes_add_food_handler (same_but meals_ws) meals_ws);
    try (intros; intros ? ?; reflexivity).
  - apply same_but_trans.
  - intros g w0. apply same_but_set.
Qed.

Lemma save_note_handler_other_same notes_ws inp w ws :
  ws <> notes_ws -> same_at ws w (save_note_handler notes_ws inp w).2.
Proof.
  intros Hn. apply (same_but_at notes_ws); [exact Hn |].
  apply (writes_save_note_handler (same_but notes_ws) notes_ws);
    try (intros; intros ? ?; reflexivity).
  - apply same_but_trans.
  - intros g w0. apply same_but_set.
Qed.

Lemma daily_summary_same ms gs d w ws : same_at ws w (daily_summary ms gs d w).2.
Proof.
  exact (reads_daily_summary (same_at ws) (same_at_refl ws) (same_at_trans ws)
           (fun c w0 _ => eq_refl) (fun u w0 => eq_refl) ms gs d w).
Qed.

(** X3. The meal log and the notes are append-only.  Whatever the form
    holds and whatever the store does, one run of the script leaves every row
    that the meal table had in place and adds at most one row, the row of
    the form; likewise the notes table keeps its rows and gains at most the
    one note of the form.  No run updates or removes a meal or a note. *)
Theorem script_appends_only inp w :
  appended MEALS_SHEET (eq (meal_row inp)) w (script inp w).2 /\
  appended NOTES_SHEET (fun r => exists t, r = note_row inp t) w (script inp w).2.
Proof.
  split.
  - intros g Hg. revert g Hg. change (appended MEALS_SHEET (eq (meal_row inp)) w (script inp w).2).
    set (S := same_at MEALS_SHEET). set (Ap := appended MEALS_SHEET (eq (meal_row inp))).
    assert (SA : forall a b, S a b -> Ap a b) by (intros; now apply appended_of_same).
    assert (SSA : forall a b c, S a b -> Ap b c -> Ap a c)
      by (intros a b c; apply appended_after_same).
    assert (ASA : forall a b c, Ap a b -> S b c -> Ap a c)
      by (intros a b c; apply appended_then_same).
    assert (ST : forall a b c, S a b -> S b c -> S a c) by (intros a b c; apply same_at_trans).
    destruct (sheets w !! MEALS_SHEET) as [g0 |] eqn:H0;
      [| intros g Hg; rewrite H0 in Hg; discriminate].
    unfold script.
    apply (bind_rel S Ap Ap); [exact SA | exact SSA | now apply (ensure_existing_same _ _ g0) |].
    intros meals_ws E1. apply ensure_worksheet_result in E1 as ->.
    apply (bind_rel S Ap Ap); [exact SA | exact SSA | apply ensure_other_same; discriminate |].
    intros goals_ws E2. apply ensure_worksheet_result in E2 as ->.
    apply (bind_rel S Ap Ap); [exact SA | exact SSA | apply ensure_other_same; discriminate |].
    intros notes_ws E3. apply ensure_worksheet_result in E3 as ->.
    apply (bind_rel S Ap Ap);
      [exact SA | exact SSA | apply set_goal_handler_other_same; discriminate |].
    intros _ _.
    apply (bind_rel Ap S Ap); [auto | exact ASA | apply add_food_handler_appended |].
    intros _ _.
    apply (bind_rel S S S); [auto | exact ST | apply daily_summary_same |].
    intros _ _. apply save_note_handler_other_same; discriminate.
  - set (S := same_at NOTES_SHEET).
    set (Ap := appended NOTES_SHEET (fun r => exists t, r = note_row inp t)).
    assert (SA : forall a b, S a b -> Ap a b) by (intros; now apply appended_of_same).
    assert (SSA : forall a b c, S a b -> Ap b c -> Ap a c)
      by (intros a b c; apply appended_after_same).
    assert (ST : forall a b c, S a b -> S b c -> S a c) by (intros a b c; apply same_at_trans).
    destruct (sheets w !! NOTES_SHEET) as [g0 |] eqn:H0;
      [| intros g Hg; rewrite H0 in Hg; discriminate].
    unfold script.
    apply (bind_rel S Ap Ap); [exact SA | exact SSA | apply ensure_other_same; discriminate |].
    intros meals_ws E1. apply ensure_worksheet_result in E1 as ->.
    set (w1 := (ensure_worksheet MEALS_SHEET MEALS_HEADER w).2).
    assert (S1 : S w w1) by (apply ensure_other_same; discriminate).
    apply (bind_rel S Ap Ap); [exact SA | exact SSA | apply ensure_other_same; discriminate |].
    intros goals_ws E2. apply ensure_worksheet_result in E2 as ->.
    set (w2 := (ensure_worksheet GOALS_SHEET GOALS_HEADER w1).2).
    assert (S2 : S w1 w2) by (apply ensure_other_same; discriminate).
    apply (bind_rel S Ap Ap); [exact SA | exact SSA | |].
    { apply (ensure_existing_same _ _ g0). unfold S, same_at in S1, S2. now rewrite S2, S1. }
    intros notes_ws E3. apply ensure_worksheet_result in E3 as ->.
    apply (bind_rel S Ap Ap);
      [exact SA | exact SSA | apply set_goal_handler_other_same; discriminate |].
    intros _ _.
    apply (bind_rel S Ap Ap);
      [exact SA | exact SSA | apply add_food_handler_other_same; discriminate |].
    intros _ _.
    apply (bind_rel S Ap Ap); [exact SA | exact SSA | apply daily_summary_same |].
    intros _ _. apply save_note_handler_appended.
Qed.

Lemma script_appends_only_witness :
  sheets (script meal_and_note_inputs started).2 !! MEALS_SHEET =
    Some [header_row MEALS_HEADER] \/
  exists r, meal_row meal_and_note_inputs = r /\
    sheets (script meal_and_note_inputs started).2 !! MEALS_SHEET =
      Some ([header_row MEALS_HEADER] ++ [r]).
Proof.
  apply (proj1 (script_appends_only meal_and_note_inputs started)). reflexivity.
Defined.

(** ** Failures during initialization and writes *)

(** X4. Creating a table is not atomic.  When the worksheet is missing, the
    store answers the look-up and the creation and then raises on the write
    of the header, the exception leaves [ensure_worksheet], nothing is
    rendered, and the worksheet stays behind without any row.  A later call,
    on a store that answers, finds the worksheet and writes nothing: the
    table keeps having no header row. *)
Theorem ensure_worksheet_can_leave_no_header name header w :
  sheets w !! name = None ->
  outage w (length (trace w)) = false ->
  outage w (S (length (trace w))) = false ->
  outage w (S (S (length (trace w)))) = true ->
  let first := ensure_worksheet name header w in
  let second := ensure_worksheet name header (healed first.2) in
  first.1 = inl APIError /\
  sheets first.2 = <[name := []]> (sheets w) /\
  ui first.2 = ui w /\
  second.1 = inr name /\
  sheets second.2 = <[name := []]> (sheets w) /\
  ui second.2 = ui w.
Proof.
  intros Hs O0 O1 O2 first second.
  set (w1 := called (Call_worksheet name) w).
  set (w2 := with_sheets (<[name := []]> (sheets w)) (called (Call_add_worksheet name) w1)).
  assert (E : first = (inl APIError, called (Call_append_row name (header_row header)) w2)).
  { unfold first, ensure_worksheet. apply bind_inl.
    erewrite try_except_inl; [| apply worksheet_missing; [exact O0 | exact Hs]].
    cbv beta iota. erewrite bind_inr.
    2:{ apply add_worksheet_ok; [| exact Hs]. unfold answers. simpl.
        rewrite length_app. simpl. now rewrite Nat.add_1_r. }
    fold w1. fold w2. apply bind_inl. apply append_row_out. simpl.
    rewrite !length_app. simpl. rewrite Nat.add_1_r. simpl. now rewrite Nat.add_1_r. }
  assert (E2 : second = ensure_worksheet name header (healed first.2)) by reflexivity.
  rewrite (ensure_worksheet_existing name header [] (healed first.2)) in E2.
  - rewrite E2, E. simpl. repeat split; reflexivity.
  - intros k. reflexivity.
  - rewrite E. simpl. apply lookup_insert_eq.
Qed.

Lemma ensure_worksheet_can_leave_no_header_witness :
  let first := ensure_worksheet MEALS_SHEET MEALS_HEADER (failing_from 2 fresh) in
  let second := ensure_worksheet MEALS_SHEET MEALS_HEADER (healed first.2) in
  first.1 = inl APIError /\ sheets second.2 !! MEALS_SHEET = Some [].
Proof.
  destruct (ensure_worksheet_can_leave_no_header MEALS_SHEET MEALS_HEADER (failing_from 2 fresh))
    as (H1 & _ & _ & _ & H5 & _); try reflexivity.
  split; [exact H1 |]. rewrite H5. apply lookup_insert_eq.
Defined.

(** X5. The meal handler and the note handler contain every failure of
    their write.  Whatever the store does they return normally; and when the
    store raises on the append of a submission that passed the check, no
    worksheet is changed and the error is rendered. *)
Theorem write_handlers_contain_failures ws inp w :
  (add_food_handler ws inp w).1 = inr tt /\
  (save_note_handler ws inp w).1 = inr tt /\
  (outage w (length (trace w)) = true ->
   (add_btn inp = true -> food_item inp <> "" ->
      sheets (add_food_handler ws inp w).2 = sheets w /\
      ui (add_food_handler ws inp w).2 = ui w ++ [Error_save_failed APIError]) /\
   (save_note_btn inp = true -> strip (daily_note_text inp) <> "" ->
      sheets (save_note_handler ws inp w).2 = sheets w /\
      ui (save_note_handler ws inp w).2 = ui w ++ [Error_note_failed APIError])).
Proof.
  split; [apply add_food_handler_catches |]. split; [apply save_note_handler_catches |].
  intros O. split.
  - intros B F. rewrite (add_food_failed _ _ _ O B F). split; reflexivity.
  - intros B F. unfold save_note_handler. rewrite B.
    apply truthy_true in F. rewrite F. cbn [negb]. cbv beta iota zeta.
    erewrite try_except_inl.
    2:{ unfold bind at 1, now at 1. apply bind_inl. apply append_row_out. exact O. }
    split; reflexivity.
Qed.

Lemma write_handlers_contain_failures_witness :
  ui (save_note_handler NOTES_SHEET sample_inputs (failing_from 0 started)).2
    = [Error_note_failed APIError] /\
  sheets (save_note_handler NOTES_SHEET sample_inputs (failing_from 0 started)).2
    = sheets started.
Proof.
  destruct (write_handlers_contain_failures NOTES_SHEET sample_inputs (failing_from 0 started))
    as (_ & _ & H).
  destruct H as [_ H]; [reflexivity |].
  destruct H as [H1 H2]; [reflexivity | discriminate |].
  split; [exact H2 | exact H1].
Defined.

Lemma upsert_scan_update_tears ws label cal prot g pre r post : forall i w,
  answers w -> outage w (S (length (trace w))) = true ->
  sheets w !! ws = Some g ->
  Forall (fun p => matches label p = false) pre -> matches label r = true ->
  upsert_scan ws label cal prot (S i) (pre ++ r :: post) w =
    (inl APIError,
     called (Call_update ws (col_C (S (i + length pre))) (CInt prot))
       (with_sheets (<[ws := set_cell g (i + length pre) 1 (CInt cal)]> (sheets w))
          (called (Call_update ws (col_B (S (i + length pre))) (CInt cal)) w))).
Proof.
  induction pre as [| p pre IH]; intros i w R O Hs Hpre Hr.
  - simpl. rewrite Hr. rewrite Nat.add_0_r. unfold col_B, col_C.
    erewrite bind_inr; [| apply update_ok with (g := g); [exact R | exact Hs]].
    apply bind_inl. apply update_out. simpl. rewrite length_app. simpl.
    now rewrite Nat.add_1_r.
  - inversion Hpre as [| ? ? Hp Hpre']; subst. simpl. rewrite Hp.
    rewrite (IH (S i) w R O Hs Hpre' Hr).
    replace (S i + length pre) with (i + S (length pre)) by lia. reflexivity.
Qed.

(** X6. An update of a goal is not atomic.  When the store answers the read
    of the goal table and the write of the calorie goal and then raises on
    the write of the protein goal, the exception leaves the upsert with the
    row half written: the first matching record carries the new calorie goal
    and still the old protein goal and time stamp; all other records are as
    before. *)
Theorem upsert_goal_can_tear_a_row ws label cal prot (body : grid) w pre r post :
  sheets w !! ws = Some (header_row GOALS_HEADER :: body) ->
  outage w (length (trace w)) = false ->
  outage w (S (length (trace w))) = false ->
  outage w (S (S (length (trace w)))) = true ->
  let g := header_row GOALS_HEADER :: body in
  let res := upsert_goal ws label cal prot w in
  records_of g = pre ++ r :: post ->
  Forall (fun p => matches label p = false) pre ->
  matches label r = true ->
  let g' := set_cell g (S (length pre)) 1 (CInt cal) in
  res.1 = inl APIError /\
  sheets res.2 = <[ws := g']> (sheets w) /\
  records_of g' = pre ++ <["calorie_goal" := CInt cal]> r :: post /\
  ui res.2 = ui w.
Proof.
  intros Hs O0 O1 O2 g res Hrecs Hpre Hr g'. subst g'.
  assert (Hj : length pre < length body).
  { rewrite <- (length_records_of GOALS_HEADER body). fold g.
    rewrite Hrecs, length_app. simpl. lia. }
  assert (E : res = upsert_scan ws label cal prot 2 (pre ++ r :: post)
                      (called (Call_get_all_records ws) w)).
  { unfold res, upsert_goal. rewrite <- Hrecs. apply bind_inr.
    apply get_all_records_ok; [exact O0 | exact Hs]. }
  rewrite (upsert_scan_update_tears ws label cal prot g pre r post 1) in E;
    [| unfold answers; simpl; rewrite length_app; simpl; now rewrite Nat.add_1_r
     | simpl; rewrite length_app; simpl; now rewrite Nat.add_1_r
     | exact Hs | exact Hpre | exact Hr].
  rewrite E. simpl. split; [reflexivity |]. split; [reflexivity |]. split; [| reflexivity].
  unfold g. rewrite (records_set_cell _ _ _ _ "calorie_goal");
    [| exact Hj | exact sole_calorie_goal | discriminate].
  fold g. rewrite Hrecs. rewrite <- (Nat.add_0_r (length pre)). now rewrite alter_app_r.
Qed.

Lemma upsert_goal_can_tear_a_row_witness :
  let res := upsert_goal GOALS_SHEET "2024-03" 1700 80
               (failing_from 2 (with_goals two_goals started)) in
  res.1 = inl APIError /\
  sheets res.2 !! GOALS_SHEET =
    Some [header_row GOALS_HEADER;
          new_goal_row "2024-02" 1800 90 "2024-02-01T09:00:00";
          new_goal_row "2024-03" 1700 70 "2024-03-01T09:00:00"].
Proof.
  destruct (upsert_goal_can_tear_a_row GOALS_SHEET "2024-03" 1700 80 (tail two_goals)
              (failing_from 2 (with_goals two_goals started))
              [record_at GOALS_HEADER 4 (new_goal_row "2024-02" 1800 90 "2024-02-01T09:00:00")]
              (record_at GOALS_HEADER 4 (new_goal_row "2024-03" 1600 70 "2024-03-01T09:00:00"))
              [])
    as (H1 & H2 & _); try reflexivity; [repeat constructor |].
  split; [exact H1 |]. rewrite H2. vm_compute. reflexivity.
Defined.

(** ** The goal table after an upsert *)

Lemma find_first {X} (f : X -> bool) pre x post :
  Forall (fun p => f p = false) pre -> f x = true ->
  List.find f (pre ++ x :: post) = Some x.
Proof.
  induction 1 as [| p pre Hp _ IH]; intros Hx; simpl.
  - now rewrite Hx.
  - rewrite Hp. now apply IH.
Qed.

Lemma overwrite_goal_fields cal prot t (r : record) :
  overwrite_goal cal prot t r !! "calorie_goal" = Some (CInt cal) /\
  overwrite_goal cal prot t r !! "protein_goal" = Some (CInt prot) /\
  overwrite_goal cal prot t r !! "created_at" = Some (CStr t) /\
  overwrite_goal cal prot t r !! "month_year" = r !! "month_year".
Proof.
  unfold overwrite_goal. repeat split.
  - rewrite !lookup_insert_ne by discriminate. apply lookup_insert_eq.
  - rewrite lookup_insert_ne by discriminate. apply lookup_insert_eq.
  - apply lookup_insert_eq.
  - now rewrite !lookup_insert_ne by discriminate.
Qed.

Lemma goal_cells_shape hdr (body : grid) j cal prot t :
  j < length body ->
  exists body', goal_cells (hdr :: body) (S j) cal prot t = hdr :: body' /\
    length body' = length body.
Proof.
  intros Hj. unfold goal_cells.
  rewrite set_cell_body by exact Hj.
  rewrite set_cell_body by (rewrite length_alter; exact Hj).
  rewrite set_cell_body by (rewrite !length_alter; exact Hj).
  eexists. split; [reflexivity |]. now rewrite !length_alter.
Qed.

(** What an upsert leaves behind on a store that answers. *)
Lemma upsert_goal_outcome ws label cal prot (body : grid) w :
  reliable w ->
  sheets w !! ws = Some (header_row GOALS_HEADER :: body) ->
  let recs := records_of (header_row GOALS_HEADER :: body) in
  let t := clock w (ticks w) in
  let res := upsert_goal ws label cal prot w in
  exists body' r,
    sheets res.2 = <[ws := header_row GOALS_HEADER :: body']> (sheets w) /\
    ((res.1 = inr "updated" /\ length body' = length body /\
      (exists p, p ∈ recs /\ matches label p = true) /\
      month_of <$> records_of (header_row GOALS_HEADER :: body') = month_of <$> recs)
     \/
     (res.1 = inr "created" /\ length body' = S (length body) /\
      Forall (fun p => matches label p = false) recs /\
      month_of <$> records_of (header_row GOALS_HEADER :: body')
        = (month_of <$> recs) ++ [Some (CStr label)])) /\
    goal_for (records_of (header_row GOALS_HEADER :: body')) label = Some r /\
    r !! "month_year" = Some (CStr label) /\
    r !! "calorie_goal" = Some (CInt cal) /\
    r !! "protein_goal" = Some (CInt prot) /\
    r !! "created_at" = Some (CStr t).
Proof.
  intros R Hs recs t res. subst t.
  destruct (first_match label recs) as [Hnone | (pre & r & post & Hrecs & Hpre & Hr)].
  - destruct (upsert_goal_creates ws label cal prot body w R Hs Hnone)
      as (H1 & H2 & rn & H3 & F1 & F2 & F3 & F4).
    rewrite <- app_comm_cons in H2, H3. fold recs in H3.
    exists (body ++ [new_goal_row label cal prot (clock w (ticks w))]), rn.
    split; [exact H2 |]. split.
    + right. split; [exact H1 |]. split; [rewrite length_app; simpl; lia |].
      split; [exact Hnone |].
      rewrite H3, fmap_app, list_fmap_singleton. unfold month_of. now rewrite F1.
    + rewrite H3. split; [| now repeat split].
      unfold goal_for. apply find_first; [exact Hnone | now apply matches_month_year].
  - destruct (upsert_goal_updates ws label cal prot body w pre r post R Hs Hrecs Hpre Hr)
      as (H1 & H2 & H3).
    assert (Hj : length pre < length body).
    { rewrite <- (length_records_of GOALS_HEADER body). fold recs.
      rewrite Hrecs, length_app. simpl. lia. }
    destruct (goal_cells_shape (header_row GOALS_HEADER) body (length pre) cal prot
                (clock w (ticks w)) Hj)
      as (body' & Eb & Lb).
    destruct (overwrite_goal_fields cal prot (clock w (ticks w)) r) as (F2 & F3 & F4 & F1).
    exists body', (overwrite_goal cal prot (clock w (ticks w)) r).
    rewrite <- Eb. split; [exact H2 |]. split.
    + left. split; [exact H1 |]. split; [exact Lb |]. split.
      * exists r. split; [| exact Hr]. fold recs in Hrecs. rewrite Hrecs.
        apply elem_of_app. right. left.
      * rewrite H3. fold recs in Hrecs. rewrite Hrecs, !fmap_app, !fmap_cons.
        unfold month_of. now rewrite F1.
    + rewrite H3. apply matches_month_year in Hr.
      split; [| rewrite F1; now repeat split].
      unfold goal_for. apply find_first; [exact Hpre |].
      apply matches_month_year. now rewrite F1.
Qed.

Lemma upsert_goal_same_store ws label cal prot w :
  outage (upsert_goal ws label cal prot w).2 = outage w.
Proof.
  apply (writes_upsert_goal same_store ws); try (intros; reflexivity).
  unfold same_store. congruence.
Qed.

(** X7. Round trip of a goal.  On a store that answers, after the upsert of
    a month the look-up that the daily summary makes for that month finds a
    record that carries exactly the goals just written and the time of
    writing, whether the month existed before or not and whatever other rows
    the table holds. *)
Theorem goal_is_found_after_upsert ws label cal prot (body : grid) w :
  reliable w ->
  sheets w !! ws = Some (header_row GOALS_HEADER :: body) ->
  let res := upsert_goal ws label cal prot w in
  exists g' r,
    sheets res.2 !! ws = Some g' /\
    goal_for (records_of g') label = Some r /\
    r !! "calorie_goal" = Some (CInt cal) /\
    r !! "protein_goal" = Some (CInt prot) /\
    r !! "created_at" = Some (CStr (clock w (ticks w))).
Proof.
  intros R Hs res.
  destruct (upsert_goal_outcome ws label cal prot body w R Hs)
    as (body' & r & H1 & _ & H3 & _ & F2 & F3 & F4).
  exists (header_row GOALS_HEADER :: body'), r.
  split; [unfold res; rewrite H1; apply lookup_insert_eq |].
  now repeat split.
Qed.

Lemma goal_is_found_after_upsert_witness :
  exists g' r,
    sheets (upsert_goal GOALS_SHEET "2024-04" 1500 60 (with_goals two_goals started)).2
      !! GOALS_SHEET = Some g' /\
    goal_for (records_of g') "2024-04" = Some r /\
    r !! "calorie_goal" = Some (CInt 1500).
Proof.
  destruct (goal_is_found_after_upsert GOALS_SHEET "2024-04" 1500 60 (tail two_goals)
              (with_goals two_goals started)) as (g' & r & H1 & H2 & H3 & _);
    [intros k; reflexivity | reflexivity |].
  exists g', r. now repeat split.
Defined.

(** X8. The upsert keeps the month labels distinct.  On a store that
    answers, when no two records of the goal table carry the same
    [month_year], no two records do after an upsert, for an existing month
    as for a new one. *)
Theorem upsert_goal_keeps_months_distinct ws label cal prot (body : grid) w :
  reliable w ->
  sheets w !! ws = Some (header_row GOALS_HEADER :: body) ->
  NoDup (month_of <$> records_of (header_row GOALS_HEADER :: body)) ->
  exists g',
    sheets (upsert_goal ws label cal prot w).2 !! ws = Some g' /\
    NoDup (month_of <$> records_of g').
Proof.
  intros R Hs Hdup.
  destruct (upsert_goal_outcome ws label cal prot body w R Hs)
    as (body' & r & H1 & [(_ & _ & _ & Hm) | (_ & _ & Hnone & Hm)] & _).
  - exists (header_row GOALS_HEADER :: body').
    split; [rewrite H1; apply lookup_insert_eq | now rewrite Hm].
  - exists (header_row GOALS_HEADER :: body').
    split; [rewrite H1; apply lookup_insert_eq |].
    rewrite Hm. apply NoDup_app. split; [exact Hdup |]. split; [| apply NoDup_singleton].
    intros x Hx Hin. apply list_elem_of_singleton in Hin. subst x.
    apply list_elem_of_fmap in Hx as (p & Hp & Hin).
    rewrite Forall_forall in Hnone. specialize (Hnone p Hin).
    symmetry in Hp. apply matches_month_year in Hp. congruence.
Qed.

Lemma upsert_goal_keeps_months_distinct_witness :
  exists g',
    sheets (upsert_goal GOALS_SHEET "2024-04" 1500 60 (with_goals two_goals started)).2
      !! GOALS_SHEET = Some g' /\
    NoDup (month_of <$> records_of g').
Proof.
  apply (upsert_goal_keeps_months_distinct GOALS_SHEET "2024-04" 1500 60 (tail two_goals)
           (with_goals two_goals started)); [intros k; reflexivity | reflexivity |].
  vm_compute. repeat constructor; intros H; repeat (apply elem_of_cons in H as [H | H]);
    first [discriminate | now apply elem_of_nil in H].
Defined.

(** X9. A second upsert of the same month never adds a row.  On a store
    that answers, after a month has been upserted once, upserting it again
    returns "updated", leaves the number of rows as it is, and the look-up of
    the month then finds the goals of the second call. *)
Theorem second_upsert_updates ws label cal1 prot1 cal2 prot2 (body : grid) w :
  reliable w ->
  sheets w !! ws = Some (header_row GOALS_HEADER :: body) ->
  let first := upsert_goal ws label cal1 prot1 w in
  let second := upsert_goal ws label cal2 prot2 first.2 in
  exists g1 g2 r,
    sheets first.2 !! ws = Some g1 /\
    second.1 = inr "updated" /\
    sheets second.2 !! ws = Some g2 /\
    length g2 = length g1 /\
    goal_for (records_of g2) label = Some r /\
    r !! "calorie_goal" = Some (CInt cal2) /\
    r !! "protein_goal" = Some (CInt prot2).
Proof.
  intros R Hs first second.
  destruct (upsert_goal_outcome ws label cal1 prot1 body w R Hs)
    as (body1 & r1 & H1 & _ & G1 & _).
  fold first in H1.
  assert (R1 : reliable first.2).
  { intros k. unfold first. now rewrite upsert_goal_same_store. }
  assert (Hs1 : sheets first.2 !! ws = Some (header_row GOALS_HEADER :: body1)).
  { rewrite H1. apply lookup_insert_eq. }
  destruct (upsert_goal_outcome ws label cal2 prot2 body1 first.2 R1 Hs1)
    as (body2 & r2 & H2 & [(U & L & _) | (_ & _ & Hnone & _)] & G2 & _ & F2 & F3 & _).
  - exists (header_row GOALS_HEADER :: body1), (header_row GOALS_HEADER :: body2), r2.
    fold second in H2, U.
    split; [exact Hs1 |]. split; [exact U |].
    split; [rewrite H2; apply lookup_insert_eq |].
    split; [simpl; now rewrite L |]. now repeat split.
  - exfalso. unfold goal_for in G1. apply find_some in G1 as [Hin Hm].
    rewrite Forall_forall in Hnone. apply list_elem_of_In in Hin.
    rewrite (Hnone r1 Hin) in Hm. discriminate.
Qed.

Lemma second_upsert_updates_witness :
  (upsert_goal GOALS_SHEET "2024-04" 1400 55
     (upsert_goal GOALS_SHEET "2024-04" 1500 60 (with_goals two_goals started)).2).1
    = inr "updated".
Proof.
  destruct (second_upsert_updates GOALS_SHEET "2024-04" 1500 60 1400 55 (tail two_goals)
              (with_goals two_goals started)) as (g1 & g2 & r & _ & H & _);
    [intros k; reflexivity | reflexivity |].
  exact H.
Defined.

(** ** The frame of the day *)

Section Day.

Variable header : list string.
Variable n cd : nat.
Variable body : grid.
Variable day : string.
Hypothesis date_column : sole header cd "date".
Hypothesis wide : length header <= n.

Lemma record_at_cell c k line :
  sole header c k -> k <> "" ->
  default (CFloat Float64.nan) (record_at header n line !! k) = cell_at c line.
Proof. intros Hs Hk. now rewrite (record_at_lookup header n c k line Hs Hk wide). Qed.

Lemma day_rows : rows (day_frame header n body day) = record_at header n <$> rows_of_day cd day body.
Proof.
  unfold day_frame. rewrite <- list_fmap_compose, select_rows.
  unfold meals_frame, DataFrame_of, rows_of_day. cbn [rows].
  induction body as [| line rest IH]; [reflexivity |].
  rewrite fmap_cons, filter_cons. cbn [List.filter].
  match goal with |- context [decide (?f ?x = true)] =>
    assert (H : f x = dated cd day line)
      by (unfold compose, dated;
          now rewrite (record_at_cell cd "date" line date_column) by discriminate);
    destruct (decide (f x = true)) as [D | D]; rewrite H in D
  end.
  - rewrite D, fmap_cons. now rewrite IH.
  - apply not_true_is_false in D. rewrite D. exact IH.
Qed.

Lemma some_row : body <> [] -> exists line, line ∈ body.
Proof.
  intros Hb. destruct (body !! 0) as [line |] eqn:E.
  - exists line. now apply list_elem_of_lookup_2 in E.
  - apply lookup_ge_None in E. exfalso. apply Hb. apply nil_length_inv. lia.
Qed.

Lemma day_columns k : k ∈ columns (day_frame header n body day) <-> k ∈ columns (meals_frame header n body).
Proof. reflexivity. Qed.

Lemma frame_column c k :
  sole header c k -> k <> "" -> body <> [] -> k ∈ columns (meals_frame header n body).
Proof.
  intros Hs Hk Hb. destruct (some_row Hb) as [line Hin].
  apply (column_present (record_at header n <$> body) (record_at header n line) k (cell_at c line)).
  - now apply list_elem_of_fmap_2.
  - rewrite (record_at_lookup header n c k line Hs Hk wide). reflexivity.
Qed.

Lemma frame_no_column k : k ∉ header -> k <> "" -> k ∉ columns (meals_frame header n body).
Proof.
  intros Hk Hne. apply column_absent. intros r Hr.
  apply list_elem_of_fmap in Hr as (line & -> & _). now apply record_at_missing.
Qed.

Lemma frame_not_empty : body <> [] -> df_empty (meals_frame header n body) = false.
Proof.
  intros Hb. destruct (some_row Hb) as [line Hin].
  apply (df_empty_false (meals_frame header n body) "date" (record_at header n line)).
  - apply (frame_column cd); [exact date_column | discriminate | exact Hb].
  - unfold meals_frame, DataFrame_of. cbn [rows]. now apply list_elem_of_fmap_2.
Qed.

Lemma day_empty : df_empty (day_frame header n body day) = true <-> rows_of_day cd day body = [].
Proof.
  unfold df_empty. rewrite day_rows. split.
  - intros H. apply orb_true_iff in H as [H | H].
    + destruct (rows_of_day cd day body) as [| line rest] eqn:E; [reflexivity |].
      exfalso. apply bool_decide_eq_true in H.
      assert (Hb : body <> []).
      { intros Hb. unfold rows_of_day in E. rewrite Hb in E. discriminate. }
      pose proof (frame_column cd "date" date_column ltac:(discriminate) Hb) as Hc.
      change (columns (day_frame header n body day)) with (columns (meals_frame header n body)) in H. rewrite H in Hc.
      now apply not_elem_of_empty in Hc.
    + destruct (rows_of_day cd day body); [reflexivity | discriminate].
  - intros ->. apply orb_true_r.
Qed.

(** The column of the day's frame under a key of the header. *)
Lemma day_getitem c k :
  sole header c k -> k <> "" -> body <> [] ->
  getitem (day_frame header n body day) k = inr (cell_at c <$> rows_of_day cd day body).
Proof.
  intros Hs Hk Hb. rewrite getitem_present.
  - rewrite day_rows, <- list_fmap_compose. f_equal.
    apply list_fmap_ext. intros i line _. unfold compose.
    now apply record_at_cell.
  - apply day_columns. now apply (frame_column c).
Qed.

End Day.

(** ** The summary of a table with a date column *)

(** What the summary does once the table is fetched: no row, no row of the
    day, or the summary of the rows of the day. *)
Lemma daily_summary_of_table ms gs d header cd (body : grid) w :
  answers w ->
  sheets w !! ms = Some (header_row header :: body) ->
  sole header cd "date" ->
  daily_summary ms gs d w =
    match body with
    | [] => st Info_no_entries_yet
    | _ :: _ =>
        match rows_of_day cd (strftime_Ymd d) body with
        | [] => st Info_no_entries_for_date
        | _ :: _ =>
            day_summary
              (day_frame header (width (header_row header :: body)) body (strftime_Ymd d))
              (strftime_Ymd d) (strftime_Ym d) gs
        end
    end (called (Call_get_all_records ms) w).
Proof.
  intros R Hs Hd.
  pose proof (width_header header body) as Hn.
  unfold daily_summary.
  erewrite bind_inr.
  2:{ apply try_except_inr. erewrite bind_inr; [reflexivity |].
      apply get_all_records_ok; [exact R | exact Hs]. }
  rewrite records_of_header.
  set (n := width (header_row header :: body)) in *.
  fold (meals_frame header n body).
  destruct (decide (body = [])) as [Eb | Hb].
  - subst body. unfold meals_frame, df_empty. cbn [rows DataFrame_of fmap list_fmap].
    now rewrite orb_true_r.
  - rewrite (frame_not_empty header n cd body Hd Hn Hb).
    cbv zeta. unfold lift at 1. unfold bind at 1.
    rewrite (getitem_present _ _ (frame_column header n body Hn cd "date" Hd ltac:(discriminate) Hb)).
    fold (day_frame header n body (strftime_Ymd d)).
    pose proof (day_empty header n cd body (strftime_Ymd d) Hd Hn) as He.
    destruct (df_empty (day_frame header n body (strftime_Ymd d))) eqn:E.
    + rewrite (proj1 He eq_refl). now destruct body.
    + destruct body as [| line rest]; [congruence |].
      destruct (rows_of_day cd (strftime_Ymd d) (line :: rest)); [| reflexivity].
      now specialize (proj2 He eq_refl).
Qed.

Lemma day_summary_key_error header n (body : grid) day ds m gs w :
  "calories_kcal" ∉ header ->
  day_summary (day_frame header n body day) ds m gs w = (inl (KeyError "calories_kcal"), w).
Proof.
  intros Hk. unfold day_summary, column_sum.
  apply bind_inl. apply bind_inl. unfold lift.
  rewrite getitem_missing; [reflexivity |].
  apply (frame_no_column header n body); [exact Hk | discriminate].
Qed.

Lemma meals_header_no_kcal : "calories_kcal" ∉ MEALS_HEADER.
Proof.
  intros H. repeat (apply elem_of_cons in H as [H | H]; [discriminate |]).
  now apply elem_of_nil in H.
Qed.

(** X10. The two empty states of the summary.  On a table that holds its
    header row, with a "date" column, and no row of the viewed date, the
    summary returns normally after the one read of the meal table and renders
    one message: "No food entries yet." when the table has no row at all,
    "No entries for selected date." otherwise.  No column is summed and the
    goal table is not read. *)
Theorem summary_empty_states ms gs d header cd (body : grid) w :
  answers w ->
  sheets w !! ms = Some (header_row header :: body) ->
  sole header cd "date" ->
  rows_of_day cd (strftime_Ymd d) body = [] ->
  daily_summary ms gs d w =
    (inr tt,
     with_ui (ui w ++ [match body with
                       | [] => Info_no_entries_yet
                       | _ :: _ => Info_no_entries_for_date
                       end])
       (called (Call_get_all_records ms) w)).
Proof.
  intros R Hs Hd Hr.
  rewrite (daily_summary_of_table ms gs d header cd body w R Hs Hd).
  destruct body as [| line rest]; [reflexivity |].
  now rewrite Hr.
Qed.

Lemma summary_empty_states_witness :
  daily_summary MEALS_SHEET GOALS_SHEET {| year := 2024; month := 3; day := 8 |}
      (with_meals two_meals started) =
    (inr tt,
     with_ui [Info_no_entries_for_date]
       (called (Call_get_all_records MEALS_SHEET) (with_meals two_meals started))).
Proof.
  apply (summary_empty_states MEALS_SHEET GOALS_SHEET {| year := 2024; month := 3; day := 8 |}
           MEALS_HEADER 0 (tail two_meals) (with_meals two_meals started)).
  - reflexivity.
  - reflexivity.
  - solve_sole.
  - vm_compute. reflexivity.
Defined.

(** The meal table after the add-food handler on a store that answers. *)
Lemma add_food_handler_table ms inp g w :
  answers w -> sheets w !! ms = Some g ->
  exists w',
    add_food_handler ms inp w = (inr tt, w') /\
    outage w' = outage w /\
    (forall name, name <> ms -> sheets w' !! name = sheets w !! name) /\
    sheets w' !! ms =
      Some (if add_btn inp && truthy (food_item inp) then g ++ [meal_row inp] else g) /\
    length (trace w') =
      length (trace w) + (if add_btn inp && truthy (food_item inp) then 1 else 0).
Proof.
  intros R Hs. destruct (add_btn inp) eqn:B.
  - destruct (truthy (food_item inp)) eqn:F.
    + eexists. split; [apply (add_food_saved ms inp g w R Hs B); now apply truthy_true |].
      cbn [andb]. repeat split.
      * intros name Hne. cbn. now rewrite lookup_insert_ne.
      * cbn. now rewrite lookup_insert_eq.
      * cbn. rewrite length_app. reflexivity.
    + eexists. split.
      { apply add_food_rejected; [exact B |]. destruct (food_item inp); [reflexivity | discriminate]. }
      cbn [andb]. repeat split; [exact Hs | cbn; lia].
  - eexists. split; [unfold add_food_handler; rewrite B; reflexivity |].
    cbn [andb]. repeat split; [exact Hs | cbn; lia].
Qed.

(** On a store that answers, the set-goal handler returns normally and
    touches no table but that of the goals. *)
Lemma set_goal_handler_returns gs inp g w :
  reliable w -> sheets w !! gs = Some g ->
  exists w',
    set_goal_handler gs inp w = (inr tt, w') /\
    outage w' = outage w /\
    (forall name, name <> gs -> sheets w' !! name = sheets w !! name).
Proof.
  intros R Hs. unfold set_goal_handler. destruct (set_goal_btn inp).
  2:{ exists w. repeat split. }
  assert (Hup : exists res w', upsert_goal gs (month_year_label inp)
              (calorie_goal_input inp) (protein_goal_input inp) w = (inr res, w') /\
              outage w' = outage w /\
              (forall name, name <> gs -> sheets w' !! name = sheets w !! name)).
  { rewrite (upsert_goal_run gs _ _ _ g w R Hs).
    destruct (first_match (month_year_label inp) (records_of g))
      as [Hnone | (pre & r & post & -> & Hpre & Hr)].
    - eexists _, _. split.
      + apply (upsert_scan_created gs _ _ _ g); [exact R | exact Hs | exact Hnone].
      + split; [reflexivity |]. intros name Hne. cbn. now rewrite lookup_insert_ne.
    - eexists _, _. split.
      + apply (upsert_scan_updated gs _ _ _ g); [exact R | exact Hs | exact Hpre | exact Hr].
      + split; [reflexivity |]. intros name Hne. cbn. now rewrite lookup_insert_ne. }
  destruct Hup as (res & w' & E & O & F).
  eexists. split; [erewrite bind_inr; [reflexivity | exact E] |].
  split; [exact O | exact F].
Qed.

(** X11. A run stops at a failing summary.  On a store that answers, with
    the three tables present and the meal table under the header that the
    program declares: when the meal table, after the add-food handler of the
    run, holds a row of the viewed date, the run ends with
    [KeyError "calories_kcal"] raised by the summary.  The meal submitted in
    the run is saved; the note handler, which comes after the summary, is not
    reached, so the table of the notes is left as it was whatever the note
    form holds. *)
Theorem run_stops_at_the_summary inp (body gg gn : grid) w :
  reliable w ->
  sheets w !! MEALS_SHEET = Some (header_row MEALS_HEADER :: body) ->
  sheets w !! GOALS_SHEET = Some gg ->
  sheets w !! NOTES_SHEET = Some gn ->
  let body' := if add_btn inp && truthy (food_item inp)
               then body ++ [meal_row inp] else body in
  rows_of_day 0 (strftime_Ymd (summary_date inp)) body' <> [] ->
  (script inp w).1 = inl (KeyError "calories_kcal") /\
  sheets (script inp w).2 !! MEALS_SHEET = Some (header_row MEALS_HEADER :: body') /\
  sheets (script inp w).2 !! NOTES_SHEET = Some gn.
Proof.
  intros R Hm Hg Hn body' Hday. unfold script.
  rewrite (bind_inr _ _ _ _ _ (ensure_worksheet_existing MEALS_SHEET MEALS_HEADER _ w R Hm)).
  set (w1 := called _ (called _ w)).
  rewrite (bind_inr _ _ _ _ _
             (ensure_worksheet_existing GOALS_SHEET GOALS_HEADER gg w1 R Hg)).
  set (w2 := called _ (called _ w1)).
  rewrite (bind_inr _ _ _ _ _
             (ensure_worksheet_existing NOTES_SHEET NOTES_HEADER gn w2 R Hn)).
  set (w3 := called _ (called _ w2)).
  destruct (set_goal_handler_returns GOALS_SHEET inp gg w3 R Hg) as (w4 & E4 & O4 & F4).
  rewrite (bind_inr _ _ _ _ _ E4).
  assert (R4 : reliable w4) by (intros k; rewrite O4; apply R).
  assert (Hm4 : sheets w4 !! MEALS_SHEET = Some (header_row MEALS_HEADER :: body)).
  { rewrite F4 by discriminate. exact Hm. }
  destruct (add_food_handler_table MEALS_SHEET inp _ w4 (R4 _) Hm4)
    as (w5 & E5 & O5 & F5 & Hm5 & _).
  rewrite (bind_inr _ _ _ _ _ E5).
  assert (R5 : reliable w5) by (intros k; rewrite O5; apply R4).
  assert (Hm5' : sheets w5 !! MEALS_SHEET = Some (header_row MEALS_HEADER :: body')).
  { rewrite Hm5. subst body'. now destruct (add_btn inp && truthy (food_item inp)). }
  erewrite bind_inl.
  2:{ rewrite (daily_summary_of_table MEALS_SHEET GOALS_SHEET (summary_date inp)
                 MEALS_HEADER 0 body' w5 (R5 _) Hm5' sole_date).
      destruct body' as [| l0 ls] eqn:Eb; [now contradiction Hday |]. rewrite <- Eb in *.
      destruct (rows_of_day 0 (strftime_Ymd (summary_date inp)) body'); [now contradiction Hday |].
      apply day_summary_key_error. exact meals_header_no_kcal. }
  cbn [fst snd]. split; [reflexivity |]. split; [exact Hm5' |].
  change (sheets w5 !! NOTES_SHEET = Some gn).
  rewrite F5 by discriminate. rewrite F4 by discriminate. exact Hn.
Qed.

Lemma run_stops_at_the_summary_witness :
  (script meal_and_note_inputs started).1 = inl (KeyError "calories_kcal") /\
  sheets (script meal_and_note_inputs started).2 !! MEALS_SHEET =
    Some [header_row MEALS_HEADER; meal_row meal_and_note_inputs] /\
  sheets (script meal_and_note_inputs started).2 !! NOTES_SHEET =
    Some [header_row NOTES_HEADER].
Proof.
  apply (run_stops_at_the_summary meal_and_note_inputs [] [header_row GOALS_HEADER]
           [header_row NOTES_HEADER] started).
  - intros k. reflexivity.
  - reflexivity.
  - reflexivity.
  - reflexivity.
  - vm_compute. discriminate.
Defined.

(** ** The sums of the summary *)

(** Both parts of a split array are shorter than the array. *)
Lemma split_shorter n :
  128 < n -> 0 < n / 2 - (n / 2) mod 8 < n.
Proof.
  intros H.
  pose proof (Nat.div_mod_eq n 2). pose proof (Nat.mod_upper_bound n 2).
  pose proof (Nat.mod_upper_bound (n / 2) 8). lia.
Qed.

(** The depth of the recursion does not matter once it covers the array. *)
Lemma pairwise_sum_depth d1 : forall d2 (a : list float64),
  length a <= 128 + d1 -> length a <= 128 + d2 ->
  pairwise_sum_upto d1 a = pairwise_sum_upto d2 a.
Proof.
  induction d1 as [| d1 IH]; intros d2 a H1 H2.
  - destruct d2 as [| d2]; [reflexivity |]. cbn [pairwise_sum_upto].
    destruct (Nat.ltb_spec 128 (length a)); [lia | reflexivity].
  - cbn [pairwise_sum_upto]. destruct (Nat.ltb_spec 128 (length a)) as [Hn | Hn].
    + destruct d2 as [| d2]; [lia |]. cbn [pairwise_sum_upto].
      destruct (Nat.ltb_spec 128 (length a)); [| lia].
      pose proof (split_shorter _ Hn).
      f_equal; apply IH; rewrite ?length_take, ?length_drop; lia.
    + destruct d2 as [| d2]; [reflexivity |]. cbn [pairwise_sum_upto].
      destruct (Nat.ltb_spec 128 (length a)); [lia | reflexivity].
Qed.

(** [pairwise_sum] obeys the recursion of numpy's [pairwise_sum]. *)
Lemma pairwise_sum_unfold (a : list float64) :
  pairwise_sum a =
    if Nat.ltb (length a) 8 then add_in_order (S754_zero true) a
    else if Nat.leb (length a) 128 then sum_unrolled a
    else
      let n2 := length a / 2 - (length a / 2) mod 8 in
      Float64.add (pairwise_sum (take n2 a)) (pairwise_sum (drop n2 a)).
Proof.
  unfold pairwise_sum. destruct (Nat.ltb_spec 128 (length a)) as [Hn | Hn].
  - destruct (Nat.ltb_spec (length a) 8); [lia |].
    destruct (Nat.leb_spec (length a) 128); [lia |]. cbv zeta.
    pose proof (split_shorter _ Hn).
    rewrite (pairwise_sum_depth (length a) (S (length a)) a) by lia.
    cbn [pairwise_sum_upto]. destruct (Nat.ltb_spec 128 (length a)); [| lia].
    f_equal; apply pairwise_sum_depth; rewrite ?length_take, ?length_drop; lia.
  - rewrite (pairwise_sum_depth (length a) 0 a) by lia.
    cbn [pairwise_sum_upto]. unfold sum_block.
    destruct (Nat.ltb_spec (length a) 8); [reflexivity |].
    destruct (Nat.leb_spec (length a) 128); [reflexivity | lia].
Qed.

(** Ten tenths add up to 1.0 in the sum of pandas, and to
    0.9999999999999999 when added one after the other. *)
Example sum_of_ten_tenths :
  nansum (replicate 10 (Float64.decimal 1 1)) = Float64.of_Z 1 /\
  fold_left Float64.add (replicate 10 (Float64.decimal 1 1)) Float64.zero =
    Float64.decimal 9999999999999999 16.
Proof. split; vm_compute; reflexivity. Qed.

Lemma column_sum_ok df k col xs w :
  getitem df k = inr col -> astype_float col = inr xs ->
  column_sum df k w = (inr (nansum xs), w).
Proof.
  intros Hg Ha. unfold column_sum, lift, bind, ret. now rewrite Hg, Ha.
Qed.

Lemma daily_summary_of_day ms gs d header cd (body : grid) w :
  answers w ->
  sheets w !! ms = Some (header_row header :: body) ->
  sole header cd "date" ->
  rows_of_day cd (strftime_Ymd d) body <> [] ->
  daily_summary ms gs d w =
    day_summary
      (day_frame header (width (header_row header :: body)) body (strftime_Ymd d))
      (strftime_Ymd d) (strftime_Ym d) gs (called (Call_get_all_records ms) w).
Proof.
  intros R Hs Hd Hr.
  rewrite (daily_summary_of_table ms gs d header cd body w R Hs Hd).
  destruct body as [| line rest]; [now contradiction Hr |].
  now destruct (rows_of_day cd (strftime_Ymd d) (line :: rest)).
Qed.

(** X12. What the summary shows for a day.  On a store that answers, for a
    meal table whose header has the columns that the summary reads, each
    once, and whose rows of the viewed date hold numbers in the five summed
    columns: the summary returns normally after reading the meal table and
    then the goal table; each sum is the sum that pandas computes of the
    cells of the rows of that date only (a NaN counts as 0.0 and the values
    are added the way numpy adds them: in order when fewer than 8, in eight
    running sums and then in pairs from 8 values on); and, the month having
    no goal, it renders the date, the five sums, the no-goal message and the
    rows of that date, in this order. *)
Theorem summary_sums_the_rows_of_the_day ms gs d header cd c1 c2 c3 c4 c5
    (body gg : grid) x1 x2 x3 x4 x5 w :
  reliable w ->
  sheets w !! ms = Some (header_row header :: body) ->
  sheets w !! gs = Some gg ->
  sole header cd "date" ->
  sole header c1 "calories_kcal" -> sole header c2 "protein_g" ->
  sole header c3 "carbs_g" -> sole header c4 "fat_g" -> sole header c5 "fiber_g" ->
  let rs := rows_of_day cd (strftime_Ymd d) body in
  rs <> [] ->
  astype_float (cell_at c1 <$> rs) = inr x1 ->
  astype_float (cell_at c2 <$> rs) = inr x2 ->
  astype_float (cell_at c3 <$> rs) = inr x3 ->
  astype_float (cell_at c4 <$> rs) = inr x4 ->
  astype_float (cell_at c5 <$> rs) = inr x5 ->
  goal_for (records_of gg) (strftime_Ym d) = None ->
  daily_summary ms gs d w =
    (inr tt,
     with_ui (ui w ++ [Write_date (strftime_Ymd d);
                       Metric_calories (nansum x1);
                       Metric_protein (nansum x2);
                       Metric_carbs (nansum x3);
                       Write_fat_fiber (nansum x4) (nansum x5);
                       Info_no_goal;
                       Dataframe (record_at header (width (header_row header :: body)) <$> rs)])
       (called (Call_get_all_records gs) (called (Call_get_all_records ms) w))).
Proof.
  intros R Hm Hg Hd H1 H2 H3 H4 H5 rs Hrs A1 A2 A3 A4 A5 Hgoal.
  pose proof (width_header header body) as Hn.
  rewrite (daily_summary_of_day ms gs d header cd body w (R _) Hm Hd Hrs).
  set (n := width (header_row header :: body)) in *.
  set (w1 := called (Call_get_all_records ms) w).
  assert (G : forall c k, sole header c k -> k <> "" ->
            getitem (day_frame header n body (strftime_Ymd d)) k = inr (cell_at c <$> rs)).
  { intros c k Hs Hk. subst rs.
    apply (day_getitem header n cd body _ Hd Hn c k Hs Hk).
    intros E. apply Hrs. now rewrite E. }
  unfold day_summary.
  rewrite (bind_inr _ _ _ _ _ (column_sum_ok _ _ _ _ w1 (G c1 _ H1 ltac:(discriminate)) A1)).
  rewrite (bind_inr _ _ _ _ _ (column_sum_ok _ _ _ _ w1 (G c2 _ H2 ltac:(discriminate)) A2)).
  rewrite (bind_inr _ _ _ _ _ (column_sum_ok _ _ _ _ w1 (G c3 _ H3 ltac:(discriminate)) A3)).
  rewrite (bind_inr _ _ _ _ _ (column_sum_ok _ _ _ _ w1 (G c4 _ H4 ltac:(discriminate)) A4)).
  rewrite (bind_inr _ _ _ _ _ (column_sum_ok _ _ _ _ w1 (G c5 _ H5 ltac:(discriminate)) A5)).
  do 5 (erewrite bind_inr; [| reflexivity]).
  erewrite bind_inr.
  2:{ apply (get_all_records_ok gs gg); [apply R | exact Hg]. }
  cbv zeta. rewrite Hgoal.
  erewrite bind_inr; [| reflexivity].
  rewrite (day_rows header n cd body (strftime_Ymd d) Hd Hn). fold rs.
  unfold st, modify. cbn. rewrite <- !app_assoc. reflexivity.
Qed.

Lemma summary_sums_the_rows_of_the_day_witness :
  daily_summary MEALS_SHEET GOALS_SHEET sample_day (with_meals two_meals_kcal started) =
    (inr tt,
     with_ui [Write_date "2024-03-07";
              Metric_calories (nansum [Float64.decimal 1004 1; Float64.of_Z 50]);
              Metric_protein (nansum [Float64.decimal 1025 2; Float64.of_Z 5]);
              Metric_carbs (nansum [Float64.of_Z 30; Float64.of_Z 1]);
              Write_fat_fiber (nansum [Float64.of_Z 5; Float64.of_Z 4])
                              (nansum [Float64.of_Z 2; Float64.of_Z 0]);
              Info_no_goal;
              Dataframe (record_at ["date"; "protein_g"; "carbs_g"; "fat_g";
                                    "calories_kcal"; "fiber_g"] 6
                           <$> tail two_meals_kcal)]
       (called (Call_get_all_records GOALS_SHEET)
          (called (Call_get_all_records MEALS_SHEET) (with_meals two_meals_kcal started)))).
Proof.
  apply (summary_sums_the_rows_of_the_day MEALS_SHEET GOALS_SHEET sample_day
           ["date"; "protein_g"; "carbs_g"; "fat_g"; "calories_kcal"; "fiber_g"]
           0 4 1 2 3 5 (tail two_meals_kcal) [header_row GOALS_HEADER]
           [Float64.decimal 1004 1; Float64.of_Z 50]
           [Float64.decimal 1025 2; Float64.of_Z 5]
           [Float64.of_Z 30; Float64.of_Z 1]
           [Float64.of_Z 5; Float64.of_Z 4]
           [Float64.of_Z 2; Float64.of_Z 0]
           (with_meals two_meals_kcal started)).
  - intros k. reflexivity.
  - reflexivity.
  - reflexivity.
  - solve_sole.
  - solve_sole.
  - solve_sole.
  - solve_sole.
  - solve_sole.
  - solve_sole.
  - vm_compute. discriminate.
  - vm_compute. reflexivity.
  - vm_compute. reflexivity.
  - vm_compute. reflexivity.
  - vm_compute. reflexivity.
  - vm_compute. reflexivity.
  - vm_compute. reflexivity.
Defined.

(** ** Validation of the note *)

Lemma rstrip_empty s : rstrip s = "" <-> all_space s = true.
Proof.
  destruct s as [| a s]; [easy |].
  cbn [rstrip]. destruct (all_space (String a s)); easy.
Qed.

Lemma all_space_lstrip s : all_space (lstrip s) = all_space s.
Proof.
  remember (String.length s) as n eqn:E.
  revert s E. induction n as [n IH] using lt_wf_ind. intros s E.
  destruct s as [| a s1]; [reflexivity |]. cbn [lstrip all_space].
  destruct (space (char1 a)) eqn:E1.
  { apply (IH (String.length s1)); [subst n; simpl; lia | reflexivity]. }
  destruct s1 as [| b s2]; [cbn [all_space]; now rewrite E1 |].
  destruct (space (char2 a b)) eqn:E2.
  { apply (IH (String.length s2)); [subst n; simpl; lia | reflexivity]. }
  destruct s2 as [| c s3]; [cbn [all_space]; now rewrite E1, E2 |].
  destruct (space (char3 a b c)) eqn:E3.
  { cbn [andb]. apply (IH (String.length s3)); [subst n; simpl; lia | reflexivity]. }
  cbn [all_space]. now rewrite E1, E2, E3.
Qed.

(** [s.strip()] is empty exactly when [s] holds white space only. *)
Lemma strip_empty s : strip s = "" <-> all_space s = true.
Proof. unfold strip. now rewrite rstrip_empty, all_space_lstrip. Qed.

Lemma byte_of_N n : (n < 256)%N -> Ascii.N_of_ascii (Ascii.ascii_of_N n) = n.
Proof. apply Ascii.N_ascii_embedding. Qed.

(** Linear arithmetic with division and remainder by a constant. *)
Ltac dlia := zify; Z.to_euclidean_division_equations; lia.

Ltac cmpN :=
  repeat match goal with
         | |- context [(?x <=? ?y)%N] => destruct (N.leb_spec x y); try lia
         | |- context [(?x <? ?y)%N] => destruct (N.ltb_spec x y); try lia
         | |- context [(?x =? ?y)%N] => destruct (N.eqb_spec x y); try lia
         end.

Ltac cmpN' :=
  repeat match goal with
         | |- context [(?x <=? ?y)%N] => destruct (N.leb_spec x y); try dlia
         | |- context [(?x <? ?y)%N] => destruct (N.ltb_spec x y); try dlia
         end.

Lemma isspace_small c : isspace c = true -> (c < 65536)%N.
Proof. unfold isspace. cmpN; simpl; congruence. Qed.

Lemma utf8_1 c s : (c < 128)%N -> utf8 c +:+ s = String (Ascii.ascii_of_N c) s.
Proof. intros H. unfold utf8. now rewrite (proj2 (N.ltb_lt _ _) H). Qed.

Lemma utf8_2 c s :
  (128 <= c < 2048)%N ->
  utf8 c +:+ s = String (Ascii.ascii_of_N (192 + c / 64)) (String (Ascii.ascii_of_N (128 + c mod 64)) s).
Proof.
  intros H. unfold utf8.
  rewrite (proj2 (N.ltb_ge _ _)) by lia. now rewrite (proj2 (N.ltb_lt _ _)) by lia.
Qed.

Lemma utf8_3 c s :
  (2048 <= c < 65536)%N ->
  utf8 c +:+ s =
    String (Ascii.ascii_of_N (224 + c / 4096))
      (String (Ascii.ascii_of_N (128 + (c / 64) mod 64)) (String (Ascii.ascii_of_N (128 + c mod 64)) s)).
Proof.
  intros H. unfold utf8.
  rewrite (proj2 (N.ltb_ge _ _)) by lia. rewrite (proj2 (N.ltb_ge _ _)) by lia.
  now rewrite (proj2 (N.ltb_lt _ _)) by lia.
Qed.

Lemma utf8_4 c s :
  (65536 <= c)%N ->
  utf8 c +:+ s =
    String (Ascii.ascii_of_N (240 + c / 262144))
      (String (Ascii.ascii_of_N (128 + (c / 4096) mod 64))
         (String (Ascii.ascii_of_N (128 + (c / 64) mod 64)) (String (Ascii.ascii_of_N (128 + c mod 64)) s))).
Proof.
  intros H. unfold utf8. now rewrite !(proj2 (N.ltb_ge _ _)) by lia.
Qed.

(** The first character of an encoded text is decoded to its code point. *)
Lemma char1_utf8 c : (c < 128)%N -> char1 (Ascii.ascii_of_N c) = Some c.
Proof.
  intros H. unfold char1. rewrite byte_of_N by lia. cbv zeta. cmpN. reflexivity.
Qed.

Lemma char1_lead n : (128 <= n < 256)%N -> char1 (Ascii.ascii_of_N n) = None.
Proof.
  intros H. unfold char1. rewrite byte_of_N by lia. cbv zeta. cmpN. reflexivity.
Qed.

Lemma char2_utf8 c :
  (128 <= c < 2048)%N ->
  char2 (Ascii.ascii_of_N (192 + c / 64)) (Ascii.ascii_of_N (128 + c mod 64)) = Some c.
Proof.
  intros H. unfold char2, continuation. rewrite !byte_of_N by dlia. cbv zeta.
  cmpN'. simpl. f_equal. dlia.
Qed.

Lemma char2_lead n b : (n < 194 \/ 224 <= n)%N -> (n < 256)%N -> char2 (Ascii.ascii_of_N n) b = None.
Proof.
  intros H Hn. unfold char2. rewrite byte_of_N by lia. cbv zeta. cmpN; reflexivity.
Qed.

Lemma char3_utf8 c :
  (2048 <= c < 65536)%N ->
  char3 (Ascii.ascii_of_N (224 + c / 4096)) (Ascii.ascii_of_N (128 + (c / 64) mod 64))
    (Ascii.ascii_of_N (128 + c mod 64)) = Some c.
Proof.
  intros H. unfold char3, continuation. rewrite !byte_of_N by dlia. cbv zeta.
  replace ((224 + c / 4096 - 224) * 4096 + (128 + (c / 64) mod 64 - 128) * 64
           + (128 + c mod 64 - 128))%N with c by dlia.
  cmpN'. reflexivity.
Qed.

Lemma char3_lead n b c :
  (n < 224 \/ 240 <= n)%N -> (n < 256)%N -> char3 (Ascii.ascii_of_N n) b c = None.
Proof.
  intros H Hn. unfold char3. rewrite byte_of_N by lia. cbv zeta. cmpN; reflexivity.
Qed.


Lemma all_space_step a s1 :
  all_space (String a s1) =
    if space (char1 a) then all_space s1
    else match s1 with
         | EmptyString => false
         | String b s2 =>
             if space (char2 a b) then all_space s2
             else match s2 with
                  | EmptyString => false
                  | String c s3 => space (char3 a b c) && all_space s3
                  end
         end.
Proof. reflexivity. Qed.

Lemma lstrip_step a s1 :
  lstrip (String a s1) =
    if space (char1 a) then lstrip s1
    else match s1 with
         | EmptyString => String a s1
         | String b s2 =>
             if space (char2 a b) then lstrip s2
             else match s2 with
                  | EmptyString => String a s1
                  | String c s3 => if space (char3 a b c) then lstrip s3 else String a s1
                  end
         end.
Proof. reflexivity. Qed.

Lemma all_space_utf8 c s :
  (c < 1114112)%N -> all_space (utf8 c +:+ s) = isspace c && all_space s.
Proof.
  intros Hc.
  destruct (N.ltb_spec c 128) as [H1 | H1].
  { rewrite utf8_1 by exact H1. rewrite all_space_step, char1_utf8 by exact H1.
    cbn [space from_option]. destruct (isspace c); [reflexivity |].
    destruct s as [| b [| d s3]]; try reflexivity;
      rewrite char2_lead by lia; cbn [space from_option]; try reflexivity.
    now rewrite char3_lead by lia. }
  destruct (N.ltb_spec c 2048) as [H2 | H2].
  { rewrite utf8_2 by lia. rewrite all_space_step, char1_lead by dlia.
    rewrite char2_utf8 by lia. cbn [space from_option].
    destruct (isspace c); [reflexivity |].
    destruct s as [| d s3]; [reflexivity |].
    rewrite char3_lead by dlia. reflexivity. }
  destruct (N.ltb_spec c 65536) as [H3 | H3].
  { rewrite utf8_3 by lia. rewrite all_space_step, char1_lead by dlia.
    rewrite char2_lead by dlia. rewrite char3_utf8 by lia. reflexivity. }
  rewrite utf8_4 by lia. rewrite all_space_step, char1_lead by dlia.
  rewrite char2_lead by dlia. rewrite char3_lead by dlia. cbn [space from_option andb].
  destruct (isspace c) eqn:E; [| reflexivity]. apply isspace_small in E. lia.
Qed.

Lemma lstrip_utf8 c s :
  (c < 1114112)%N ->
  lstrip (utf8 c +:+ s) = if isspace c then lstrip s else utf8 c +:+ s.
Proof.
  intros Hc.
  destruct (N.ltb_spec c 128) as [H1 | H1].
  { rewrite utf8_1 by exact H1. rewrite lstrip_step, char1_utf8 by exact H1.
    cbn [space from_option]. destruct (isspace c); [reflexivity |].
    destruct s as [| b [| d s3]]; try reflexivity;
      rewrite char2_lead by lia; cbn [space from_option]; try reflexivity.
    now rewrite char3_lead by lia. }
  destruct (N.ltb_spec c 2048) as [H2 | H2].
  { rewrite utf8_2 by lia. rewrite lstrip_step, char1_lead by dlia.
    rewrite char2_utf8 by lia. cbn [space from_option].
    destruct (isspace c); [reflexivity |].
    destruct s as [| d s3]; [reflexivity |].
    rewrite char3_lead by dlia. reflexivity. }
  destruct (N.ltb_spec c 65536) as [H3 | H3].
  { rewrite utf8_3 by lia. rewrite lstrip_step, char1_lead by dlia.
    rewrite char2_lead by dlia. rewrite char3_utf8 by lia. reflexivity. }
  rewrite utf8_4 by lia. rewrite lstrip_step, char1_lead by dlia.
  rewrite char2_lead by dlia. rewrite char3_lead by dlia. cbn [space from_option].
  destruct (isspace c) eqn:E; [| reflexivity]. apply isspace_small in E. lia.
Qed.

(** A text is white space only exactly when [str.isspace] holds of each of
    its characters. *)
Lemma all_space_encode cps :
  Forall (fun c => (c < 1114112)%N) cps ->
  all_space (encode cps) = forallb isspace cps.
Proof.
  induction 1 as [| c cps Hc _ IH]; [reflexivity |].
  cbn [encode foldr forallb]. fold (encode cps). now rewrite all_space_utf8, IH.
Qed.

Lemma rstrip_step a s1 :
  rstrip (String a s1) =
    if all_space (String a s1) then EmptyString else String a (rstrip s1).
Proof. reflexivity. Qed.

(** No white space starts at a byte that continues a character. *)
Lemma all_space_continuation n t :
  (128 <= n < 192)%N -> all_space (String (Ascii.ascii_of_N n) t) = false.
Proof.
  intros H. rewrite all_space_step, char1_lead by lia. cbn [space from_option].
  destruct t as [| b [| c s3]]; try reflexivity;
    rewrite char2_lead by lia; cbn [space from_option]; try reflexivity.
  now rewrite char3_lead by lia.
Qed.

Lemma rstrip_utf8 c t :
  (c < 1114112)%N -> all_space (utf8 c +:+ t) = false ->
  rstrip (utf8 c +:+ t) = utf8 c +:+ rstrip t.
Proof.
  intros Hc. 
  destruct (N.ltb_spec c 128) as [H1 | H1].
  { rewrite !utf8_1 by exact H1. intros E. now rewrite rstrip_step, E. }
  destruct (N.ltb_spec c 2048) as [H2 | H2].
  { rewrite !utf8_2 by lia. intros E. rewrite rstrip_step, E.
    now rewrite rstrip_step, all_space_continuation by dlia. }
  destruct (N.ltb_spec c 65536) as [H3 | H3].
  { rewrite !utf8_3 by lia. intros E. rewrite rstrip_step, E.
    rewrite rstrip_step, all_space_continuation by dlia.
    now rewrite rstrip_step, all_space_continuation by dlia. }
  rewrite !utf8_4 by lia. intros E. rewrite rstrip_step, E.
  rewrite rstrip_step, all_space_continuation by dlia.
  rewrite rstrip_step, all_space_continuation by dlia.
  now rewrite rstrip_step, all_space_continuation by dlia.
Qed.

Lemma lstrip_chars_valid cps :
  Forall (fun c => (c < 1114112)%N) cps ->
  Forall (fun c => (c < 1114112)%N) (lstrip_chars cps).
Proof.
  induction 1 as [| c cps Hc H IH]; [constructor |]. simpl.
  destruct (isspace c); [exact IH | now constructor].
Qed.

Lemma lstrip_encode cps :
  Forall (fun c => (c < 1114112)%N) cps ->
  lstrip (encode cps) = encode (lstrip_chars cps).
Proof.
  induction 1 as [| c cps Hc _ IH]; [reflexivity |].
  cbn [encode foldr lstrip_chars]. fold (encode cps).
  rewrite lstrip_utf8 by exact Hc. destruct (isspace c); [exact IH | reflexivity].
Qed.

Lemma lstrip_chars_all cps : forallb isspace cps = true -> lstrip_chars cps = [].
Proof.
  induction cps as [| c cps IH]; [reflexivity |]. simpl. intros H.
  apply andb_prop in H as [H1 H2]. rewrite H1. now apply IH.
Qed.

Lemma lstrip_chars_app cps c :
  lstrip_chars (cps ++ [c]) =
    if forallb isspace cps then lstrip_chars [c] else lstrip_chars cps ++ [c].
Proof.
  induction cps as [| c0 cps IH]; [reflexivity |]. simpl.
  destruct (isspace c0); [exact IH | reflexivity].
Qed.

Lemma forallb_rev {X} (f : X -> bool) l : forallb f (rev l) = forallb f l.
Proof.
  induction l as [| x l IH]; [reflexivity |]. simpl.
  rewrite forallb_app, IH. simpl. rewrite andb_true_r. apply andb_comm.
Qed.

(** Stripping at the end keeps the first character unless all is white
    space. *)
Lemma rstrip_chars_cons c cps :
  rstrip_chars (c :: cps) =
    if forallb isspace (c :: cps) then [] else c :: rstrip_chars cps.
Proof.
  unfold rstrip_chars. cbn [rev forallb]. rewrite lstrip_chars_app, forallb_rev.
  destruct (forallb isspace cps) eqn:E.
  - rewrite andb_true_r. simpl. destruct (isspace c); [reflexivity |].
    rewrite (lstrip_chars_all (rev cps)) by now rewrite forallb_rev. reflexivity.
  - rewrite andb_false_r. now rewrite rev_app_distr.
Qed.

Lemma rstrip_encode cps :
  Forall (fun c => (c < 1114112)%N) cps ->
  rstrip (encode cps) = encode (rstrip_chars cps).
Proof.
  induction 1 as [| c cps Hc H IH]; [reflexivity |].
  rewrite rstrip_chars_cons.
  rewrite <- (all_space_encode (c :: cps)) by now constructor.
  destruct (all_space (encode (c :: cps))) eqn:E.
  - now apply rstrip_empty.
  - cbn [encode foldr] in *. fold (encode cps) in *.
    rewrite rstrip_utf8 by assumption. now rewrite IH.
Qed.

(** [strip] on the encoded text is [str.strip] on its characters: the white
    space at both ends is removed. *)
Lemma strip_encode cps :
  Forall (fun c => (c < 1114112)%N) cps ->
  strip (encode cps) = encode (strip_chars cps).
Proof.
  intros H. unfold strip, strip_chars.
  rewrite lstrip_encode by exact H.
  now rewrite rstrip_encode by now apply lstrip_chars_valid.
Qed.

(** X13. Validation of the note.  With the save button pressed, a note is
    rejected exactly when [str.isspace] holds of every one of its
    characters (the empty text included): then nothing but the warning
    happens.  Otherwise, on a store that answers, one row is appended, and
    the text stored is the text as it was typed, with the white space around
    it that the validation looked past, next to the note date and the time
    of saving. *)
Theorem note_is_validated_stripped_and_stored_raw ns inp cps (g : grid) w :
  answers w ->
  sheets w !! ns = Some g ->
  save_note_btn inp = true ->
  daily_note_text inp = encode cps ->
  Forall (fun c => (c < 1114112)%N) cps ->
  if forallb isspace cps
  then save_note_handler ns inp w = (inr tt, with_ui (ui w ++ [Warning_note_empty]) w)
  else (save_note_handler ns inp w).1 = inr tt /\
       sheets (save_note_handler ns inp w).2 !! ns =
         Some (g ++ [[CStr (strftime_Ymd (note_date inp));
                      CStr (encode cps);
                      CStr (clock w (ticks w))]]).
Proof.
  intros R Hs B Ht Hc. rewrite <- (all_space_encode cps Hc), <- Ht.
  destruct (all_space (daily_note_text inp)) eqn:E.
  - apply save_note_rejected; [exact B | now apply strip_empty].
  - rewrite (save_note_saved ns inp g w R Hs B).
    + split; [reflexivity |]. cbn. now rewrite lookup_insert_eq.
    + intros H. apply strip_empty in H. congruence.
Qed.

Lemma note_is_validated_stripped_and_stored_raw_witness :
  (save_note_handler NOTES_SHEET padded_note_inputs started).1 = inr tt /\
  sheets (save_note_handler NOTES_SHEET padded_note_inputs started).2 !! NOTES_SHEET =
    Some ([header_row NOTES_HEADER] ++
          [[CStr "2024-03-07"; CStr (encode padded_note); CStr (sample_clock 0)]]).
Proof.
  apply (note_is_validated_stripped_and_stored_raw NOTES_SHEET padded_note_inputs
           padded_note [header_row NOTES_HEADER] started).
  - reflexivity.
  - reflexivity.
  - reflexivity.
  - reflexivity.
  - repeat constructor.
Defined.

(** ** Repeated submissions *)

(** X14. The append paths do not deduplicate.  On a store that answers,
    submitting the same meal form twice leaves the meal table with the same
    row twice at its end; nothing compares the new row with the rows already
    there, unlike the upsert of a goal. *)
Theorem add_food_twice_appends_twice ms inp (g : grid) w :
  reliable w ->
  sheets w !! ms = Some g ->
  add_btn inp = true -> food_item inp <> "" ->
  let w1 := (add_food_handler ms inp w).2 in
  let w2 := (add_food_handler ms inp w1).2 in
  sheets w1 !! ms = Some (g ++ [meal_row inp]) /\
  sheets w2 !! ms = Some (g ++ [meal_row inp; meal_row inp]) /\
  forall name, name <> ms -> sheets w2 !! name = sheets w !! name.
Proof.
  intros R Hs B F w1 w2.
  assert (E1 : sheets w1 !! ms = Some (g ++ [meal_row inp])).
  { subst w1. rewrite (add_food_saved ms inp g w (R _) Hs B F). cbn.
    now rewrite lookup_insert_eq. }
  assert (R1 : answers w1).
  { subst w1. rewrite (add_food_saved ms inp g w (R _) Hs B F). apply R. }
  split; [exact E1 |]. subst w2.
  rewrite (add_food_saved ms inp _ w1 R1 E1 B F). cbn. split.
  - rewrite lookup_insert_eq, <- app_assoc. reflexivity.
  - intros name Hne. rewrite lookup_insert_ne by congruence.
    subst w1. rewrite (add_food_saved ms inp g w (R _) Hs B F). cbn.
    now rewrite lookup_insert_ne by congruence.
Qed.

Lemma add_food_twice_appends_twice_witness :
  sheets (add_food_handler MEALS_SHEET sample_inputs
            (add_food_handler MEALS_SHEET sample_inputs started).2).2 !! MEALS_SHEET =
    Some ([header_row MEALS_HEADER] ++ [meal_row sample_inputs; meal_row sample_inputs]).
Proof.
  apply (add_food_twice_appends_twice MEALS_SHEET sample_inputs
           [header_row MEALS_HEADER] started).
  - intros k. reflexivity.
  - reflexivity.
  - reflexivity.
  - discriminate.
Defined.

(** ** The goal of the month *)

Lemma goal_for_none recs label :
  goal_for recs label = None <-> Forall (fun p => matches label p = false) recs.
Proof.
  unfold goal_for. induction recs as [| p recs IH]; simpl.
  - split; [constructor | reflexivity].
  - destruct (matches label p) eqn:E.
    + split; [discriminate |]. intros H. inversion H; congruence.
    + rewrite IH. split; [now constructor | now inversion 1].
Qed.

Lemma goal_for_some recs label g :
  goal_for recs label = Some g -> g !! "month_year" = Some (CStr label).
Proof.
  unfold goal_for. intros H. apply List.find_some in H as [_ H].
  now apply matches_month_year.
Qed.

(** X15. The no-goal message means that no record matches.  The record that
    the summary finds for the month holds the key "month_year", so it is
    never an empty [dict] and the test [if goal_row] only tells a record
    found from none: the comparison ends in the message that no goal is set
    exactly when no record of the goal table carries the month label.  A
    record found gives the goal line and the flags, or an exception from
    [float]. *)
Theorem no_goal_message_iff_no_match recs label sum_cal sum_prot w :
  goal_check (goal_for recs label) label sum_cal sum_prot w = st Info_no_goal w
  <-> Forall (fun p => matches label p = false) recs.
Proof.
  rewrite <- goal_for_none. destruct (goal_for recs label) as [g |] eqn:E.
  2:{ split; reflexivity. }
  split; [| discriminate]. intros H. exfalso.
  apply goal_for_some in E. unfold goal_check in H.
  rewrite bool_decide_eq_false_2 in H.
  2:{ intros ->. rewrite lookup_empty in E. discriminate. }
  unfold bind, lift, st, modify in H.
  destruct (float_of_get (g !! "calorie_goal")); [discriminate |].
  destruct (float_of_get (g !! "protein_goal")); [discriminate |].
  cbn in H. injection H as H. rewrite <- app_assoc in H.
  apply app_inv_head in H. discriminate.
Qed.

(** ** A table without header *)

(** X16. A table without header row is not repaired, and its first meal is
    not counted.  When the meal worksheet exists and holds no row (what a
    failed initialization leaves behind) and the store answers the two
    look-ups and the append, [ensure_worksheet] writes no header and the meal
    submitted is appended as the first row of the worksheet.  The summary of
    the same run reads the table once; whether that read gives no record,
    the one row being taken for the header, or fails, the summary returns
    normally and its last message is "No food entries yet.", with at most
    the error of the read between it and the message that the meal is
    saved. *)
Theorem first_meal_becomes_the_header inp gs w :
  outage w (length (trace w)) = false ->
  outage w (S (length (trace w))) = false ->
  outage w (S (S (length (trace w)))) = false ->
  sheets w !! MEALS_SHEET = Some [] ->
  add_btn inp = true -> food_item inp <> "" ->
  let res :=
    (let* meals_ws := ensure_worksheet MEALS_SHEET MEALS_HEADER in
     run add_food_handler meals_ws inp in
     daily_summary meals_ws gs (summary_date inp)) w in
  res.1 = inr tt /\
  sheets res.2 !! MEALS_SHEET = Some [meal_row inp] /\
  trace res.2 = trace w ++ [Call_worksheet MEALS_SHEET; Call_worksheet MEALS_SHEET;
                            Call_append_row MEALS_SHEET (meal_row inp);
                            Call_get_all_records MEALS_SHEET] /\
  exists mid,
    (mid = [] \/ exists e, mid = [Error_fetch_meals e]) /\
    ui res.2 = ui w ++ [Success_saved (food_item inp) (CStr (food_item inp))
                          (CStr (strftime_HMS (entry_time inp)))]
                    ++ mid ++ [Info_no_entries_yet].
Proof.
  intros O0 O1 O2 Hs B F res. subst res.
  set (w1 := called (Call_worksheet MEALS_SHEET) w).
  set (w2 := called (Call_worksheet MEALS_SHEET) w1).
  assert (A1 : answers w1).
  { unfold answers. simpl. rewrite length_app. simpl. now rewrite Nat.add_1_r. }
  assert (A2 : answers w2).
  { unfold answers. simpl. rewrite !length_app. simpl. now rewrite !Nat.add_1_r. }
  assert (E : ensure_worksheet MEALS_SHEET MEALS_HEADER w = (inr MEALS_SHEET, w2)).
  { unfold ensure_worksheet.
    erewrite bind_inr;
      [| erewrite try_except_inr; [reflexivity | now apply (worksheet_found _ [])]].
    now apply (worksheet_found _ []). }
  rewrite (bind_inr _ _ _ _ _ E).
  rewrite (bind_inr _ _ _ _ _ (add_food_saved MEALS_SHEET inp [] w2 A2 Hs B F)).
  set (w3 := with_ui _ _).
  assert (Hm : sheets w3 !! MEALS_SHEET = Some [meal_row inp]).
  { subst w3. cbn. now rewrite lookup_insert_eq. }
  unfold daily_summary.
  destruct (outage w3 (length (trace w3))) eqn:O3.
  - erewrite bind_inr.
    2:{ erewrite try_except_inl.
        2:{ apply bind_inl. unfold get_all_records. apply bind_inl. now apply remote_out. }
        unfold bind, st, modify, ret. simpl. reflexivity. }
    rewrite df_empty_no_records.
    split; [reflexivity |]. split; [exact Hm |]. split.
    + cbn. now rewrite <- !app_assoc.
    + exists [Error_fetch_meals APIError]. split; [right; now eexists |].
      cbn. now rewrite <- !app_assoc.
  - erewrite bind_inr.
    2:{ apply try_except_inr. erewrite bind_inr; [reflexivity |].
        now apply (get_all_records_ok MEALS_SHEET [meal_row inp]). }
    change (records_of [meal_row inp]) with (@nil record).
    rewrite df_empty_no_records.
    split; [reflexivity |]. split; [exact Hm |]. split.
    + cbn. now rewrite <- !app_assoc.
    + exists []. split; [now left |]. cbn. now rewrite <- !app_assoc.
Qed.

Lemma first_meal_becomes_the_header_witness :
  sheets ((let* meals_ws := ensure_worksheet MEALS_SHEET MEALS_HEADER in
           run add_food_handler meals_ws sample_inputs in
           daily_summary meals_ws GOALS_SHEET (summary_date sample_inputs))
            (with_meals [] started)).2 !! MEALS_SHEET = Some [meal_row sample_inputs].
Proof.
  apply (first_meal_becomes_the_header sample_inputs GOALS_SHEET (with_meals [] started)).
  - reflexivity.
  - reflexivity.
  - reflexivity.
  - reflexivity.
  - reflexivity.
  - discriminate.
Defined.
